(** * aliyun-tts-proxy: the two text-to-speech proxies

    A shallow embedding of the two server files of the repository:

    - [DashScope] embeds the DashScope CosyVoice variant (profile A): the
      promise built by [synthesizeSpeech] with its [isSettled] latch, its
      60 s timer and the four WebSocket listeners, and the [/api/tts] route;
    - [Nls] embeds the NLS token-gateway variant (profile B, [server.js]):
      the token cache behind [getNlsToken], [synthesizeSpeech] with its 30 s
      timer and three listeners, and the [/api/tts] route.

    A session is a record of the variables the listeners close over; every
    listener is a function on that record, and an execution is the fold of
    the listeners over the events the runtime delivers. *)

From Stdlib Require Import ZArith NArith List Bool Lia.
From Stdlib.Strings Require Import String Ascii Byte.
From Stdlib Require Import DecimalString.
Import ListNotations.
Local Open Scope list_scope.

(* ================================================================== *)
(** * JavaScript values *)
(* ================================================================== *)

Module JS.

(** A JavaScript string is a sequence of UTF-16 code units; [length] is the
    [.length] of the source. *)
Definition codeunit := N.
Definition JSString := list codeunit.

(** A [Buffer] is a sequence of bytes. *)
Definition Buffer := list byte.

(** String literals of the source are written here as they are in the
    source files (UTF-8); [utf16] turns the bytes of a literal into its
    code units. *)
Fixpoint utf16 (bs : list N) : JSString :=
  match bs with
  | [] => []
  | b0 :: r0 =>
      if (b0 <? 128)%N then b0 :: utf16 r0
      else if (b0 <? 224)%N then
        match r0 with
        | b1 :: r1 =>
            N.lor (N.shiftl (N.land b0 31) 6) (N.land b1 63) :: utf16 r1
        | [] => [65533%N]
        end
      else if (b0 <? 240)%N then
        match r0 with
        | b1 :: b2 :: r2 =>
            N.lor (N.shiftl (N.land b0 15) 12)
              (N.lor (N.shiftl (N.land b1 63) 6) (N.land b2 63)) :: utf16 r2
        | _ => [65533%N]
        end
      else
        match r0 with
        | b1 :: b2 :: b3 :: r3 =>
            let cp := N.lor (N.shiftl (N.land b0 7) 18)
                        (N.lor (N.shiftl (N.land b1 63) 12)
                           (N.lor (N.shiftl (N.land b2 63) 6) (N.land b3 63))) in
            let v := (cp - 65536)%N in
            (55296 + N.shiftr v 10)%N :: (56320 + N.land v 1023)%N :: utf16 r3
        | _ => [65533%N]
        end
  end.

Definition js (s : string) : JSString :=
  utf16 (map Byte.to_N (list_byte_of_string s)).

Definition JSString_eqb (a b : JSString) : bool :=
  if list_eq_dec N.eq_dec a b then true else false.

(** ** JSON values

    What [JSON.parse] can return.  An object keeps its properties in order
    (the order [JSON.stringify] writes them in), each name once.  Numbers are
    kept to the integers: the one computation the source does on a number is
    on an expiry given in whole seconds.  A value that may be [undefined] is
    an [option JValue], [None] standing for [undefined]. *)
#[local] Unset Elimination Schemes.
Inductive JValue : Type :=
| JNull
| JBool (b : bool)
| JNum (n : Z)
| JStr (s : JSString)
| JArr (items : list JValue)
| JObj (fields : list (JSString * JValue)).
#[local] Set Elimination Schemes.

Inductive Exn : Type := SyntaxError | TypeError.

(** The result of evaluating an expression that can throw. *)
Inductive Completion (A : Type) : Type :=
| Normal (a : A)
| Throw (e : Exn).
Arguments Normal {A} a.
Arguments Throw {A} e.

Fixpoint assoc (k : JSString) (fields : list (JSString * JValue)) : option JValue :=
  match fields with
  | [] => None
  | (k', v) :: rest => if JSString_eqb k k' then Some v else assoc k rest
  end.

(** [get v k] is [v.k] for a [v] that is neither [null] nor [undefined], for
    the property names the source reads from parsed JSON (none of them is
    inherited from a prototype): an own property of an object, [undefined]
    otherwise. *)
Definition get (v : JValue) (k : JSString) : option JValue :=
  match v with
  | JObj fields => assoc k fields
  | _ => None
  end.

(** [v.k]: a [TypeError] on [null]. *)
Definition member (v : JValue) (k : JSString) : Completion (option JValue) :=
  match v with
  | JNull => Throw TypeError
  | _ => Normal (get v k)
  end.

(** [v?.k]: [undefined] on [null] and [undefined]. *)
Definition optional (v : option JValue) (k : JSString) : option JValue :=
  match v with
  | None | Some JNull => None
  | Some o => get o k
  end.

(** Truthiness, as [!v], [v || d] and [if (v)] test it. *)
Definition truthy (v : option JValue) : bool :=
  match v with
  | None | Some JNull => false
  | Some (JBool b) => b
  | Some (JNum n) => negb (n =? 0)%Z
  | Some (JStr s) => match s with [] => false | _ :: _ => true end
  | Some (JArr _) | Some (JObj _) => true
  end.

(** [v || d] with a defined [d]. *)
Definition or_else (v : option JValue) (d : JValue) : JValue :=
  match v with
  | Some x => if truthy v then x else d
  | None => d
  end.

(** [v === 'literal']. *)
Definition is_string (v : option JValue) (lit : JSString) : bool :=
  match v with
  | Some (JStr s) => JSString_eqb s lit
  | _ => false
  end.

(** A string argument that may be absent: [s || 'default'] and [!s]. *)
Definition present (s : option JSString) : bool :=
  match s with
  | Some (_ :: _) => true
  | _ => false
  end.

Definition or_default (s : option JSString) (d : JSString) : JSString :=
  match s with
  | Some (c :: r) => c :: r
  | _ => d
  end.

(** Decimal digits of an integer, as template literals write a number. *)
Definition decimal (n : Z) : JSString :=
  js (NilZero.string_of_int (Z.to_int n)).

(** The message V8 gives the [TypeError] of a value that cannot be turned
    into a primitive. *)
Definition MSG_NOT_PRIMITIVE : JSString := js "Cannot convert object to primitive value".

(** [String(v)], which [new Error(v)] and template literals apply.  An
    object is asked for its [toString] and then its [valueOf]: a parsed
    object that has a property of its own under [toString] hides the
    inherited method behind a value that cannot be called, the inherited
    [valueOf] gives the object back, and the conversion throws a
    [TypeError]; any other parsed object is ["[object Object]"].  An array
    joins the conversions of its elements, the first to throw first. *)
Fixpoint ToString (v : JValue) : Completion JSString :=
  match v with
  | JNull => Normal (js "null")
  | JBool true => Normal (js "true")
  | JBool false => Normal (js "false")
  | JNum n => Normal (decimal n)
  | JStr s => Normal s
  | JArr items =>
      (fix join (l : list JValue) : Completion JSString :=
         match l with
         | [] => Normal []
         | x :: rest =>
             match match x with JNull => Normal [] | _ => ToString x end with
             | Throw e => Throw e
             | Normal piece =>
                 match rest with
                 | [] => Normal piece
                 | _ :: _ =>
                     match join rest with
                     | Throw e => Throw e
                     | Normal others => Normal (piece ++ js "," ++ others)
                     end
                 end
             end
         end) items
  | JObj fields =>
      match assoc (js "toString") fields with
      | Some _ => Throw TypeError
      | None => Normal (js "[object Object]")
      end
  end.

Definition ToStringV (v : option JValue) : Completion JSString :=
  match v with
  | None => Normal (js "undefined")
  | Some x => ToString x
  end.

(** [Buffer.concat(chunks)]. *)
Definition Buffer_concat (chunks : list Buffer) : Buffer := List.concat chunks.

(** [haystack] holds [needle] as a contiguous run. *)
Definition includes (haystack needle : JSString) : Prop :=
  exists before after, haystack = before ++ needle ++ after.

End JS.
Import JS.

(* ================================================================== *)
(** * What the runtime gives a session: promise, timer, socket, events *)
(* ================================================================== *)

Module Runtime.

(** How the promise of [synthesizeSpeech] ends: [resolve(buffer)] or
    [reject(new Error(message))]. *)
Inductive Settlement : Type :=
| Resolved (audio : Buffer)
| Rejected (message : JSString).

(** The state of a promise is [None] while it is pending.  [resolve] and
    [reject] act on a pending promise only: the language ignores them on a
    promise that is settled. *)
Definition settle (p : option Settlement) (v : Settlement) : option Settlement :=
  match p with
  | None => Some v
  | Some _ => p
  end.

(** The timer made by [setTimeout(callback, ms)]: waiting, cancelled by
    [clearTimeout], or gone off. *)
Inductive Timer : Type :=
| Armed (ms : N)
| Cleared
| Fired.

Definition clear (t : Timer) : Timer :=
  match t with
  | Armed _ => Cleared
  | _ => t
  end.

Definition armed (t : option Timer) : bool :=
  match t with
  | Some (Armed _) => true
  | _ => false
  end.

(** The client socket: what it was built with and what was done to it.
    [sent] holds, oldest first, the objects handed to
    [ws.send(JSON.stringify(...))]. *)
Record WebSocket : Type := mkWebSocket {
  url : JSString;
  headers : list (JSString * JSString);
  sent : list JValue;
  closeCalled : bool;
  terminateCalled : bool
}.

Definition send (m : JValue) (w : WebSocket) : WebSocket :=
  mkWebSocket (url w) (headers w) (sent w ++ [m]) (closeCalled w) (terminateCalled w).

Definition close (w : WebSocket) : WebSocket :=
  mkWebSocket (url w) (headers w) (sent w) true (terminateCalled w).

Definition terminate (w : WebSocket) : WebSocket :=
  mkWebSocket (url w) (headers w) (sent w) (closeCalled w) true.

(** The events of the socket, with the arguments the listeners receive. *)
Inductive WsEvent : Type :=
| Open
| Message (data : Buffer) (isBinary : bool)
| Error (message : JSString)
| Close (code : N) (reason : option Buffer).

(** What the event loop runs: a listener of the socket or the callback of the
    timer. *)
Inductive Event : Type :=
| OnWs (e : WsEvent)
| OnTimer.

(** A line written to the console. *)
Inductive LogLine : Type :=
| Log (args : list JValue)
| Warn (label : JSString) (e : Exn)
| Err (args : list JValue).

(** The socket events of a session come with the time (in milliseconds since
    the timer was set) at which they are delivered.  The timer is due at its
    delay: the events before that instant are delivered first, then the
    callback of the timer is due, then the later events. *)
Definition early (ms : N) (te : N * WsEvent) : bool := (fst te <? ms)%N.

Definition until (ms : N) (trace : list (N * WsEvent)) : list Event :=
  map (fun te => OnWs (snd te)) (filter (early ms) trace).

Definition from (ms : N) (trace : list (N * WsEvent)) : list Event :=
  map (fun te => OnWs (snd te)) (filter (fun te => negb (early ms te)) trace).

Definition schedule (t : option Timer) (trace : list (N * WsEvent)) : list Event :=
  match t with
  | Some (Armed ms) => until ms trace ++ OnTimer :: from ms trace
  | _ => map (fun te => OnWs (snd te)) trace
  end.

(** The binary frames among the events, in their order of arrival. *)
Fixpoint frames (evs : list Event) : list Buffer :=
  match evs with
  | [] => []
  | OnWs (Message data true) :: rest => data :: frames rest
  | _ :: rest => frames rest
  end.

(** The [contentType] a route hands to the upload: a media type, or, when
    the format of the request names a member that every object inherits,
    that member of [Object.prototype]. *)
Inductive ContentType : Type :=
| Mime (type : JSString)
| Inherited (name : JSString).

(** A call that leaves the process: the WebSocket connection, the token
    request, the upload to storage. *)
Inductive NetCall : Type :=
| Connect (url : JSString) (headers : list (JSString * JSString))
| Post (hostname : JSString)
| Upload (fileName : JSString) (bytes : Buffer) (contentType : ContentType).

(** The fields the route reads from the JSON body of a request; [None] is a
    field that is not there.  The fields are strings, as the requests of the
    service have them. *)
Record Body : Type := mkBody {
  text : option JSString;
  voice : option JSString;
  model : option JSString;
  format : option JSString;
  apikey : option JSString
}.

(** [res.status(status).json(body)] *)
Record Response : Type := mkResponse {
  status : N;
  body : JValue
}.

(** What handling a request comes to: the response, [None] when the handler
    waits for ever on a promise that does not settle, and the calls made
    over the network, in order. *)
Record Outcome : Type := mkOutcome {
  response : option Response;
  network : list NetCall
}.

Definition failure (code : N) (message : JSString) : Response :=
  mkResponse code (JObj [ (js "success", JBool false); (js "error", JStr message) ]).

Definition success (publicUrl : JSString) (char_count : nat) : Response :=
  mkResponse 200 (JObj [ (js "success", JBool true);
                         (js "url", JStr publicUrl);
                         (js "char_count", JNum (Z.of_nat char_count)) ]).

(** A destructuring default, [{ field = 'default' }]: taken when the field
    is [undefined]. *)
Definition defaulted (field : option JSString) (d : JSString) : JSString :=
  match field with
  | Some v => v
  | None => d
  end.

End Runtime.
Import Runtime.

(* ================================================================== *)
(** * Profile A: the DashScope CosyVoice server *)
(* ================================================================== *)

Module DashScope.

(** The variables the listeners of one call of [synthesizeSpeech] close
    over, with the promise the call returns.  [settleCalls] lists every call
    of [resolve] or [reject], oldest first, whether the promise took it or
    not; [ws] and [timeout] are [None] when the call returned before it made
    them. *)
Record Session : Type := mkSession {
  promise : option Settlement;
  settleCalls : list Settlement;
  isSettled : bool;
  audioChunks : list Buffer;
  ws : option WebSocket;
  timeout : option Timer;
  console : list LogLine
}.

Definition Action := Session -> Session.

Definition seq (a b : Action) : Action := fun s => b (a s).
Notation "a ;; b" := (seq a b) (at level 61, left associativity).

Definition skip : Action := fun s => s.

Definition call_settle (v : Settlement) : Action := fun s =>
  mkSession (settle (promise s) v) (settleCalls s ++ [v]) (isSettled s)
    (audioChunks s) (ws s) (timeout s) (console s).

Definition resolve (audio : Buffer) : Action := call_settle (Resolved audio).
Definition reject (message : JSString) : Action := call_settle (Rejected message).

Definition set_isSettled (b : bool) : Action := fun s =>
  mkSession (promise s) (settleCalls s) b (audioChunks s) (ws s) (timeout s) (console s).

Definition push_chunk (chunk : Buffer) : Action := fun s =>
  mkSession (promise s) (settleCalls s) (isSettled s) (audioChunks s ++ [chunk])
    (ws s) (timeout s) (console s).

Definition on_ws (f : WebSocket -> WebSocket) : Action := fun s =>
  mkSession (promise s) (settleCalls s) (isSettled s) (audioChunks s)
    (option_map f (ws s)) (timeout s) (console s).

Definition ws_send (m : JValue) : Action := on_ws (send m).
Definition ws_close : Action := on_ws close.
Definition ws_terminate : Action := on_ws terminate.

Definition set_timeout (t : option Timer) : Action := fun s =>
  mkSession (promise s) (settleCalls s) (isSettled s) (audioChunks s) (ws s) t (console s).

Definition clearTimeout : Action := fun s => set_timeout (option_map clear (timeout s)) s.

Definition write (l : LogLine) : Action := fun s =>
  mkSession (promise s) (settleCalls s) (isSettled s) (audioChunks s) (ws s)
    (timeout s) (console s ++ [l]).

(** [if (!isSettled) { isSettled = true; ... }] *)
Definition once (a : Action) : Action := fun s =>
  if isSettled s then s else (set_isSettled true ;; a) s.

Definition wsUrl : JSString := js "wss://dashscope.aliyuncs.com/api-ws/v1/inference/".
Definition TIMEOUT_MS : N := 60000.
Definition MSG_NO_KEY : JSString := js "缺少 apikey 参数，且未设置 DASHSCOPE_API_KEY 环境变量".
Definition MSG_TIMEOUT : JSString := js "WebSocket 超时（60秒），请检查 DASHSCOPE_API_KEY 是否有效".
Definition MSG_FAILED : JSString := js "语音合成失败".
Definition MSG_WS_ERROR : JSString := js "WebSocket 错误: ".
Definition MSG_CLOSED : JSString := js "WebSocket 意外关闭，code: ".
Definition MSG_REASON : JSString := js "，原因: ".
Definition MSG_UNKNOWN : JSString := js "未知".

Section Invocation.

(** [data.toString()] on a [Buffer] and [JSON.parse], [None] when it throws
    its [SyntaxError]. *)
Variable toString : Buffer -> JSString.
Variable JSON_parse : JSString -> option JValue.

(** The arguments of the call, the environment variable and the identifier
    drawn by [generateId()]. *)
Variable text : JSString.
Variables voice model format userApiKey : option JSString.
Variable DASHSCOPE_API_KEY : option JSString.
Variable taskId : JSString.

(** [userApiKey || process.env.DASHSCOPE_API_KEY] *)
Definition apiKey : option JSString :=
  if present userApiKey then userApiKey else DASHSCOPE_API_KEY.

Definition header (action : string) : JValue :=
  JObj [ (js "action", JStr (js action));
         (js "task_id", JStr taskId);
         (js "streaming", JStr (js "duplex")) ].

Definition runTask : JValue :=
  JObj [ (js "header", header "run-task");
         (js "payload",
           JObj [ (js "task_group", JStr (js "audio"));
                  (js "task", JStr (js "tts"));
                  (js "function", JStr (js "SpeechSynthesizer"));
                  (js "model", JStr (or_default model (js "cosyvoice-v3-flash")));
                  (js "parameters",
                    JObj [ (js "text_type", JStr (js "PlainText"));
                           (js "voice", JStr (or_default voice (js "longanyang")));
                           (js "format", JStr (or_default format (js "mp3")));
                           (js "sample_rate", JNum 22050);
                           (js "volume", JNum 50);
                           (js "rate", JNum 1);
                           (js "pitch", JNum 1) ]);
                  (js "input", JObj []) ]) ].

Definition continueTask : JValue :=
  JObj [ (js "header", header "continue-task");
         (js "payload", JObj [ (js "input", JObj [ (js "text", JStr text) ]) ]) ].

Definition finishTask : JValue :=
  JObj [ (js "header", header "finish-task");
         (js "payload", JObj [ (js "input", JObj []) ]) ].

(** The callback of [setTimeout]. *)
Definition onTimeout : Action :=
  once (ws_terminate ;; reject MSG_TIMEOUT).

(** [ws.on('open', ...)] *)
Definition onOpen : Action :=
  write (Log [JStr (js "[TTS] WebSocket 已连接 DashScope")]) ;;
  ws_send runTask.

Definition onTaskStarted : Action :=
  write (Log [JStr (js "[TTS] 任务已开始，发送文本...")]) ;;
  ws_send continueTask ;;
  ws_send finishTask.

Definition onTaskFinished : Action := fun s =>
  (write (Log [JStr (js "[TTS] 任务完成，音频块数量:");
               JNum (Z.of_nat (List.length (audioChunks s)))]) ;;
   clearTimeout ;;
   ws_close ;;
   once (resolve (Buffer_concat (audioChunks s)))) s.

Definition onParseFailure (e : Exn) : Action :=
  write (Warn (js "[TTS] 解析消息失败:") e).

(** [new Error(errMsg)] is built after the latch is set; when it throws, the
    [catch] of the listener takes the exception and [reject] is not called. *)
Definition onTaskFailed (hdr : option JValue) : Action :=
  let errMsg := or_else (optional hdr (js "error_message")) (JStr MSG_FAILED) in
  write (Err [JStr (js "[TTS] 任务失败:"); errMsg]) ;;
  clearTimeout ;;
  ws_close ;;
  once (match ToString errMsg with
        | Normal message => reject message
        | Throw e => onParseFailure e
        end).

(** [ws.on('message', (data, isBinary) => ...)].  The [try] block throws
    where [JSON.parse] does and where [msg.header] is read from [null]; the
    socket is open whenever a message arrives, so [ws.send] does not. *)
Definition onMessage (data : Buffer) (isBinary : bool) : Action :=
  if isBinary then push_chunk data
  else
    match JSON_parse (toString data) with
    | None => onParseFailure SyntaxError
    | Some msg =>
        match member msg (js "header") with
        | Throw e => onParseFailure e
        | Normal hdr =>
            let event := optional hdr (js "event") in
            if is_string event (js "task-started") then onTaskStarted
            else if is_string event (js "task-finished") then onTaskFinished
            else if is_string event (js "task-failed") then onTaskFailed hdr
            else skip
        end
    end.

(** [ws.on('error', (err) => ...)], on [err.message]. *)
Definition onError (message : JSString) : Action :=
  clearTimeout ;;
  once (reject (MSG_WS_ERROR ++ message)).

(** [reason?.toString() || '未知'] *)
Definition reasonText (reason : option Buffer) : JSString :=
  match reason with
  | Some b => match toString b with [] => MSG_UNKNOWN | c :: r => c :: r end
  | None => MSG_UNKNOWN
  end.

(** [ws.on('close', (code, reason) => ...)] *)
Definition onClose (code : N) (reason : option Buffer) : Action :=
  clearTimeout ;;
  once (reject (MSG_CLOSED ++ decimal (Z.of_N code) ++ MSG_REASON ++ reasonText reason)).

(** The state in which [synthesizeSpeech] returns its promise: rejected at
    once without a key, and otherwise pending, with the socket built and the
    timer set. *)
Definition synthesizeSpeech : Session :=
  match apiKey with
  | Some (c :: r) =>
      mkSession None [] false []
        (Some (mkWebSocket wsUrl [(js "Authorization", js "bearer " ++ c :: r)] [] false false))
        (Some (Armed TIMEOUT_MS)) []
  | _ =>
      mkSession (Some (Rejected MSG_NO_KEY)) [Rejected MSG_NO_KEY] false [] None None []
  end.

(** One turn of the event loop.  A listener exists only on a socket that was
    built; the callback of the timer runs only while the timer is armed. *)
Definition deliver (s : Session) (e : Event) : Session :=
  match ws s with
  | None => s
  | Some _ =>
      match e with
      | OnWs Open => onOpen s
      | OnWs (Message data isBinary) => onMessage data isBinary s
      | OnWs (Error message) => onError message s
      | OnWs (Close code reason) => onClose code reason s
      | OnTimer =>
          if armed (timeout s) then (set_timeout (Some Fired) ;; onTimeout) s else s
      end
  end.

Definition run (evs : list Event) (s : Session) : Session := fold_left deliver evs s.

(** The call from its start to the end of a timed trace of socket events. *)
Definition session (trace : list (N * WsEvent)) : Session :=
  run (schedule (timeout synthesizeSpeech) trace) synthesizeSpeech.

End Invocation.

(** ** The route [POST /api/tts] *)

Definition MAX_TEXT : nat := 5000.
Definition MSG_NO_TEXT : JSString := js "缺少 text 参数".
Definition MSG_TOO_LONG : JSString := js "文本超过5000字符限制".
Definition MSG_UPLOAD : JSString := js "Supabase 上传失败: ".

(** What the handler meets outside itself while it serves one request. *)
Record World : Type := mkWorld {
  env_DASHSCOPE_API_KEY : option JSString;
  generatedId : JSString;
  trace : list (N * WsEvent);
  now : Z;
  randomHex : JSString;
  uploadError : option JSString;
  publicUrl : JSString -> JSString
}.

(** The members every object inherits from [Object.prototype]. *)
Definition inherited : list string :=
  [ "constructor"; "__defineGetter__"; "__defineSetter__"; "hasOwnProperty";
    "__lookupGetter__"; "__lookupSetter__"; "isPrototypeOf"; "propertyIsEnumerable";
    "toString"; "valueOf"; "__proto__"; "toLocaleString" ]%string.

(** [contentTypeMap[format] || 'audio/mpeg']: the entry of the map, the
    inherited member when the format names one (each is truthy), and the
    default otherwise. *)
Definition contentType (format : JSString) : ContentType :=
  if JSString_eqb format (js "wav") then Mime (js "audio/wav")
  else if JSString_eqb format (js "opus") then Mime (js "audio/ogg")
  else if JSString_eqb format (js "mp3") then Mime (js "audio/mpeg")
  else if existsb (fun name => JSString_eqb format (js name)) inherited then Inherited format
  else Mime (js "audio/mpeg").

Definition connections (s : Session) : list NetCall :=
  match ws s with
  | Some w => [Connect (url w) (headers w)]
  | None => []
  end.

Section Route.

Variable toString : Buffer -> JSString.
Variable JSON_parse : JSString -> option JValue.

Definition api_tts (b : Body) (w : World) : Outcome :=
  let voice := defaulted (voice b) (js "longanyang") in
  let model := defaulted (model b) (js "cosyvoice-v3-flash") in
  let format := defaulted (format b) (js "mp3") in
  match text b with
  | None | Some [] => mkOutcome (Some (failure 400 MSG_NO_TEXT)) []
  | Some text =>
      if (MAX_TEXT <? List.length text)%nat
      then mkOutcome (Some (failure 400 MSG_TOO_LONG)) []
      else
        let s := session toString JSON_parse text (Some voice) (Some model) (Some format)
                   (apikey b) (env_DASHSCOPE_API_KEY w) (generatedId w) (trace w) in
        match promise s with
        | None => mkOutcome None (connections s)
        | Some (Rejected message) => mkOutcome (Some (failure 500 message)) (connections s)
        | Some (Resolved audioBuffer) =>
            let fileName :=
              js "tts/" ++ decimal (now w) ++ js "_" ++ randomHex w ++ js "." ++ format in
            let calls := connections s ++ [Upload fileName audioBuffer (contentType format)] in
            match uploadError w with
            | Some message => mkOutcome (Some (failure 500 (MSG_UPLOAD ++ message))) calls
            | None => mkOutcome (Some (success (publicUrl w fileName) (List.length text))) calls
            end
        end
  end.

End Route.

End DashScope.

(* ================================================================== *)
(** * Profile B: the NLS token-gateway server ([server.js]) *)
(* ================================================================== *)

Module Nls.

(** ** The token cache and [getNlsToken] *)

(** [tokenCache]: [id] is any value a response can hold, or [undefined];
    [expireTime] is a number, [None] standing for [NaN]. *)
Record TokenCache : Type := mkTokenCache {
  id : option JValue;
  expireTime : option Z
}.

(** [let tokenCache = { id: null, expireTime: 0 }] *)
Definition tokenCache0 : TokenCache := mkTokenCache (Some JNull) (Some 0%Z).

(** How the HTTPS request for a token ends: the whole body at ['end'], or
    the ['error'] of the request with its message. *)
Inductive HttpOutcome : Type :=
| HttpEnd (data : JSString)
| HttpError (message : JSString).

(** How the promise of [getNlsToken] settles. *)
Inductive TokenResult : Type :=
| TokenResolved (token : option JValue)
| TokenRejected (message : JSString).

Definition tokenHost : JSString := js "nls-meta.cn-shanghai.aliyuncs.com".
Definition MSG_TOKEN_FAILED : JSString := js "获取Token失败: ".
Definition MSG_TOKEN_PARSE : JSString := js "解析Token响应失败: ".

(** [Date.now() < tokenCache.expireTime] *)
Definition before (now : Z) (t : option Z) : bool :=
  match t with
  | Some e => (now <? e)%Z
  | None => false
  end.

Section Token.

Variable JSON_parse : JSString -> option JValue.

(** The number a string converts to, [None] for [NaN]. *)
Variable StringToNumber : JSString -> option Z.

(** The number a value converts to in arithmetic, [None] for [NaN]; an
    object or array goes through its string, and throws where that does. *)
Definition ToNumber (v : option JValue) : Completion (option Z) :=
  match v with
  | None => Normal None
  | Some JNull => Normal (Some 0%Z)
  | Some (JBool b) => Normal (Some (if b then 1 else 0)%Z)
  | Some (JNum n) => Normal (Some n)
  | Some (JStr s) => Normal (StringToNumber s)
  | Some (JArr items) =>
      match ToString (JArr items) with
      | Normal s => Normal (StringToNumber s)
      | Throw e => Throw e
      end
  | Some (JObj fields) =>
      match ToString (JObj fields) with
      | Normal s => Normal (StringToNumber s)
      | Throw e => Throw e
      end
  end.

(** The listener of ['end'] on the response: the settlement and the cache it
    leaves.  Whatever throws inside the [try] is reported as a response that
    did not parse; [tokenCache.id] is assigned before the expiry is
    computed, so it stays assigned when that computation throws. *)
Definition onEnd (data : JSString) (cache : TokenCache) : TokenResult * TokenCache :=
  match JSON_parse data with
  | None => (TokenRejected (MSG_TOKEN_PARSE ++ data), cache)
  | Some result =>
      match member result (js "Token") with
      | Throw _ => (TokenRejected (MSG_TOKEN_PARSE ++ data), cache)
      | Normal Token =>
          if truthy Token then
            let Id := optional Token (js "Id") in
            match ToNumber (optional Token (js "ExpireTime")) with
            | Normal ExpireTime =>
                (TokenResolved Id,
                 mkTokenCache Id (option_map (fun e => e * 1000 - 60000)%Z ExpireTime))
            | Throw _ =>
                (TokenRejected (MSG_TOKEN_PARSE ++ data), mkTokenCache Id (expireTime cache))
            end
          else
            match ToString (or_else (get result (js "Message"))
                              (JStr (MSG_TOKEN_FAILED ++ data))) with
            | Normal message => (TokenRejected message, cache)
            | Throw _ => (TokenRejected (MSG_TOKEN_PARSE ++ data), cache)
            end
      end
  end.

(** [getNlsToken()] called at time [now] on a cache, with the end of the
    request it makes if it makes one: the settlement, the cache afterwards
    and the requests issued. *)
Definition getNlsToken (now : Z) (cache : TokenCache) (http : HttpOutcome)
  : TokenResult * TokenCache * list NetCall :=
  if truthy (id cache) && before now (expireTime cache)
  then (TokenResolved (id cache), cache, [])
  else
    match http with
    | HttpEnd data => (onEnd data cache, [Post tokenHost])
    | HttpError message => (TokenRejected message, cache, [Post tokenHost])
    end.

End Token.

(** ** [synthesizeSpeech] *)

(** The variables the listeners close over, with the promise.  [ws] and
    [timeout] are [None] when the call ended before it made them; [drawn]
    counts the identifiers taken from [generateId()]; [uncaught] is the
    exception that left a listener, which nothing in the file catches: the
    process ends there and no later event is delivered. *)
Record Session : Type := mkSession {
  promise : option Settlement;
  settleCalls : list Settlement;
  audioChunks : list Buffer;
  ws : option WebSocket;
  timeout : option Timer;
  drawn : nat;
  uncaught : option Exn
}.

Definition Action := Session -> Session.

Definition seq (a b : Action) : Action := fun s => b (a s).
Notation "a ;; b" := (seq a b) (at level 61, left associativity).

Definition skip : Action := fun s => s.

Definition call_settle (v : Settlement) : Action := fun s =>
  mkSession (settle (promise s) v) (settleCalls s ++ [v]) (audioChunks s) (ws s)
    (timeout s) (drawn s) (uncaught s).

Definition resolve (audio : Buffer) : Action := call_settle (Resolved audio).
Definition reject (message : JSString) : Action := call_settle (Rejected message).

Definition push_chunk (chunk : Buffer) : Action := fun s =>
  mkSession (promise s) (settleCalls s) (audioChunks s ++ [chunk]) (ws s)
    (timeout s) (drawn s) (uncaught s).

Definition on_ws (f : WebSocket -> WebSocket) : Action := fun s =>
  mkSession (promise s) (settleCalls s) (audioChunks s) (option_map f (ws s))
    (timeout s) (drawn s) (uncaught s).

Definition ws_close : Action := on_ws close.
Definition ws_terminate : Action := on_ws terminate.

Definition set_timeout (t : option Timer) : Action := fun s =>
  mkSession (promise s) (settleCalls s) (audioChunks s) (ws s) t (drawn s) (uncaught s).

Definition clearTimeout : Action := fun s => set_timeout (option_map clear (timeout s)) s.

Definition throw (e : Exn) : Action := fun s =>
  mkSession (promise s) (settleCalls s) (audioChunks s) (ws s) (timeout s) (drawn s) (Some e).

(** [`wss://nls-gateway-cn-beijing.aliyuncs.com/ws/v1?token=${token}`]: the
    template converts the token to a string, and throws where that does. *)
Definition wsUrl (token : option JValue) : Completion JSString :=
  match ToStringV token with
  | Normal t => Normal (js "wss://nls-gateway-cn-beijing.aliyuncs.com/ws/v1?token=" ++ t)
  | Throw e => Throw e
  end.
Definition TIMEOUT_MS : N := 30000.
Definition MSG_TIMEOUT : JSString := js "WebSocket 超时，请检查配置".
Definition MSG_FAILED : JSString := js "语音合成失败".

Section Invocation.

Variable toString : Buffer -> JSString.
Variable JSON_parse : JSString -> option JValue.

(** The identifiers [generateId()] hands to this call, in the order drawn. *)
Variable randomIds : nat -> JSString.

(** The arguments of the call and [process.env.ALIYUN_APPKEY]. *)
Variable text : JSString.
Variables voice format : option JSString.
Variable token : option JValue.
Variable ALIYUN_APPKEY : option JSString.

Definition taskId : JSString := randomIds 0.

(** A header; [JSON.stringify] leaves [appkey] out when it is [undefined]. *)
Definition header (message_id : JSString) (name : string) : JValue :=
  JObj ([ (js "message_id", JStr message_id);
          (js "task_id", JStr taskId);
          (js "namespace", JStr (js "FlowingSpeechSynthesizer"));
          (js "name", JStr (js name)) ]
        ++ match ALIYUN_APPKEY with
           | Some appkey => [ (js "appkey", JStr appkey) ]
           | None => []
           end).

Definition startSynthesis (message_id : JSString) : JValue :=
  JObj [ (js "header", header message_id "StartSynthesis");
         (js "payload",
           JObj [ (js "voice", JStr (or_default voice (js "longxiaochun")));
                  (js "format", JStr (or_default format (js "mp3")));
                  (js "sample_rate", JNum 16000);
                  (js "volume", JNum 50);
                  (js "speech_rate", JNum 0);
                  (js "pitch_rate", JNum 0) ]) ].

Definition runSynthesis (message_id : JSString) : JValue :=
  JObj [ (js "header", header message_id "RunSynthesis");
         (js "payload", JObj [ (js "text", JStr text) ]) ].

Definition stopSynthesis (message_id : JSString) : JValue :=
  JObj [ (js "header", header message_id "StopSynthesis") ].

(** [ws.send(JSON.stringify({ header: { message_id: generateId(), ... } }))] *)
Definition ws_send (m : JSString -> JValue) : Action := fun s =>
  mkSession (promise s) (settleCalls s) (audioChunks s)
    (option_map (send (m (randomIds (drawn s)))) (ws s)) (timeout s) (S (drawn s))
    (uncaught s).

(** The callback of [setTimeout]. *)
Definition onTimeout : Action :=
  ws_terminate ;; reject MSG_TIMEOUT.

(** [ws.on('open', ...)] *)
Definition onOpen : Action := ws_send startSynthesis.

Definition onSynthesisStarted : Action :=
  ws_send runSynthesis ;; ws_send stopSynthesis.

Definition onSynthesisCompleted : Action := fun s =>
  (clearTimeout ;; ws_close ;; resolve (Buffer_concat (audioChunks s))) s.

(** Nothing catches what [new Error(...)] throws here: the exception leaves
    the listener and [reject] is not called. *)
Definition onTaskFailed (hdr : option JValue) : Action :=
  clearTimeout ;;
  ws_close ;;
  match ToString (or_else (optional hdr (js "status_message")) (JStr MSG_FAILED)) with
  | Normal message => reject message
  | Throw e => throw e
  end.

(** [ws.on('message', (data, isBinary) => ...)]: no [try] around the text
    branch. *)
Definition onMessage (data : Buffer) (isBinary : bool) : Action :=
  if isBinary then push_chunk data
  else
    match JSON_parse (toString data) with
    | None => throw SyntaxError
    | Some msg =>
        match member msg (js "header") with
        | Throw e => throw e
        | Normal hdr =>
            let name := optional hdr (js "name") in
            if is_string name (js "SynthesisStarted") then onSynthesisStarted
            else if is_string name (js "SynthesisCompleted") then onSynthesisCompleted
            else if is_string name (js "TaskFailed") then onTaskFailed hdr
            else skip
        end
    end.

(** [ws.on('error', (err) => ...)]: rejects with [err] itself. *)
Definition onError (message : JSString) : Action :=
  clearTimeout ;; reject message.

(** The state in which [synthesizeSpeech] returns its promise.  The address
    is built first: when the template throws, the executor ends there and
    the constructor of the promise rejects it with what was thrown, before a
    socket, an identifier or a timer is made; otherwise the promise is
    pending, with the socket built, the task identifier drawn and the timer
    set. *)
Definition synthesizeSpeech : Session :=
  match wsUrl token with
  | Normal address =>
      mkSession None [] [] (Some (mkWebSocket address [] [] false false))
        (Some (Armed TIMEOUT_MS)) 1 None
  | Throw _ =>
      mkSession (Some (Rejected MSG_NOT_PRIMITIVE)) [Rejected MSG_NOT_PRIMITIVE] []
        None None 0 None
  end.

(** One turn of the event loop.  A listener exists only on a socket that was
    built, and there is none for ['close']. *)
Definition deliver (s : Session) (e : Event) : Session :=
  match ws s with
  | None => s
  | Some _ =>
      match uncaught s with
      | Some _ => s
      | None =>
          match e with
          | OnWs Open => onOpen s
          | OnWs (Message data isBinary) => onMessage data isBinary s
          | OnWs (Error message) => onError message s
          | OnWs (Close _ _) => s
          | OnTimer =>
              if armed (timeout s) then (set_timeout (Some Fired) ;; onTimeout) s else s
          end
      end
  end.

Definition run (evs : list Event) (s : Session) : Session := fold_left deliver evs s.

Definition session (trace : list (N * WsEvent)) : Session :=
  run (schedule (timeout synthesizeSpeech) trace) synthesizeSpeech.

End Invocation.

(** ** The route [POST /api/tts] *)

Definition MAX_TEXT : nat := 2000.
Definition MSG_NO_TEXT : JSString := js "缺少 text 参数".
Definition MSG_TOO_LONG : JSString := js "文本超过2000字符限制".
Definition MSG_UPLOAD : JSString := js "Supabase 上传失败: ".

Record World : Type := mkWorld {
  env_ALIYUN_APPKEY : option JSString;
  tokenTime : Z;
  http : HttpOutcome;
  generatedIds : nat -> JSString;
  trace : list (N * WsEvent);
  now : Z;
  fileId : JSString;
  uploadError : option JSString;
  publicUrl : JSString -> JSString
}.

(** [format === 'wav' ? 'audio/wav' : 'audio/mpeg'] *)
Definition contentType (format : JSString) : ContentType :=
  if JSString_eqb format (js "wav") then Mime (js "audio/wav") else Mime (js "audio/mpeg").

(** The connection of a call, when it built its socket. *)
Definition connections (s : Session) : list NetCall :=
  match ws s with
  | Some w => [Connect (url w) (headers w)]
  | None => []
  end.

Section Route.

Variable toString : Buffer -> JSString.
Variable JSON_parse : JSString -> option JValue.
Variable StringToNumber : JSString -> option Z.

(** The outcome of a request and the token cache it leaves. *)
Definition api_tts (b : Body) (cache : TokenCache) (w : World) : Outcome * TokenCache :=
  let voice := defaulted (voice b) (js "longxiaochun") in
  let format := defaulted (format b) (js "mp3") in
  match text b with
  | None | Some [] => (mkOutcome (Some (failure 400 MSG_NO_TEXT)) [], cache)
  | Some text =>
      if (MAX_TEXT <? List.length text)%nat
      then (mkOutcome (Some (failure 400 MSG_TOO_LONG)) [], cache)
      else
        match getNlsToken JSON_parse StringToNumber (tokenTime w) cache (http w) with
        | (TokenRejected message, cache', requests) =>
            (mkOutcome (Some (failure 500 message)) requests, cache')
        | (TokenResolved token, cache', requests) =>
            let s := session toString JSON_parse (generatedIds w) text (Some voice)
                       (Some format) token (env_ALIYUN_APPKEY w) (trace w) in
            let calls := requests ++ connections s in
            match promise s with
            | None => (mkOutcome None calls, cache')
            | Some (Rejected message) => (mkOutcome (Some (failure 500 message)) calls, cache')
            | Some (Resolved audioBuffer) =>
                let fileName :=
                  js "tts/" ++ decimal (now w) ++ js "_" ++ firstn 8 (fileId w)
                  ++ js "." ++ format in
                let calls' := calls ++ [Upload fileName audioBuffer (contentType format)] in
                match uploadError w with
                | Some message =>
                    (mkOutcome (Some (failure 500 (MSG_UPLOAD ++ message))) calls', cache')
                | None =>
                    (mkOutcome (Some (success (publicUrl w fileName) (List.length text))) calls',
                     cache')
                end
            end
        end
  end.

End Route.

End Nls.

(* ================================================================== *)
(** * Sample frames *)
(* ================================================================== *)

Module Sample.

(** The JSON text of a value whose strings need no escape. *)
Fixpoint stringify (v : JValue) : JSString :=
  match v with
  | JNull => js "null"
  | JBool true => js "true"
  | JBool false => js "false"
  | JNum n => decimal n
  | JStr s => [34%N] ++ s ++ [34%N]
  | JArr items =>
      js "[" ++
      (fix elements (l : list JValue) : JSString :=
         match l with
         | [] => []
         | x :: rest =>
             stringify x ++ match rest with [] => [] | _ :: _ => js "," ++ elements rest end
         end) items
      ++ js "]"
  | JObj fields =>
      js "{" ++
      (fix members (l : list (JSString * JValue)) : JSString :=
         match l with
         | [] => []
         | (k, x) :: rest =>
             [34%N] ++ k ++ [34%N] ++ js ":" ++ stringify x
             ++ match rest with [] => [] | _ :: _ => js "," ++ members rest end
         end) fields
      ++ js "}"
  end.

(** UTF-8 decoding, the [toString] of a [Buffer] (on well-formed bytes). *)
Definition toString (b : Buffer) : JSString := utf16 (map Byte.to_N b).

(** The bytes of a text of ASCII characters. *)
Definition bytes (s : JSString) : Buffer :=
  map (fun c => match Byte.of_N c with Some b => b | None => x3f end) s.

(** A parser that knows the texts of a list of values and throws on every
    other text. *)
Definition parse (known : list JValue) (s : JSString) : option JValue :=
  find (fun v => JSString_eqb (stringify v) s) known.

(** An inbound control message with a discriminator and extra header fields. *)
Definition control (field value : string) (more : list (JSString * JValue)) : JValue :=
  JObj [ (js "header", JObj ((js field, JStr (js value)) :: more)) ].

(** An object that does not convert to a string: its own [toString] is not
    a function. *)
Definition unprintable : JValue := JObj [ (js "toString", JNum 1) ].

Definition known : list JValue :=
  [ control "event" "task-started" [];
    control "event" "task-finished" [];
    control "event" "task-failed" [ (js "error_message", JStr (js "quota exceeded")) ];
    control "event" "result-generated" [];
    control "name" "SynthesisStarted" [];
    control "name" "SynthesisCompleted" [];
    control "name" "TaskFailed" [ (js "status_message", JStr (js "quota exceeded")) ];
    JObj [ (js "Token", JObj [ (js "Id", JStr (js "tok-1")); (js "ExpireTime", JNum 1700000000) ]) ];
    control "event" "task-failed" [ (js "error_message", unprintable) ];
    control "name" "TaskFailed" [ (js "status_message", unprintable) ];
    JObj [ (js "Token", JObj [ (js "Id", JStr (js "tok-2")); (js "ExpireTime", unprintable) ]) ];
    JObj [ (js "Token", JObj [ (js "Id", unprintable); (js "ExpireTime", JNum 1700000000) ]) ] ].

Definition JSON_parse : JSString -> option JValue := parse known.

(** The text frame that carries a value, and one that is no JSON. *)
Definition frame (v : JValue) : WsEvent := Message (bytes (stringify v)) false.
Definition garbage : WsEvent := Message (bytes (js "<html>502</html>")) false.
Definition chunk (s : string) : WsEvent := Message (list_byte_of_string s) true.

Definition StringToNumber (s : JSString) : option Z := None.
Definition ids (n : nat) : JSString := js "id" ++ decimal (Z.of_nat n).

End Sample.

(* ================================================================== *)
(** * What is observed of a session *)
(* ================================================================== *)

Module Observe.

Definition Settlement_eq_dec (a b : Settlement) : {a = b} + {a <> b}.
Proof.
  decide equality; apply list_eq_dec; [apply Byte.byte_eq_dec | apply N.eq_dec].
Defined.

Definition same (a b : option Settlement) : bool :=
  match a, b with
  | None, None => true
  | Some x, Some y => if Settlement_eq_dec x y then true else false
  | _, _ => false
  end.

(** The number of places in a succession of promise states, entered from
    [prev], at which the state is not the one before it. *)
Fixpoint changes (prev : option Settlement) (h : list (option Settlement)) : nat :=
  match h with
  | [] => 0
  | p :: rest => ((if same prev p then 0 else 1) + changes p rest)%nat
  end.

Section History.

Variable State : Type.
Variable deliver : State -> Event -> State.
Variable promise : State -> option Settlement.

(** The state of the promise after each event. *)
Fixpoint history (evs : list Event) (s : State) : list (option Settlement) :=
  match evs with
  | [] => []
  | e :: rest => promise (deliver s e) :: history rest (deliver s e)
  end.

(** How many times the promise settles over a whole call: it is made
    pending, [s0] is the state in which the call returns it, and the events
    follow. *)
Definition settlements (evs : list Event) (s0 : State) : nat :=
  changes None (promise s0 :: history evs s0).

End History.

(** [message.payload.input] of an outbound control message. *)
Definition payload_input (message : JValue) : option JValue :=
  optional (get message (js "payload")) (js "input").

(** The latch of profile A is set when its promise is settled, and [resolve]
    or [reject] was called as often as the promise settled. *)
Definition latched (s : DashScope.Session) : Prop :=
  match DashScope.promise s with
  | None => DashScope.settleCalls s = []
  | Some v => DashScope.isSettled s = true /\ DashScope.settleCalls s = [v]
  end.

(** The discriminator a text frame carries in [header.field], [undefined]
    when the frame does not parse or is [null]. *)
Definition discriminator (toString : Buffer -> JSString)
  (JSON_parse : JSString -> option JValue) (field : JSString) (data : Buffer)
  : option JValue :=
  match JSON_parse (toString data) with
  | Some msg =>
      match member msg (js "header") with
      | Normal hdr => optional hdr field
      | Throw _ => None
      end
  | None => None
  end.


(** An event of profile A other than a task-failed event whose error message
    cannot be turned into a string. *)
Definition printable_A (toString : Buffer -> JSString)
  (JSON_parse : JSString -> option JValue) (e : Event) : bool :=
  match e with
  | OnWs (Message data false) =>
      if is_string (discriminator toString JSON_parse (js "event") data) (js "task-failed")
      then
        match ToString (or_else (discriminator toString JSON_parse (js "error_message") data)
                          (JStr DashScope.MSG_FAILED)) with
        | Normal _ => true
        | Throw _ => false
        end
      else true
  | _ => true
  end.

(** The events that can end a session of profile A: the two terminal control
    events, the error and the close of the socket, the timer. *)
Definition terminal_A (toString : Buffer -> JSString)
  (JSON_parse : JSString -> option JValue) (e : Event) : bool :=
  match e with
  | OnTimer | OnWs (Error _) | OnWs (Close _ _) => true
  | OnWs (Message data false) =>
      let event := discriminator toString JSON_parse (js "event") data in
      is_string event (js "task-finished") || is_string event (js "task-failed")
  | _ => false
  end.

(** The events that can end a session of profile B. *)
Definition terminal_B (toString : Buffer -> JSString)
  (JSON_parse : JSString -> option JValue) (e : Event) : bool :=
  match e with
  | OnTimer | OnWs (Error _) => true
  | OnWs (Message data false) =>
      let name := discriminator toString JSON_parse (js "name") data in
      is_string name (js "SynthesisCompleted") || is_string name (js "TaskFailed")
  | _ => false
  end.

(** The state of a session of profile A that was given a key: the socket is
    there, the latch covers the promise, and the timer is armed exactly
    while the latch is not set. *)
Definition running_A (s : DashScope.Session) : Prop :=
  DashScope.ws s <> None /\
  latched s /\
  (DashScope.isSettled s = false -> DashScope.timeout s = Some (Armed DashScope.TIMEOUT_MS)) /\
  (DashScope.isSettled s = true -> armed (DashScope.timeout s) = false).

(** The same for profile B, which has no latch: the timer is armed while the
    promise is pending and no exception has left a listener. *)
Definition running_B (s : Nls.Session) : Prop :=
  (Nls.promise s = None -> Nls.uncaught s = None ->
   Nls.timeout s = Some (Armed Nls.TIMEOUT_MS)) /\
  (Nls.promise s <> None -> armed (Nls.timeout s) = false).

(** [ws.terminate()] was called on the socket of the session. *)
Definition terminated_A (s : DashScope.Session) : bool :=
  match DashScope.ws s with
  | Some w => terminateCalled w
  | None => false
  end.

Definition terminated_B (s : Nls.Session) : bool :=
  match Nls.ws s with
  | Some w => terminateCalled w
  | None => false
  end.

(** A session of profile B that can still take an event: its socket was
    built and no exception has left a listener. *)
Definition alive (s : Nls.Session) : Prop :=
  Nls.uncaught s = None /\ Nls.ws s <> None.

End Observe.
Import Observe.

(* ================================================================== *)
(** * Identifiers and what goes over the wire *)
(* ================================================================== *)

Module Ids.

(** [buffer.toString('hex')]: two lowercase digits for each byte. *)
Definition digit (n : N) : codeunit :=
  if (n <? 10)%N then (48 + n)%N else (87 + n)%N.

Definition hex_byte (b : byte) : JSString :=
  [digit (Byte.to_N b / 16); digit (Byte.to_N b mod 16)].

Definition hex (b : Buffer) : JSString := flat_map hex_byte b.

(** [generateId()]: [crypto.randomBytes(16).toString('hex')], on the source
    of random bytes. *)
Definition generateId (randomBytes : nat -> Buffer) : JSString :=
  hex (randomBytes 16).

Definition is_hex_digit (c : codeunit) : bool :=
  ((48 <=? c) && (c <=? 57) || (97 <=? c) && (c <=? 102))%N.

End Ids.

Module Wire.

(** [message.header.field] of a control message. *)
Definition header_of (field : string) (message : JValue) : option JValue :=
  optional (get message (js "header")) (js field).

(** [message.payload.field], and [message.payload.parameters.field]. *)
Definition payload_of (field : string) (message : JValue) : option JValue :=
  optional (get message (js "payload")) (js field).

Definition parameter_of (field : string) (message : JValue) : option JValue :=
  optional (payload_of "parameters" message) (js field).

(** What was sent on the socket of a session of profile A. *)
Definition sent_A (s : DashScope.Session) : list JValue :=
  match DashScope.ws s with
  | Some w => sent w
  | None => []
  end.

(** [ws.close()] was called on the socket of the session. *)
Definition closed_A (s : DashScope.Session) : bool :=
  match DashScope.ws s with
  | Some w => closeCalled w
  | None => false
  end.

Definition closed_B (s : Nls.Session) : bool :=
  match Nls.ws s with
  | Some w => closeCalled w
  | None => false
  end.

(** What was sent on the socket of a session of profile B. *)
Definition sent_B (s : Nls.Session) : list JValue :=
  match Nls.ws s with
  | Some w => sent w
  | None => []
  end.

Section Requests.

Variable toString : Buffer -> JSString.
Variable JSON_parse : JSString -> option JValue.
Variable text : JSString.
Variables voice model format : option JSString.
Variable taskId : JSString.

(** The messages profile A owes to an event: the run-task message to the
    opening of the socket, the text and the end of input to the task-started
    event, nothing to anything else. *)
Definition requests_A (e : Event) : list JValue :=
  match e with
  | OnWs Open => [DashScope.runTask voice model format taskId]
  | OnWs (Message data false) =>
      if is_string (discriminator toString JSON_parse (js "event") data) (js "task-started")
      then [DashScope.continueTask text taskId; DashScope.finishTask taskId]
      else []
  | _ => []
  end.

End Requests.

(** A name that is none of the given ones. *)
Definition none_of (v : option JValue) (names : list string) : bool :=
  forallb (fun n => negb (is_string v (js n))) names.

(** A session of profile A without what it wrote to the console. *)
Definition quiet (s : DashScope.Session) : DashScope.Session :=
  DashScope.mkSession (DashScope.promise s) (DashScope.settleCalls s)
    (DashScope.isSettled s) (DashScope.audioChunks s) (DashScope.ws s)
    (DashScope.timeout s) [].

(** Every message sent so far by a session of profile B carries the task
    identifier, which was drawn first, and the identifiers drawn after it as
    message identifiers, one each and in the order drawn. *)
Definition numbered (randomIds : nat -> JSString) (s : Nls.Session) : Prop :=
  (Nls.ws s <> None -> Nls.drawn s = S (List.length (sent_B s))) /\
  map (header_of "message_id") (sent_B s)
  = map (fun k => Some (JStr (randomIds k))) (seq 1 (List.length (sent_B s))) /\
  Forall (fun m => header_of "task_id" m = Some (JStr (randomIds 0))) (sent_B s).

(** The field of a message holds the argument of the call when that is a
    non-empty string and the default otherwise, so never the empty string. *)
Definition chosen (arg : option JSString) (default : string) (field : option JValue) : Prop :=
  exists s,
    field = Some (JStr s) /\
    s <> [] /\
    (present arg = true -> arg = Some s) /\
    (present arg = false -> s = js default).

End Wire.
Import Wire.

(* ================================================================== *)
(** * Facts about the values *)
(* ================================================================== *)

Lemma JSString_eqb_eq (a b : JSString) : JSString_eqb a b = true <-> a = b.
Proof.
  unfold JSString_eqb. destruct (list_eq_dec N.eq_dec a b); split; congruence.
Qed.

Lemma JSString_eqb_refl (a : JSString) : JSString_eqb a a = true.
Proof. apply JSString_eqb_eq. reflexivity. Qed.

Example js_ascii : js "mp3" = [109; 112; 51]%N.
Proof. reflexivity. Qed.

Example js_cjk : js "未知" = [26410; 30693]%N.
Proof. reflexivity. Qed.

Example decimal_1006 : decimal 1006 = js "1006".
Proof. reflexivity. Qed.

Example decimal_neg : decimal (-60) = js "-60" /\ decimal 0 = js "0".
Proof. split; reflexivity. Qed.

Example ToString_array :
  ToString (JArr [JNum 1; JNull; JStr (js "a"); JArr [JBool true; JNum 2]])
  = Normal (js "1,,a,true,2").
Proof. reflexivity. Qed.

Example stringify_control :
  Sample.stringify (Sample.control "event" "task-finished" []) =
  [123; 34; 104; 101; 97; 100; 101; 114; 34; 58; 123; 34; 101; 118; 101; 110; 116; 34; 58;
   34; 116; 97; 115; 107; 45; 102; 105; 110; 105; 115; 104; 101; 100; 34; 125; 125]%N.
Proof. reflexivity. Qed.

Example parse_known :
  Sample.JSON_parse (Sample.toString (Sample.bytes (Sample.stringify (Sample.control "event" "task-finished" []))))
  = Some (Sample.control "event" "task-finished" []).
Proof. vm_compute. reflexivity. Qed.

Example parse_garbage :
  Sample.JSON_parse (Sample.toString (Sample.bytes (js "<html>502</html>"))) = None.
Proof. vm_compute. reflexivity. Qed.

Example dashscope_happy_path :
  DashScope.promise
    (DashScope.session Sample.toString Sample.JSON_parse (js "hello") None None None
       (Some (js "sk-1")) None (js "task") 
       [ (5, Open); (20, Sample.frame (Sample.control "event" "task-started" []));
         (40, Sample.chunk "ab"); (50, Sample.frame (Sample.control "event" "result-generated" []));
         (60, Sample.chunk "cd"); (70, Sample.frame (Sample.control "event" "task-finished" []));
         (71, Close 1000 None) ]%N)
  = Some (Resolved (list_byte_of_string "abcd")).
Proof. vm_compute. reflexivity. Qed.

Example nls_happy_path :
  Nls.promise
    (Nls.session Sample.toString Sample.JSON_parse Sample.ids (js "hello") None None
       (Some (JStr (js "tok-1"))) None
       [ (5, Open); (20, Sample.frame (Sample.control "name" "SynthesisStarted" []));
         (40, Sample.chunk "ab");
         (60, Sample.chunk "cd"); (70, Sample.frame (Sample.control "name" "SynthesisCompleted" []));
         (71, Close 1000 None) ]%N)
  = Some (Resolved (list_byte_of_string "abcd")).
Proof. vm_compute. reflexivity. Qed.

(* ================================================================== *)
(** * A promise that no step unsettles *)
(* ================================================================== *)

Section Settling.

Variable State : Type.
Variable deliver : State -> Event -> State.
Variable promise : State -> option Settlement.

Hypothesis stable :
  forall s e v, promise s = Some v -> promise (deliver s e) = Some v.

Lemma same_refl (p : option Settlement) : same p p = true.
Proof.
  destruct p as [v|]; cbn; [|reflexivity].
  destruct (Settlement_eq_dec v v); congruence.
Qed.

Lemma run_stable (evs : list Event) :
  forall s v, promise s = Some v -> promise (fold_left deliver evs s) = Some v.
Proof.
  induction evs as [|e evs IH]; intros s v Hs; cbn; [assumption|].
  apply IH, stable, Hs.
Qed.

Lemma first_settlement (evs : list Event) :
  forall s v,
    promise s = None ->
    promise (fold_left deliver evs s) = Some v ->
    exists pre e post,
      evs = pre ++ e :: post /\
      promise (fold_left deliver pre s) = None /\
      promise (deliver (fold_left deliver pre s) e) = Some v.
Proof.
  induction evs as [|e evs IH]; intros s v Hnone Hsome; cbn in Hsome.
  - congruence.
  - destruct (promise (deliver s e)) as [w|] eqn:Hstep.
    + exists [], e, evs. cbn. repeat split; try assumption.
      rewrite (run_stable evs _ _ Hstep) in Hsome. congruence.
    + destruct (IH _ _ Hstep Hsome) as (pre & e' & post & -> & Hpre & Hat).
      exists (e :: pre), e', post. cbn. auto.
Qed.

Lemma changes_settled (evs : list Event) :
  forall s v, promise s = Some v ->
    changes (Some v) (history State deliver promise evs s) = 0%nat.
Proof.
  induction evs as [|e evs IH]; intros s v Hs; cbn [history changes]; [reflexivity|].
  rewrite (stable _ e _ Hs), same_refl. cbn. apply IH, stable, Hs.
Qed.

Lemma changes_pending (evs : list Event) :
  forall s, promise s = None ->
    (changes None (history State deliver promise evs s) <= 1)%nat.
Proof.
  induction evs as [|e evs IH]; intros s Hs; cbn [history changes]; [lia|].
  destruct (promise (deliver s e)) as [v|] eqn:Hstep.
  - rewrite (changes_settled evs _ _ Hstep). cbn. lia.
  - cbn. apply IH, Hstep.
Qed.

Lemma settlements_le_1 (evs : list Event) (s0 : State) :
  (settlements State deliver promise evs s0 <= 1)%nat.
Proof.
  unfold settlements. cbn [changes].
  destruct (promise s0) as [v|] eqn:H0.
  - rewrite (changes_settled evs _ _ H0). cbn. lia.
  - cbn. apply changes_pending, H0.
Qed.

End Settling.

(* ================================================================== *)
(** * The sessions of the two profiles *)
(* ================================================================== *)

Ltac unfold_dashscope :=
  unfold DashScope.deliver, DashScope.onOpen, DashScope.onMessage, DashScope.onError,
    DashScope.onClose, DashScope.onTimeout, DashScope.onTaskStarted,
    DashScope.onTaskFinished, DashScope.onTaskFailed, DashScope.onParseFailure,
    DashScope.once, DashScope.clearTimeout, DashScope.set_timeout, DashScope.ws_send,
    DashScope.ws_close, DashScope.ws_terminate, DashScope.on_ws, DashScope.write,
    DashScope.push_chunk, DashScope.set_isSettled, DashScope.resolve, DashScope.reject,
    DashScope.call_settle, DashScope.seq, DashScope.skip in *.

Ltac unfold_nls :=
  unfold Nls.deliver, Nls.onOpen, Nls.onMessage, Nls.onError, Nls.onTimeout,
    Nls.onSynthesisStarted, Nls.onSynthesisCompleted, Nls.onTaskFailed, Nls.throw,
    Nls.clearTimeout, Nls.set_timeout, Nls.ws_send, Nls.ws_close, Nls.ws_terminate,
    Nls.on_ws, Nls.push_chunk, Nls.resolve, Nls.reject, Nls.call_settle, Nls.seq,
    Nls.skip in *.

Ltac project_dashscope :=
  cbn [DashScope.promise DashScope.settleCalls DashScope.isSettled DashScope.audioChunks
       DashScope.ws DashScope.timeout DashScope.console] in *.

Ltac project_nls :=
  cbn [Nls.promise Nls.settleCalls Nls.audioChunks Nls.ws Nls.timeout Nls.drawn
       Nls.uncaught] in *.

(** Splits a goal on every test a listener makes, reducing in between. *)
Ltac reduce_session :=
  cbn [DashScope.promise DashScope.settleCalls DashScope.isSettled DashScope.audioChunks
       DashScope.ws DashScope.timeout DashScope.console
       Nls.promise Nls.settleCalls Nls.audioChunks Nls.ws Nls.timeout Nls.drawn
       Nls.uncaught settle clear armed option_map app] in *.

Ltac split_tests :=
  repeat first
    [ progress reduce_session
    | match goal with
      | |- context [match ?x with _ => _ end] =>
          lazymatch x with
          | context [match _ with _ => _ end] => fail
          | _ => destruct x eqn:?
          end
      end ].

Section Sessions.

Variable toString : Buffer -> JSString.
Variable JSON_parse : JSString -> option JValue.
Variable randomIds : nat -> JSString.
Variable text : JSString.
Variables voice model format userApiKey DASHSCOPE_API_KEY ALIYUN_APPKEY : option JSString.
Variable taskId : JSString.
Variable token : option JValue.

Local Abbreviation deliverA := (DashScope.deliver toString JSON_parse text voice model format taskId).
Local Abbreviation runA := (DashScope.run toString JSON_parse text voice model format taskId).
Local Abbreviation startA := (DashScope.synthesizeSpeech userApiKey DASHSCOPE_API_KEY).
Local Abbreviation sessionA :=
  (DashScope.session toString JSON_parse text voice model format userApiKey
     DASHSCOPE_API_KEY taskId).
Local Abbreviation deliverB := (Nls.deliver toString JSON_parse randomIds text voice format ALIYUN_APPKEY).
Local Abbreviation runB := (Nls.run toString JSON_parse randomIds text voice format ALIYUN_APPKEY).
Local Abbreviation startB := (Nls.synthesizeSpeech token).
Local Abbreviation sessionB :=
  (Nls.session toString JSON_parse randomIds text voice format token ALIYUN_APPKEY).

(** ** Profile A *)

Lemma dashscope_stable (s : DashScope.Session) (e : Event) (v : Settlement) :
  DashScope.promise s = Some v -> DashScope.promise (deliverA s e) = Some v.
Proof.
  intros Hs. destruct s as [p calls latch chunks w t out]. cbn in Hs. subst p.
  unfold_dashscope. project_dashscope.
  split_tests; project_dashscope; reflexivity.
Qed.

Lemma dashscope_no_socket (evs : list Event) (s : DashScope.Session) :
  DashScope.ws s = None -> runA evs s = s.
Proof.
  intros Hw. induction evs as [|e evs IH]; cbn; [reflexivity|].
  unfold DashScope.run in IH. unfold DashScope.deliver at 2. rewrite Hw. exact IH.
Qed.

Lemma armed_clear (t : option Timer) : armed (option_map clear t) = false.
Proof. destruct t as [[ms| |]|]; reflexivity. Qed.

Lemma dashscope_running_step (s : DashScope.Session) (e : Event) :
  running_A s -> running_A (deliverA s e).
Proof.
  destruct s as [p calls latch chunks w t out].
  unfold running_A, latched. project_dashscope.
  intros (Hw & Hl & Hpending & Hsettled).
  destruct w as [w|]; [|congruence].
  destruct latch.
  - assert (Ht : armed t = false) by (apply Hsettled; reflexivity).
    clear Hpending Hsettled.
    unfold_dashscope. rewrite ?Ht.
    split_tests; repeat split; intros; try congruence; try assumption;
      try apply armed_clear; apply Hl.
  - specialize (Hpending eq_refl). subst t. clear Hsettled.
    destruct p as [v|]; [destruct Hl; discriminate|]. subst calls.
    unfold_dashscope.
    split_tests; repeat split; intros; congruence.
Qed.

Lemma dashscope_running_run (evs : list Event) :
  forall s, running_A s -> running_A (runA evs s).
Proof.
  induction evs as [|e evs IH]; intros s Hs; cbn; [assumption|].
  apply IH, dashscope_running_step, Hs.
Qed.

(** With a key, the call returns a running session; without one, a session
    that has no socket and takes no event. *)
Lemma dashscope_start :
  (present (DashScope.apiKey userApiKey DASHSCOPE_API_KEY) = true /\ running_A startA) \/
  (present (DashScope.apiKey userApiKey DASHSCOPE_API_KEY) = false /\
   startA = DashScope.mkSession (Some (Rejected DashScope.MSG_NO_KEY))
              [Rejected DashScope.MSG_NO_KEY] false [] None None []).
Proof.
  unfold DashScope.synthesizeSpeech.
  destruct (DashScope.apiKey userApiKey DASHSCOPE_API_KEY) as [[|c r]|]; cbn [present].
  - right. split; reflexivity.
  - left. split; [reflexivity|].
    unfold running_A, latched. project_dashscope. cbn [armed].
    repeat split; try discriminate; try congruence.
  - right. split; reflexivity.
Qed.

Lemma frames_cons (e : Event) (evs : list Event) :
  frames (e :: evs) = frames [e] ++ frames evs.
Proof.
  destruct e as [[ | data [|] | message | code reason]|]; reflexivity.
Qed.

Lemma frames_app (pre post : list Event) :
  frames (pre ++ post) = frames pre ++ frames post.
Proof.
  induction pre as [|e pre IH]; [reflexivity|].
  cbn [app]. rewrite (frames_cons e (pre ++ post)), (frames_cons e pre), IH.
  apply app_assoc.
Qed.

(** Every binary frame is pushed, and nothing else touches the chunks. *)
Lemma dashscope_chunks_step (s : DashScope.Session) (e : Event) :
  DashScope.ws s <> None ->
  DashScope.audioChunks (deliverA s e) = DashScope.audioChunks s ++ frames [e].
Proof.
  destruct s as [p calls latch chunks w t out]. project_dashscope. intros Hw.
  destruct w as [w|]; [|congruence].
  unfold_dashscope. cbn [frames].
  split_tests; rewrite ?app_nil_r; reflexivity.
Qed.

Lemma dashscope_chunks_run (evs : list Event) :
  forall s, running_A s ->
    DashScope.audioChunks (runA evs s) = DashScope.audioChunks s ++ frames evs.
Proof.
  induction evs as [|e evs IH]; intros s Hs; cbn [DashScope.run fold_left].
  - cbn. rewrite app_nil_r. reflexivity.
  - fold (runA evs (deliverA s e)).
    rewrite (IH _ (dashscope_running_step s e Hs)), dashscope_chunks_step, (frames_cons e evs).
    + rewrite app_assoc. reflexivity.
    + apply Hs.
Qed.

(** The promise is resolved by one thing only: a text frame whose event is
    [task-finished], with the chunks pushed so far. *)
Lemma dashscope_resolved_step (s : DashScope.Session) (e : Event) (audio : Buffer) :
  DashScope.promise s = None ->
  DashScope.promise (deliverA s e) = Some (Resolved audio) ->
  audio = Buffer_concat (DashScope.audioChunks s) /\
  exists data,
    e = OnWs (Message data false) /\
    is_string (discriminator toString JSON_parse (js "event") data) (js "task-finished") = true.
Proof.
  destruct s as [p calls latch chunks w t out]. project_dashscope. intros ->.
  unfold_dashscope. unfold discriminator.
  split_tests; intros H; try discriminate H.
  injection H as <-. split; [reflexivity|].
  eexists. split; [reflexivity|].
  repeat match goal with H : _ = _ |- _ => rewrite H end. reflexivity.
Qed.

(** A step that settles a pending promise is the step of a terminal event. *)
Lemma dashscope_settling_event (s : DashScope.Session) (e : Event) :
  DashScope.promise s = None ->
  DashScope.promise (deliverA s e) <> None ->
  terminal_A toString JSON_parse e = true.
Proof.
  destruct s as [p calls latch chunks w t out]. project_dashscope. intros ->.
  unfold_dashscope. unfold terminal_A, discriminator.
  split_tests; intros H; try congruence; try reflexivity;
    repeat match goal with H : _ = _ |- _ => rewrite H end;
    try reflexivity; apply orb_true_r.
Qed.

Lemma is_string_unique (v : option JValue) (a b : JSString) :
  is_string v a = true -> is_string v b = true -> a = b.
Proof.
  destruct v as [[| | |s| |]|]; cbn; try discriminate.
  intros Ha Hb. apply JSString_eqb_eq in Ha, Hb. congruence.
Qed.

Lemma is_string_other (v : option JValue) (a b : JSString) :
  is_string v a = true -> a <> b -> is_string v b = false.
Proof.
  intros Ha Hab. destruct (is_string v b) eqn:Hb; [|reflexivity].
  elim Hab. exact (is_string_unique v a b Ha Hb).
Qed.

(** A text frame that is no JSON, or is [null], leaves a warning on the
    console and nothing else. *)
Lemma dashscope_malformed (s : DashScope.Session) (data : Buffer) :
  DashScope.ws s <> None ->
  (JSON_parse (toString data) = None ->
   deliverA s (OnWs (Message data false))
   = DashScope.write (Warn (js "[TTS] 解析消息失败:") SyntaxError) s) /\
  (JSON_parse (toString data) = Some JNull ->
   deliverA s (OnWs (Message data false))
   = DashScope.write (Warn (js "[TTS] 解析消息失败:") TypeError) s).
Proof.
  intros Hw. unfold DashScope.deliver, DashScope.onMessage, DashScope.onParseFailure.
  destruct (DashScope.ws s); [|congruence].
  split; intros ->; reflexivity.
Qed.


(** Once the latch is set no event changes the promise, and none resets the
    latch. *)
Lemma dashscope_latched_step (s : DashScope.Session) (e : Event) :
  DashScope.isSettled s = true ->
  DashScope.promise (deliverA s e) = DashScope.promise s /\
  DashScope.isSettled (deliverA s e) = true.
Proof.
  destruct s as [p calls latch chunks w t out]. project_dashscope. intros ->.
  unfold_dashscope. split_tests; split; reflexivity.
Qed.

Lemma dashscope_latched_run (evs : list Event) :
  forall s, DashScope.isSettled s = true ->
    DashScope.promise (runA evs s) = DashScope.promise s /\
    DashScope.isSettled (runA evs s) = true.
Proof.
  induction evs as [|e evs IH]; intros s Hs; cbn [DashScope.run fold_left]; [auto|].
  destruct (dashscope_latched_step s e Hs) as [Hp Hl].
  destruct (IH _ Hl) as [Hp' Hl']. unfold DashScope.run in *.
  split; [congruence | exact Hl'].
Qed.

Lemma dashscope_close (s : DashScope.Session) (code : N) (reason : option Buffer) :
  running_A s ->
  DashScope.isSettled s = false ->
  DashScope.promise (deliverA s (OnWs (Close code reason)))
  = Some (Rejected (DashScope.MSG_CLOSED ++ decimal (Z.of_N code) ++ DashScope.MSG_REASON
                    ++ DashScope.reasonText toString reason)).
Proof.
  destruct s as [p calls latch chunks w t out].
  unfold running_A, latched. project_dashscope.
  intros (Hw & Hl & _) ->.
  destruct p as [v|]; [destruct Hl; discriminate|].
  destruct w as [w|]; [|congruence].
  unfold_dashscope. reduce_session. reflexivity.
Qed.

Lemma dashscope_error (s : DashScope.Session) (message : JSString) :
  running_A s ->
  DashScope.isSettled s = false ->
  DashScope.promise (deliverA s (OnWs (Error message)))
  = Some (Rejected (DashScope.MSG_WS_ERROR ++ message)).
Proof.
  destruct s as [p calls latch chunks w t out].
  unfold running_A, latched. project_dashscope.
  intros (Hw & Hl & _) ->.
  destruct p as [v|]; [destruct Hl; discriminate|].
  destruct w as [w|]; [|congruence].
  unfold_dashscope. reduce_session. reflexivity.
Qed.

(** What the task-failed event does while the latch is not set: it closes
    the socket, clears the timer and sets the latch; then it rejects with the
    error message when that converts to a string, and otherwise only warns,
    which leaves the promise pending. *)
Lemma dashscope_task_failed (s : DashScope.Session) (data : Buffer) (msg : JValue)
  (hdr : option JValue) :
  running_A s ->
  DashScope.isSettled s = false ->
  JSON_parse (toString data) = Some msg ->
  member msg (js "header") = Normal hdr ->
  is_string (optional hdr (js "event")) (js "task-failed") = true ->
  let s' := deliverA s (OnWs (Message data false)) in
  DashScope.isSettled s' = true /\
  closed_A s' = true /\
  armed (DashScope.timeout s') = false /\
  DashScope.promise s'
  = match ToString (or_else (optional hdr (js "error_message")) (JStr DashScope.MSG_FAILED)) with
    | Normal message => Some (Rejected message)
    | Throw _ => None
    end.
Proof.
  destruct s as [p calls latch chunks w t out].
  unfold running_A, latched, closed_A. project_dashscope.
  intros (Hw & Hl & Ht & _) -> Hparse Hhdr Hevent.
  destruct p as [v|]; [destruct Hl; discriminate|].
  destruct w as [w|]; [|congruence].
  rewrite (Ht eq_refl).
  unfold DashScope.deliver, DashScope.onMessage. project_dashscope.
  rewrite Hparse, Hhdr, Hevent.
  rewrite (is_string_other _ _ (js "task-started") Hevent) by (vm_compute; discriminate).
  rewrite (is_string_other _ _ (js "task-finished") Hevent) by (vm_compute; discriminate).
  unfold_dashscope. reduce_session.
  destruct (ToString (or_else (optional hdr (js "error_message")) (JStr DashScope.MSG_FAILED)));
    reduce_session; cbn [close closeCalled]; auto.
Qed.

Lemma dashscope_timer (s : DashScope.Session) :
  running_A s ->
  DashScope.isSettled s = false ->
  DashScope.promise (deliverA s OnTimer) = Some (Rejected DashScope.MSG_TIMEOUT) /\
  terminated_A (deliverA s OnTimer) = true /\
  DashScope.timeout (deliverA s OnTimer) = Some Fired.
Proof.
  destruct s as [p calls latch chunks w t out].
  unfold running_A, latched, terminated_A. project_dashscope.
  intros (Hw & Hl & Ht & _) ->. rewrite (Ht eq_refl).
  destruct p as [v|]; [destruct Hl; discriminate|].
  destruct w as [w|]; [|congruence].
  unfold_dashscope. reduce_session. cbn [terminate terminateCalled]. auto.
Qed.




(** On ['open'] the run-task message is sent, and it is the only thing sent. *)
Lemma dashscope_open (s : DashScope.Session) (w : WebSocket) :
  DashScope.ws s = Some w ->
  DashScope.ws (deliverA s (OnWs Open))
  = Some (send (DashScope.runTask voice model format taskId) w).
Proof.
  destruct s as [p calls latch chunks w0 t out]. project_dashscope. intros ->.
  unfold_dashscope. reduce_session. reflexivity.
Qed.

(** ** Profile B *)

Lemma nls_stable (s : Nls.Session) (e : Event) (v : Settlement) :
  Nls.promise s = Some v -> Nls.promise (deliverB s e) = Some v.
Proof.
  intros Hs. destruct s as [p calls chunks w t n u]. cbn in Hs. subst p.
  unfold_nls. split_tests; reflexivity.
Qed.

(** The state the call starts in: pending with socket and timer when the
    token converts to a string, rejected with neither when it does not. *)
Lemma nls_start_cases :
  (exists address,
      Nls.wsUrl token = Normal address /\
      startB = Nls.mkSession None [] [] (Some (mkWebSocket address [] [] false false))
                 (Some (Armed Nls.TIMEOUT_MS)) 1 None) \/
  (startB = Nls.mkSession (Some (Rejected MSG_NOT_PRIMITIVE)) [Rejected MSG_NOT_PRIMITIVE]
              [] None None 0 None).
Proof.
  unfold Nls.synthesizeSpeech.
  destruct (Nls.wsUrl token) as [address|e]; [left; exists address; auto | right; reflexivity].
Qed.

Lemma nls_start : running_B startB.
Proof.
  unfold running_B.
  destruct nls_start_cases as [(address & _ & ->) | ->]; project_nls;
    split; intros; cbn [armed]; congruence.
Qed.

Lemma nls_start_alive (address : JSString) :
  Nls.wsUrl token = Normal address ->
  alive startB /\ Nls.promise startB = None /\
  Nls.timeout startB = Some (Armed Nls.TIMEOUT_MS) /\ Nls.audioChunks startB = [].
Proof.
  intros Haddress. unfold alive, Nls.synthesizeSpeech. rewrite Haddress. project_nls.
  repeat split. discriminate.
Qed.

Lemma nls_start_chunks : Nls.audioChunks startB = [].
Proof.
  destruct nls_start_cases as [(address & _ & ->) | ->]; reflexivity.
Qed.

Lemma nls_running_step (s : Nls.Session) (e : Event) :
  running_B s -> running_B (deliverB s e).
Proof.
  destruct s as [p calls chunks w t n u].
  unfold running_B. project_nls. intros (Hpending & Hsettled).
  destruct w as [w|]; [|unfold Nls.deliver; project_nls; auto].
  destruct u as [x|]; [unfold Nls.deliver; project_nls; auto|].
  destruct p as [v|].
  - assert (Ht : armed t = false) by (apply Hsettled; discriminate).
    clear Hpending Hsettled.
    unfold_nls. rewrite ?Ht.
    split_tests; repeat split; intros; try congruence; try assumption;
      apply armed_clear.
  - specialize (Hpending eq_refl eq_refl). subst t. clear Hsettled.
    unfold_nls.
    split_tests; repeat split; intros; congruence.
Qed.

Lemma nls_running_run (evs : list Event) :
  forall s, running_B s -> running_B (runB evs s).
Proof.
  induction evs as [|e evs IH]; intros s Hs; cbn; [assumption|].
  apply IH, nls_running_step, Hs.
Qed.

(** After an exception has left a listener, nothing is delivered; and
    nothing is delivered to a call that built no socket. *)
Lemma nls_dead (evs : list Event) (s : Nls.Session) :
  Nls.uncaught s <> None -> runB evs s = s.
Proof.
  intros Hu. induction evs as [|e evs IH]; cbn; [reflexivity|].
  unfold Nls.run in IH. unfold Nls.deliver at 2.
  destruct (Nls.ws s); [|exact IH].
  destruct (Nls.uncaught s); [exact IH | congruence].
Qed.

Lemma nls_no_socket (evs : list Event) (s : Nls.Session) :
  Nls.ws s = None -> runB evs s = s.
Proof.
  intros Hw. induction evs as [|e evs IH]; cbn; [reflexivity|].
  unfold Nls.run in IH. unfold Nls.deliver at 2. rewrite Hw. exact IH.
Qed.

Lemma nls_alive_before (s : Nls.Session) (e : Event) :
  alive (deliverB s e) -> alive s.
Proof.
  destruct s as [p calls chunks w t n u]. unfold alive, Nls.deliver. project_nls.
  destruct w as [w|]; [|auto]. destruct u as [x|]; [auto|].
  intros _. split; congruence.
Qed.

Lemma nls_alive_run (evs : list Event) :
  forall s, alive (runB evs s) -> alive s.
Proof.
  induction evs as [|e evs IH]; intros s Hs; cbn [Nls.run fold_left] in *; [assumption|].
  apply (nls_alive_before s e), IH, Hs.
Qed.

Lemma nls_chunks_step (s : Nls.Session) (e : Event) :
  alive (deliverB s e) ->
  Nls.audioChunks (deliverB s e) = Nls.audioChunks s ++ frames [e].
Proof.
  destruct s as [p calls chunks w t n u]. unfold alive.
  unfold_nls. cbn [frames].
  split_tests; intros [H1 H2]; rewrite ?app_nil_r; try reflexivity; congruence.
Qed.

Lemma nls_chunks_run (evs : list Event) :
  forall s, alive (runB evs s) ->
    Nls.audioChunks (runB evs s) = Nls.audioChunks s ++ frames evs.
Proof.
  induction evs as [|e evs IH]; intros s Hs; cbn [Nls.run fold_left] in *.
  - cbn. rewrite app_nil_r. reflexivity.
  - fold (runB evs (deliverB s e)) in *.
    pose proof (nls_alive_run evs _ Hs) as Hstep.
    rewrite (IH _ Hs), (nls_chunks_step _ _ Hstep), (frames_cons e evs).
    rewrite app_assoc. reflexivity.
Qed.

(** The promise is resolved by one thing only: a text frame named
    [SynthesisCompleted], with the chunks pushed so far. *)
Lemma nls_resolved_step (s : Nls.Session) (e : Event) (audio : Buffer) :
  Nls.promise s = None ->
  Nls.promise (deliverB s e) = Some (Resolved audio) ->
  audio = Buffer_concat (Nls.audioChunks s) /\
  alive s /\
  exists data,
    e = OnWs (Message data false) /\
    is_string (discriminator toString JSON_parse (js "name") data) (js "SynthesisCompleted") = true.
Proof.
  destruct s as [p calls chunks w t n u]. unfold alive. project_nls. intros ->.
  unfold_nls. unfold discriminator.
  split_tests; intros H; try discriminate H.
  injection H as <-. split; [reflexivity|]. split; [split; congruence|].
  eexists. split; [reflexivity|].
  repeat match goal with H : _ = _ |- _ => rewrite H end. reflexivity.
Qed.

(** No listener is registered for ['close']. *)
Lemma nls_close_ignored (s : Nls.Session) (code : N) (reason : option Buffer) :
  deliverB s (OnWs (Close code reason)) = s.
Proof.
  unfold Nls.deliver. destruct (Nls.ws s); [|reflexivity].
  destruct (Nls.uncaught s); reflexivity.
Qed.

(** A text frame that is no JSON, or is [null], throws out of the listener. *)
Lemma nls_malformed (s : Nls.Session) (data : Buffer) :
  alive s ->
  (JSON_parse (toString data) = None ->
   deliverB s (OnWs (Message data false)) = Nls.throw SyntaxError s) /\
  (JSON_parse (toString data) = Some JNull ->
   deliverB s (OnWs (Message data false)) = Nls.throw TypeError s).
Proof.
  unfold alive, Nls.deliver, Nls.onMessage. intros [-> Hw].
  destruct (Nls.ws s); [|congruence].
  split; intros ->; reflexivity.
Qed.

Lemma nls_error (s : Nls.Session) (message : JSString) :
  alive s ->
  Nls.promise s = None ->
  Nls.promise (deliverB s (OnWs (Error message))) = Some (Rejected message).
Proof.
  destruct s as [p calls chunks w t n u]. unfold alive. project_nls. intros [-> Hw] ->.
  destruct w as [w|]; [|congruence].
  unfold_nls. reduce_session. reflexivity.
Qed.

(** What the TaskFailed event does: it clears the timer and closes the
    socket; then it rejects with the status message when that converts to a
    string, and otherwise the exception leaves the listener. *)
Lemma nls_task_failed (s : Nls.Session) (data : Buffer) (msg : JValue)
  (hdr : option JValue) :
  alive s ->
  Nls.promise s = None ->
  JSON_parse (toString data) = Some msg ->
  member msg (js "header") = Normal hdr ->
  is_string (optional hdr (js "name")) (js "TaskFailed") = true ->
  deliverB s (OnWs (Message data false))
  = match ToString (or_else (optional hdr (js "status_message")) (JStr Nls.MSG_FAILED)) with
    | Normal message => Nls.reject message (Nls.ws_close (Nls.clearTimeout s))
    | Throw e => Nls.throw e (Nls.ws_close (Nls.clearTimeout s))
    end.
Proof.
  destruct s as [p calls chunks w t n u]. unfold alive. project_nls.
  intros [-> Hw] -> Hparse Hhdr Hname.
  destruct w as [w|]; [|congruence].
  unfold Nls.deliver, Nls.onMessage. project_nls.
  rewrite Hparse, Hhdr, Hname.
  rewrite (is_string_other _ _ (js "SynthesisStarted") Hname) by (vm_compute; discriminate).
  rewrite (is_string_other _ _ (js "SynthesisCompleted") Hname) by (vm_compute; discriminate).
  unfold Nls.onTaskFailed, Nls.seq.
  destruct (ToString (or_else (optional hdr (js "status_message")) (JStr Nls.MSG_FAILED)));
    reflexivity.
Qed.

Lemma nls_timer (s : Nls.Session) :
  running_B s ->
  alive s ->
  Nls.promise s = None ->
  Nls.promise (deliverB s OnTimer) = Some (Rejected Nls.MSG_TIMEOUT) /\
  terminated_B (deliverB s OnTimer) = true /\
  Nls.timeout (deliverB s OnTimer) = Some Fired.
Proof.
  destruct s as [p calls chunks w t n u].
  unfold running_B, alive, terminated_B. project_nls.
  intros (Ht & _) [-> Hw] ->. rewrite (Ht eq_refl eq_refl).
  destruct w as [w|]; [|congruence].
  unfold_nls. reduce_session. cbn [terminate terminateCalled]. auto.
Qed.



(** On ['open'] the StartSynthesis message is sent. *)
Lemma nls_open (s : Nls.Session) :
  alive s ->
  Nls.ws (deliverB s (OnWs Open))
  = option_map
      (send (Nls.startSynthesis randomIds voice format ALIYUN_APPKEY (randomIds (Nls.drawn s))))
      (Nls.ws s).
Proof.
  destruct s as [p calls chunks w t n u]. unfold alive. project_nls. intros [-> Hw].
  destruct w as [w|]; [|congruence].
  unfold_nls. reduce_session. reflexivity.
Qed.


(** ** Runs *)

Lemma dashscope_run_app (pre post : list Event) (s : DashScope.Session) :
  runA (pre ++ post) s = runA post (runA pre s).
Proof. apply fold_left_app. Qed.

Lemma nls_run_app (pre post : list Event) (s : Nls.Session) :
  runB (pre ++ post) s = runB post (runB pre s).
Proof. apply fold_left_app. Qed.

(** A pending promise of profile A belongs to a running session. *)
Lemma dashscope_pending_running (evs : list Event) :
  DashScope.promise (runA evs startA) = None -> running_A (runA evs startA).
Proof.
  destruct dashscope_start as [[_ Hrun] | [_ Hstart]].
  - intros _. apply dashscope_running_run, Hrun.
  - rewrite dashscope_no_socket by (rewrite Hstart; reflexivity).
    rewrite Hstart. discriminate.
Qed.

Lemma dashscope_pending_start (evs : list Event) :
  DashScope.promise (runA evs startA) = None -> running_A startA.
Proof.
  destruct dashscope_start as [[_ Hrun] | [_ Hstart]]; [intros _; exact Hrun|].
  rewrite dashscope_no_socket by (rewrite Hstart; reflexivity).
  rewrite Hstart. discriminate.
Qed.

Lemma dashscope_start_chunks : DashScope.audioChunks startA = [].
Proof.
  unfold DashScope.synthesizeSpeech.
  destruct (DashScope.apiKey userApiKey DASHSCOPE_API_KEY) as [[|c r]|]; reflexivity.
Qed.

Lemma dashscope_start_pending : running_A startA -> DashScope.promise startA = None.
Proof.
  intros (Hw & _). unfold DashScope.synthesizeSpeech in *.
  destruct (DashScope.apiKey userApiKey DASHSCOPE_API_KEY) as [[|c r]|];
    try reflexivity; elim Hw; reflexivity.
Qed.

Lemma dashscope_start_unlatched : DashScope.isSettled startA = false.
Proof.
  unfold DashScope.synthesizeSpeech.
  destruct (DashScope.apiKey userApiKey DASHSCOPE_API_KEY) as [[|c r]|]; reflexivity.
Qed.

Lemma dashscope_task_finished (s : DashScope.Session) (data : Buffer) :
  running_A s ->
  DashScope.isSettled s = false ->
  is_string (discriminator toString JSON_parse (js "event") data) (js "task-finished") = true ->
  DashScope.promise (deliverA s (OnWs (Message data false)))
  = Some (Resolved (Buffer_concat (DashScope.audioChunks s))).
Proof.
  destruct s as [p calls latch chunks w t out].
  unfold running_A, latched, discriminator. project_dashscope.
  intros (Hw & Hl & _) -> Hevent.
  destruct p as [v|]; [destruct Hl; discriminate|].
  destruct w as [w|]; [|congruence].
  unfold DashScope.deliver, DashScope.onMessage. project_dashscope.
  destruct (JSON_parse (toString data)) as [msg|]; [|discriminate Hevent].
  destruct (member msg (js "header")) as [hdr|]; [|discriminate Hevent].
  rewrite Hevent.
  rewrite (is_string_other _ _ (js "task-started") Hevent) by (vm_compute; discriminate).
  unfold_dashscope. reduce_session. reflexivity.
Qed.

Lemma nls_task_finished (s : Nls.Session) (data : Buffer) :
  alive s ->
  Nls.promise s = None ->
  is_string (discriminator toString JSON_parse (js "name") data) (js "SynthesisCompleted") = true ->
  Nls.promise (deliverB s (OnWs (Message data false)))
  = Some (Resolved (Buffer_concat (Nls.audioChunks s))).
Proof.
  destruct s as [p calls chunks w t n u]. unfold alive, discriminator. project_nls.
  intros [-> Hw] -> Hname.
  destruct w as [w|]; [|congruence].
  unfold Nls.deliver, Nls.onMessage. project_nls.
  destruct (JSON_parse (toString data)) as [msg|]; [|discriminate Hname].
  destruct (member msg (js "header")) as [hdr|]; [|discriminate Hname].
  rewrite Hname.
  rewrite (is_string_other _ _ (js "SynthesisStarted") Hname) by (vm_compute; discriminate).
  unfold_nls. reduce_session. reflexivity.
Qed.

(** ** At most one settlement *)

(** C1.  Whatever events are delivered to a call of [synthesizeSpeech], and in
    whatever order (control events, errors, closes, the timer, any number of
    each), its promise changes state at most once over the whole call, and a
    state it has settled in is the state it keeps under every continuation.
    In profile A the latch moreover lets [resolve] or [reject] be called at
    most once. *)
Theorem settles_at_most_once (evs : list Event) :
  (settlements DashScope.Session deliverA DashScope.promise evs startA <= 1)%nat /\
  (settlements Nls.Session deliverB Nls.promise evs startB <= 1)%nat /\
  (forall post v,
      DashScope.promise (runA evs startA) = Some v ->
      DashScope.promise (runA (evs ++ post) startA) = Some v) /\
  (forall post v,
      Nls.promise (runB evs startB) = Some v ->
      Nls.promise (runB (evs ++ post) startB) = Some v) /\
  (List.length (DashScope.settleCalls (runA evs startA)) <= 1)%nat.
Proof.
  split; [|split; [|split; [|split]]].
  - apply settlements_le_1. intros s e v. apply dashscope_stable.
  - apply settlements_le_1. intros s e v. apply nls_stable.
  - intros post v Hv. rewrite dashscope_run_app.
    apply (run_stable _ deliverA DashScope.promise); [|exact Hv].
    intros s e w. apply dashscope_stable.
  - intros post v Hv. rewrite nls_run_app.
    apply (run_stable _ deliverB Nls.promise); [|exact Hv].
    intros s e w. apply nls_stable.
  - destruct dashscope_start as [[_ Hrun] | [_ Hstart]].
    + destruct (dashscope_running_run evs _ Hrun) as (_ & Hl & _).
      unfold latched in Hl.
      destruct (DashScope.promise (runA evs startA));
        [destruct Hl as [_ ->] | rewrite Hl]; cbn; lia.
    + rewrite dashscope_no_socket by (rewrite Hstart; reflexivity).
      rewrite Hstart. cbn. lia.
Qed.

(** ** The audio is the frames, in order *)

(** C2.  Once the promise is pending after the events [pre] (in profile A
    with the latch not set) and the completion event arrives, the call
    succeeds with the concatenation of the binary frames of [pre] in their
    order of arrival, whatever follows; and a call never succeeds in any
    other way, so a successful result is always the concatenation of exactly
    the binary frames received before its completion event. *)
Theorem result_is_concatenation_of_frames :
  (forall pre data post,
      DashScope.promise (runA pre startA) = None ->
      DashScope.isSettled (runA pre startA) = false ->
      is_string (discriminator toString JSON_parse (js "event") data) (js "task-finished") = true ->
      DashScope.promise (runA (pre ++ OnWs (Message data false) :: post) startA)
      = Some (Resolved (Buffer_concat (frames pre)))) /\
  (forall evs audio,
      DashScope.promise (runA evs startA) = Some (Resolved audio) ->
      exists pre data post,
        evs = pre ++ OnWs (Message data false) :: post /\
        is_string (discriminator toString JSON_parse (js "event") data) (js "task-finished") = true /\
        DashScope.promise (runA pre startA) = None /\
        audio = Buffer_concat (frames pre)) /\
  (forall pre data post,
      Nls.promise (runB pre startB) = None ->
      alive (runB pre startB) ->
      is_string (discriminator toString JSON_parse (js "name") data) (js "SynthesisCompleted") = true ->
      Nls.promise (runB (pre ++ OnWs (Message data false) :: post) startB)
      = Some (Resolved (Buffer_concat (frames pre)))) /\
  (forall evs audio,
      Nls.promise (runB evs startB) = Some (Resolved audio) ->
      exists pre data post,
        evs = pre ++ OnWs (Message data false) :: post /\
        is_string (discriminator toString JSON_parse (js "name") data) (js "SynthesisCompleted") = true /\
        Nls.promise (runB pre startB) = None /\
        audio = Buffer_concat (frames pre)).
Proof.
  split; [|split; [|split]].
  - intros pre data post Hpending Hlatch Hevent.
    pose proof (dashscope_pending_running pre Hpending) as Hrun.
    rewrite dashscope_run_app. cbn [DashScope.run fold_left].
    apply (run_stable _ deliverA DashScope.promise).
    { intros s e w. apply dashscope_stable. }
    rewrite (dashscope_task_finished _ data Hrun Hlatch Hevent).
    rewrite (dashscope_chunks_run pre _ (dashscope_pending_start pre Hpending)).
    rewrite dashscope_start_chunks. reflexivity.
  - intros evs audio Hres.
    destruct dashscope_start as [[_ Hrun] | [_ Hstart]].
    + destruct (first_settlement _ deliverA DashScope.promise
                  (fun s e w => dashscope_stable s e w) evs _ _
                  (dashscope_start_pending Hrun) Hres)
        as (pre & e & post & -> & Hpre & Hat).
      destruct (dashscope_resolved_step _ _ _ Hpre Hat) as (Haudio & data & -> & Hevent).
      exists pre, data, post. repeat split; try assumption.
      rewrite Haudio. fold (runA pre startA).
      rewrite (dashscope_chunks_run pre _ Hrun), dashscope_start_chunks. reflexivity.
    + rewrite dashscope_no_socket in Hres by (rewrite Hstart; reflexivity).
      rewrite Hstart in Hres. discriminate.
  - intros pre data post Hpending Halive Hname.
    rewrite nls_run_app. cbn [Nls.run fold_left].
    apply (run_stable _ deliverB Nls.promise).
    { intros s e w. apply nls_stable. }
    rewrite (nls_task_finished _ data Halive Hpending Hname).
    rewrite (nls_chunks_run pre _ Halive), nls_start_chunks. reflexivity.
  - intros evs audio Hres.
    destruct nls_start_cases as [(address & _ & Hstart) | Hstart].
    + destruct (first_settlement _ deliverB Nls.promise
                  (fun s e w => nls_stable s e w) evs startB _
                  ltac:(rewrite Hstart; reflexivity) Hres)
        as (pre & e & post & -> & Hpre & Hat).
      destruct (nls_resolved_step _ _ _ Hpre Hat) as (Haudio & Halive & data & -> & Hname).
      exists pre, data, post. repeat split; try assumption.
      rewrite Haudio. fold (runB pre startB).
      rewrite (nls_chunks_run pre _ Halive), nls_start_chunks. reflexivity.
    + rewrite nls_no_socket in Hres by (rewrite Hstart; reflexivity).
      rewrite Hstart in Hres. discriminate.
Qed.

(** ** Frames that do not parse *)

Lemma nls_settling_event (s : Nls.Session) (e : Event) :
  Nls.promise s = None ->
  Nls.promise (deliverB s e) <> None ->
  terminal_B toString JSON_parse e = true.
Proof.
  destruct s as [p calls chunks w t n u]. project_nls. intros ->.
  unfold_nls. unfold terminal_B, discriminator.
  split_tests; intros H; try congruence; try reflexivity;
    repeat match goal with H : _ = _ |- _ => rewrite H end;
    try reflexivity; apply orb_true_r.
Qed.

(** In profile A a frame that does not parse is logged and the session goes
    on as it was: the continuation runs from the same state with one more
    line on the console. *)
Lemma dashscope_malformed_frame_ignored (pre post : list Event) (data : Buffer) :
  JSON_parse (toString data) = None ->
  DashScope.promise (runA pre startA) = None ->
  runA (pre ++ OnWs (Message data false) :: post) startA
  = runA post (DashScope.write (Warn (js "[TTS] 解析消息失败:") SyntaxError) (runA pre startA)).
Proof.
  intros Hparse Hpending.
  destruct (dashscope_pending_running pre Hpending) as (Hw & _).
  rewrite dashscope_run_app. cbn [DashScope.run fold_left].
  destruct (dashscope_malformed (runA pre startA) data Hw) as [Hsyntax _].
  unfold DashScope.run in *. rewrite (Hsyntax Hparse). reflexivity.
Qed.

(** C3.  What profile B does with a text frame that does not parse: the
    frame throws its [SyntaxError] out of the message listener, where profile
    A logs it and goes on; nothing catches the exception, and no event after
    it is handled, whatever it is. *)
Theorem nls_malformed_frame_ends_session (pre post : list Event) (data : Buffer) :
  JSON_parse (toString data) = None ->
  alive (runB pre startB) ->
  runB (pre ++ OnWs (Message data false) :: post) startB
  = Nls.throw SyntaxError (runB pre startB).
Proof.
  intros Hparse Halive.
  rewrite nls_run_app. cbn [Nls.run fold_left].
  destruct (nls_malformed (runB pre startB) data Halive) as [Hsyntax _].
  unfold Nls.run in *. rewrite (Hsyntax Hparse).
  apply nls_dead. cbn. discriminate.
Qed.

(** ** Close and error of the socket *)

Lemma includes_middle (a b c : JSString) : includes (a ++ b ++ c) b.
Proof. exists a, c. reflexivity. Qed.

Lemma includes_end (a b : JSString) : includes (a ++ b) b.
Proof. exists a, []. rewrite app_nil_r. reflexivity. Qed.

(** X15.  In profile A a close that finds the promise pending and the latch
    not set rejects the promise, whatever follows, with a message that holds
    the close code in decimal and the text of the reason (the placeholder
    when there is none). *)
Lemma dashscope_unexpected_close_reported (pre post : list Event) (code : N)
  (reason : option Buffer) :
  DashScope.promise (runA pre startA) = None ->
  DashScope.isSettled (runA pre startA) = false ->
  exists message,
    DashScope.promise (runA (pre ++ OnWs (Close code reason) :: post) startA)
    = Some (Rejected message) /\
    includes message (decimal (Z.of_N code)) /\
    includes message (DashScope.reasonText toString reason).
Proof.
  intros Hpending Hlatch.
  pose proof (dashscope_pending_running pre Hpending) as Hrun.
  eexists. split; [|split].
  - rewrite dashscope_run_app. cbn [DashScope.run fold_left].
    apply (run_stable _ deliverA DashScope.promise).
    { intros s e w. apply dashscope_stable. }
    apply (dashscope_close _ code reason Hrun Hlatch).
  - apply includes_middle.
  - rewrite !app_assoc. apply includes_end.
Qed.

(** X16.  In both profiles an error of the socket that finds the promise
    pending (in profile A with the latch not set) rejects it, whatever
    follows, with the message of the error: behind a fixed prefix in profile
    A, as it is in profile B. *)
Lemma transport_error_reported (pre post : list Event) (message : JSString) :
  (DashScope.promise (runA pre startA) = None ->
   DashScope.isSettled (runA pre startA) = false ->
   DashScope.promise (runA (pre ++ OnWs (Error message) :: post) startA)
   = Some (Rejected (DashScope.MSG_WS_ERROR ++ message))) /\
  (Nls.promise (runB pre startB) = None ->
   alive (runB pre startB) ->
   Nls.promise (runB (pre ++ OnWs (Error message) :: post) startB)
   = Some (Rejected message)).
Proof.
  split.
  - intros Hpending Hlatch.
    pose proof (dashscope_pending_running pre Hpending) as Hrun.
    rewrite dashscope_run_app. cbn [DashScope.run fold_left].
    apply (run_stable _ deliverA DashScope.promise).
    { intros s e w. apply dashscope_stable. }
    apply (dashscope_error _ message Hrun Hlatch).
  - intros Hpending Halive.
    rewrite nls_run_app. cbn [Nls.run fold_left].
    apply (run_stable _ deliverB Nls.promise).
    { intros s e w. apply nls_stable. }
    apply (nls_error _ message Halive Hpending).
Qed.

(** C4.  What profile B does when the socket opens and then closes, with any
    code and reason, before the deadline and with no terminal control event
    (the token being one the address can be built from): the close settles
    nothing, since no listener is registered for it; the promise stays
    pending until the timer goes off and is then rejected with the timeout
    message, which holds neither the code nor the reason. *)
Theorem nls_unexpected_close_not_reported (code : N) (reason : option Buffer) (time : N)
  (address : JSString) :
  (time < 30000)%N ->
  Nls.wsUrl token = Normal address ->
  Nls.promise (runB [OnWs Open; OnWs (Close code reason)] startB) = None /\
  Nls.promise (sessionB [(0%N, Open); (time, Close code reason)])
  = Some (Rejected Nls.MSG_TIMEOUT).
Proof.
  intros Htime Haddress.
  unfold Nls.session, Nls.synthesizeSpeech. rewrite Haddress.
  split; [reflexivity|].
  unfold schedule, until, from, early.
  cbn [Nls.timeout filter fst snd map].
  apply N.ltb_lt in Htime. unfold Nls.TIMEOUT_MS. rewrite Htime.
  reflexivity.
Qed.

(** ** The deadline *)

Lemma dashscope_schedule (trace : list (N * WsEvent)) :
  running_A startA ->
  sessionA trace
  = runA (from 60000 trace) (deliverA (runA (until 60000 trace) startA) OnTimer).
Proof.
  intros Hrun.
  destruct Hrun as (_ & _ & Ht & _).
  unfold DashScope.session. rewrite (Ht dashscope_start_unlatched).
  unfold schedule, DashScope.TIMEOUT_MS. rewrite dashscope_run_app. reflexivity.
Qed.

Lemma nls_schedule (trace : list (N * WsEvent)) (address : JSString) :
  Nls.wsUrl token = Normal address ->
  sessionB trace
  = runB (from 30000 trace) (deliverB (runB (until 30000 trace) startB) OnTimer).
Proof.
  intros Haddress.
  unfold Nls.session. rewrite (proj1 (proj2 (proj2 (nls_start_alive address Haddress)))).
  unfold schedule, Nls.TIMEOUT_MS. rewrite nls_run_app. reflexivity.
Qed.





(** ** The failure event *)


(** C7.  What the two profiles do with a failure event whose message does
    not convert to a string (an object that has a property of its own named
    [toString]), when the event finds the promise pending: [new Error(...)]
    throws.  In profile A the latch is set and the timer cleared by then and
    the [catch] only warns, so the promise is never settled, whatever comes
    after: neither a rejection nor the deadline ends the call.  In profile B
    the exception leaves the listener with the timer cleared and the promise
    pending, and no later event is handled. *)
Theorem task_failed_with_unprintable_message_is_not_reported
  (pre post : list Event) (data : Buffer) (msg : JValue) (hdr : option JValue) (e : Exn) :
  JSON_parse (toString data) = Some msg ->
  member msg (js "header") = Normal hdr ->
  (DashScope.promise (runA pre startA) = None ->
   DashScope.isSettled (runA pre startA) = false ->
   is_string (optional hdr (js "event")) (js "task-failed") = true ->
   ToString (or_else (optional hdr (js "error_message")) (JStr DashScope.MSG_FAILED)) = Throw e ->
   DashScope.promise (runA (pre ++ OnWs (Message data false) :: post) startA) = None /\
   armed (DashScope.timeout (runA (pre ++ OnWs (Message data false) :: post) startA)) = false) /\
  (Nls.promise (runB pre startB) = None ->
   alive (runB pre startB) ->
   is_string (optional hdr (js "name")) (js "TaskFailed") = true ->
   ToString (or_else (optional hdr (js "status_message")) (JStr Nls.MSG_FAILED)) = Throw e ->
   Nls.promise (runB (pre ++ OnWs (Message data false) :: post) startB) = None /\
   Nls.uncaught (runB (pre ++ OnWs (Message data false) :: post) startB) = Some e /\
   armed (Nls.timeout (runB (pre ++ OnWs (Message data false) :: post) startB)) = false).
Proof.
  intros Hparse Hhdr. split.
  - intros Hpending Hlatch Hevent Hmessage.
    pose proof (dashscope_pending_running pre Hpending) as Hrun.
    destruct (dashscope_task_failed _ data msg hdr Hrun Hlatch Hparse Hhdr Hevent)
      as (Hl & _ & _ & Hp).
    rewrite Hmessage in Hp.
    rewrite dashscope_run_app. cbn [DashScope.run fold_left].
    destruct (dashscope_latched_run post _ Hl) as [Hp' Hl'].
    split; [unfold DashScope.run in *; congruence|].
    pose proof (dashscope_running_run post _
                  (dashscope_running_step _ (OnWs (Message data false)) Hrun))
      as (_ & _ & _ & Ht).
    apply Ht, Hl'.
  - intros Hpending Halive Hname Hmessage.
    rewrite nls_run_app. cbn [Nls.run fold_left].
    pose proof (nls_task_failed _ data msg hdr Halive Hpending Hparse Hhdr Hname) as Hstep.
    rewrite Hmessage in Hstep.
    assert (Hdead : runB post (Nls.throw e (Nls.ws_close (Nls.clearTimeout (runB pre startB))))
                    = Nls.throw e (Nls.ws_close (Nls.clearTimeout (runB pre startB))))
      by (apply nls_dead; cbn; discriminate).
    unfold Nls.run in *. rewrite Hstep, Hdead.
    unfold Nls.throw, Nls.ws_close, Nls.on_ws, Nls.clearTimeout, Nls.set_timeout. project_nls.
    repeat split; [exact Hpending | apply armed_clear].
Qed.

(** ** The start message *)

(** C8, as amended.  In profile A the listener of ['open'] sends the run-task
    message, and the payload of that message holds [input] with the empty
    object as its value, whatever the voice, model and format are and also
    when none is given.  The StartSynthesis message of profile B has no
    [input] in its payload. *)
Theorem dashscope_start_message_has_empty_input :
  (forall s w,
      DashScope.ws s = Some w ->
      DashScope.ws (deliverA s (OnWs Open))
      = Some (send (DashScope.runTask voice model format taskId) w)) /\
  payload_input (DashScope.runTask voice model format taskId) = Some (JObj []) /\
  (forall message_id,
      payload_input (Nls.startSynthesis randomIds voice format ALIYUN_APPKEY message_id) = None).
Proof.
  split; [|split].
  - intros s w Hw. apply dashscope_open, Hw.
  - reflexivity.
  - intros message_id. reflexivity.
Qed.

(** ** The missing key *)

(** Without a key the call returns a rejected promise and nothing else: no
    socket, no timer, and every trace leaves it as it is. *)
Lemma dashscope_no_key (trace : list (N * WsEvent)) :
  present userApiKey = false ->
  present DASHSCOPE_API_KEY = false ->
  startA = DashScope.mkSession (Some (Rejected DashScope.MSG_NO_KEY))
             [Rejected DashScope.MSG_NO_KEY] false [] None None [] /\
  sessionA trace = startA.
Proof.
  intros Huser Henv.
  assert (Hstart : startA = DashScope.mkSession (Some (Rejected DashScope.MSG_NO_KEY))
                              [Rejected DashScope.MSG_NO_KEY] false [] None None []).
  { unfold DashScope.synthesizeSpeech, DashScope.apiKey. rewrite Huser.
    destruct DASHSCOPE_API_KEY as [[|c r]|]; try reflexivity. discriminate Henv. }
  split; [exact Hstart|].
  unfold DashScope.session. apply dashscope_no_socket. rewrite Hstart. reflexivity.
Qed.

(** C10.  In profile A, when the caller gives no key (none, or the empty
    string) and [DASHSCOPE_API_KEY] is not set (or is empty), the promise is
    returned already rejected with the missing-key message; no socket is
    built and no timer set, so no event reaches the call and no connection is
    ever made. *)
Theorem missing_key_rejects_before_connecting (trace : list (N * WsEvent)) :
  present userApiKey = false ->
  present DASHSCOPE_API_KEY = false ->
  DashScope.promise startA = Some (Rejected DashScope.MSG_NO_KEY) /\
  DashScope.ws startA = None /\
  DashScope.timeout startA = None /\
  sessionA trace = startA /\
  DashScope.connections (sessionA trace) = [].
Proof.
  intros Huser Henv.
  destruct (dashscope_no_key trace Huser Henv) as (Hstart & Hsession).
  rewrite Hsession, Hstart. repeat split; reflexivity.
Qed.

End Sessions.

(* ================================================================== *)
(** * The routes and the token cache *)
(* ================================================================== *)

Section Routes.

Variable toString : Buffer -> JSString.
Variable JSON_parse : JSString -> option JValue.
Variable StringToNumber : JSString -> option Z.

Local Abbreviation getToken := (Nls.getNlsToken JSON_parse StringToNumber).

(** C6.  A request whose text is absent (or empty), or longer than the
    bound of the profile (5000 code units in profile A, 2000 in profile B),
    is answered with status 400 and an error body, with no call made over the
    network: no token request, no WebSocket connection, no upload (and, in
    profile B, with the token cache left as it was). *)
Theorem invalid_text_rejected_before_any_call
  (b : Body) (wA : DashScope.World) (wB : Nls.World) (cache : Nls.TokenCache) :
  ((text b = None \/ text b = Some [] \/
    exists t, text b = Some t /\ (5000 < List.length t)%nat) ->
   exists message,
     DashScope.api_tts toString JSON_parse b wA
     = mkOutcome (Some (failure 400 message)) []) /\
  ((text b = None \/ text b = Some [] \/
    exists t, text b = Some t /\ (2000 < List.length t)%nat) ->
   exists message,
     Nls.api_tts toString JSON_parse StringToNumber b cache wB
     = (mkOutcome (Some (failure 400 message)) [], cache)).
Proof.
  split; intros [Habsent | [Hempty | (t & Ht & Hlong)]].
  - exists DashScope.MSG_NO_TEXT. unfold DashScope.api_tts. rewrite Habsent. reflexivity.
  - exists DashScope.MSG_NO_TEXT. unfold DashScope.api_tts. rewrite Hempty. reflexivity.
  - exists DashScope.MSG_TOO_LONG. unfold DashScope.api_tts. rewrite Ht.
    destruct t as [|c t]; [cbn in Hlong; lia|].
    apply Nat.ltb_lt in Hlong. unfold DashScope.MAX_TEXT. rewrite Hlong. reflexivity.
  - exists Nls.MSG_NO_TEXT. unfold Nls.api_tts. rewrite Habsent. reflexivity.
  - exists Nls.MSG_NO_TEXT. unfold Nls.api_tts. rewrite Hempty. reflexivity.
  - exists Nls.MSG_TOO_LONG. unfold Nls.api_tts. rewrite Ht.
    destruct t as [|c t]; [cbn in Hlong; lia|].
    apply Nat.ltb_lt in Hlong. unfold Nls.MAX_TEXT. rewrite Hlong. reflexivity.
Qed.

(** The cache the process starts with holds no token: the first call asks
    for one. *)
Lemma first_call_refreshes (now : Z) (http : Nls.HttpOutcome) :
  snd (getToken now Nls.tokenCache0 http) = [Post Nls.tokenHost].
Proof. destruct http; reflexivity. Qed.

(** A call on a cache that holds a token, before the time the cache sets
    for it, returns that token with no request and leaves the cache as it
    is. *)
Lemma cache_hit (now : Z) (cache : Nls.TokenCache) (http : Nls.HttpOutcome) :
  truthy (Nls.id cache) = true ->
  Nls.before now (Nls.expireTime cache) = true ->
  getToken now cache http = (Nls.TokenResolved (Nls.id cache), cache, []).
Proof.
  intros Hid Hnow. unfold Nls.getNlsToken. rewrite Hid, Hnow. reflexivity.
Qed.

(** C9.  A call that misses the cache and is answered with a token [Id] and
    an [ExpireTime] of [expiry] seconds leaves a cache whose expiry is
    [1000 * (expiry - 60)] ms, sixty seconds before the one supplied.  Every
    call before that instant returns the same token with no request and
    leaves the cache unchanged, so any two such calls agree; every call at or
    after it issues a request for a new token. *)
Theorem token_cache_window
  (cache0 : Nls.TokenCache) (now0 : Z) (data : JSString) (result Token : JValue)
  (c : codeunit) (tok : JSString) (expiry : Z) :
  truthy (Nls.id cache0) && Nls.before now0 (Nls.expireTime cache0) = false ->
  JSON_parse data = Some result ->
  get result (js "Token") = Some Token ->
  get Token (js "Id") = Some (JStr (c :: tok)) ->
  get Token (js "ExpireTime") = Some (JNum expiry) ->
  exists cache1,
    getToken now0 cache0 (Nls.HttpEnd data)
    = (Nls.TokenResolved (Some (JStr (c :: tok))), cache1, [Post Nls.tokenHost]) /\
    Nls.expireTime cache1 = Some (1000 * (expiry - 60))%Z /\
    (forall now http,
        (now < 1000 * (expiry - 60))%Z ->
        getToken now cache1 http = (Nls.TokenResolved (Some (JStr (c :: tok))), cache1, [])) /\
    (forall now http,
        (1000 * (expiry - 60) <= now)%Z ->
        snd (getToken now cache1 http) = [Post Nls.tokenHost]).
Proof.
  intros Hmiss Hparse HToken HId HExpire.
  exists (Nls.mkTokenCache (Some (JStr (c :: tok))) (Some (1000 * (expiry - 60))%Z)).
  assert (Hobj : exists fields, Token = JObj fields).
  { destruct Token; try discriminate HId. eexists. reflexivity. }
  destruct Hobj as (fields & ->).
  assert (Hres : exists rfields, result = JObj rfields).
  { destruct result; try discriminate HToken. eexists. reflexivity. }
  destruct Hres as (rfields & ->).
  split; [|split; [|split]].
  - unfold Nls.getNlsToken, Nls.onEnd. rewrite Hmiss, Hparse.
    cbn [member]. rewrite HToken. cbn [truthy optional]. rewrite HId, HExpire.
    cbn [Nls.ToNumber option_map].
    replace (expiry * 1000 - 60000)%Z with (1000 * (expiry - 60))%Z by lia.
    reflexivity.
  - reflexivity.
  - intros now http Hnow. apply cache_hit; [reflexivity|].
    cbn. apply Z.ltb_lt, Hnow.
  - intros now http Hnow. unfold Nls.getNlsToken.
    cbn [Nls.id Nls.expireTime truthy Nls.before].
    apply Z.ltb_ge in Hnow. rewrite Hnow. destruct http; reflexivity.
Qed.

(** In profile A a request with a good text and no key anywhere is answered
    with status 500 and the missing-key message, with no connection made. *)
Lemma missing_key_request (b : Body) (w : DashScope.World) (c : codeunit) (t : JSString) :
  text b = Some (c :: t) ->
  (List.length (c :: t) <= 5000)%nat ->
  present (apikey b) = false ->
  present (DashScope.env_DASHSCOPE_API_KEY w) = false ->
  DashScope.api_tts toString JSON_parse b w
  = mkOutcome (Some (failure 500 DashScope.MSG_NO_KEY)) [].
Proof.
  intros Ht Hlen Hkey Henv. unfold DashScope.api_tts. rewrite Ht.
  assert (Hle : (DashScope.MAX_TEXT <? List.length (c :: t))%nat = false).
  { apply Nat.ltb_ge. exact Hlen. }
  rewrite Hle.
  destruct (dashscope_no_key toString JSON_parse (c :: t)
              (Some (defaulted (voice b) (js "longanyang")))
              (Some (defaulted (model b) (js "cosyvoice-v3-flash")))
              (Some (defaulted (format b) (js "mp3")))
              (apikey b) (DashScope.env_DASHSCOPE_API_KEY w) (DashScope.generatedId w)
              (DashScope.trace w) Hkey Henv) as (Hstart & Hsession).
  rewrite Hsession, Hstart. reflexivity.
Qed.

End Routes.

(* ================================================================== *)
(** * The theorems at sample sessions *)
(* ================================================================== *)

Local Abbreviation sampleA :=
  (DashScope.run Sample.toString Sample.JSON_parse (js "hello") None None None (js "task-1")).
Local Abbreviation sampleA0 := (DashScope.synthesizeSpeech (Some (js "sk-1")) None).
Local Abbreviation sampleB :=
  (Nls.run Sample.toString Sample.JSON_parse Sample.ids (js "hello") None None None).
Local Abbreviation sampleB0 := (Nls.synthesizeSpeech (Some (JStr (js "tok-1")))).
Local Abbreviation finishedA :=
  (Sample.bytes (Sample.stringify (Sample.control "event" "task-finished" []))).
Local Abbreviation finishedB :=
  (Sample.bytes (Sample.stringify (Sample.control "name" "SynthesisCompleted" []))).
Local Abbreviation failedA :=
  (Sample.control "event" "task-failed" [ (js "error_message", JStr (js "quota exceeded")) ]).
Local Abbreviation failedB :=
  (Sample.control "name" "TaskFailed" [ (js "status_message", JStr (js "quota exceeded")) ]).

Local Abbreviation brokenA :=
  (Sample.control "event" "task-failed" [ (js "error_message", Sample.unprintable) ]).
Local Abbreviation brokenB :=
  (Sample.control "name" "TaskFailed" [ (js "status_message", Sample.unprintable) ]).
Local Abbreviation addressB :=
  (js "wss://nls-gateway-cn-beijing.aliyuncs.com/ws/v1?token=tok-1").

(** Three chunks and the completion event, then a close: the audio is the
    three chunks in order, in both profiles. *)
Lemma result_is_concatenation_witness :
  DashScope.promise
    (sampleA ([OnWs Open; OnWs (Sample.chunk "ab"); OnWs (Sample.chunk "cd");
               OnWs (Sample.chunk "ef")]
              ++ OnWs (Message finishedA false) :: [OnWs (Close 1000 None)]) sampleA0)
  = Some (Resolved (list_byte_of_string "abcdef")) /\
  Nls.promise
    (sampleB ([OnWs Open; OnWs (Sample.chunk "ab"); OnWs (Sample.chunk "cd");
               OnWs (Sample.chunk "ef")]
              ++ OnWs (Message finishedB false) :: [OnWs (Close 1000 None)]) sampleB0)
  = Some (Resolved (list_byte_of_string "abcdef")).
Proof.
  pose proof (result_is_concatenation_of_frames Sample.toString Sample.JSON_parse
                Sample.ids (js "hello") None None None (Some (js "sk-1")) None None
                (js "task-1") (Some (JStr (js "tok-1")))) as (HA & _ & HB & _).
  split.
  - apply (HA [OnWs Open; OnWs (Sample.chunk "ab"); OnWs (Sample.chunk "cd");
               OnWs (Sample.chunk "ef")] finishedA [OnWs (Close 1000 None)]);
      vm_compute; reflexivity.
  - apply (HB [OnWs Open; OnWs (Sample.chunk "ab"); OnWs (Sample.chunk "cd");
               OnWs (Sample.chunk "ef")] finishedB [OnWs (Close 1000 None)]);
      [vm_compute; reflexivity | split; vm_compute; [reflexivity | discriminate]
      | vm_compute; reflexivity].
Defined.

(** A gateway error page in place of a control message, then the completion
    event and the timer: profile B stops at the page. *)
Lemma nls_malformed_frame_witness :
  Sample.JSON_parse (Sample.toString (Sample.bytes (js "<html>502</html>"))) = None /\
  alive (sampleB [OnWs Open] sampleB0) /\
  sampleB ([OnWs Open] ++ OnWs Sample.garbage :: [OnWs (Message finishedB false); OnTimer])
    sampleB0
  = Nls.throw SyntaxError (sampleB [OnWs Open] sampleB0).
Proof.
  assert (H1 : Sample.JSON_parse (Sample.toString (Sample.bytes (js "<html>502</html>")))
               = None) by (vm_compute; reflexivity).
  assert (H2 : alive (sampleB [OnWs Open] sampleB0))
    by (split; vm_compute; [reflexivity | discriminate]).
  split; [exact H1|]. split; [exact H2|].
  exact (nls_malformed_frame_ends_session Sample.toString Sample.JSON_parse Sample.ids
           (js "hello") None None None (Some (JStr (js "tok-1")))
           [OnWs Open] [OnWs (Message finishedB false); OnTimer]
           (Sample.bytes (js "<html>502</html>")) H1 H2).
Defined.

(** An abnormal closure a tenth of a second after the socket opened. *)
Lemma nls_unexpected_close_witness :
  (100 < 30000)%N /\
  Nls.wsUrl (Some (JStr (js "tok-1"))) = Normal addressB /\
  Nls.promise (sampleB [OnWs Open; OnWs (Close 1006 None)] sampleB0) = None /\
  Nls.promise
    (Nls.session Sample.toString Sample.JSON_parse Sample.ids (js "hello") None None
       (Some (JStr (js "tok-1"))) None [(0%N, Open); (100%N, Close 1006 None)])
  = Some (Rejected Nls.MSG_TIMEOUT).
Proof.
  assert (H1 : (100 < 30000)%N) by reflexivity.
  assert (H2 : Nls.wsUrl (Some (JStr (js "tok-1"))) = Normal addressB)
    by (vm_compute; reflexivity).
  split; [exact H1|]. split; [exact H2|].
  exact (nls_unexpected_close_not_reported Sample.toString Sample.JSON_parse Sample.ids
           (js "hello") None None None (Some (JStr (js "tok-1"))) 1006%N None 100%N
           addressB H1 H2).
Defined.


(** Two chunks, then the failure event whose message is an object with a
    [toString] of its own, then a close (profile A) or an error (profile B)
    and the timer: profile A stays pending for ever, profile B stops at the
    exception. *)
Lemma task_failed_unprintable_witness :
  DashScope.promise
    (sampleA ([OnWs Open; OnWs (Sample.chunk "ab"); OnWs (Sample.chunk "cd")]
              ++ OnWs (Sample.frame brokenA) :: [OnWs (Close 1000 None); OnTimer]) sampleA0)
  = None /\
  (let s := sampleB ([OnWs Open; OnWs (Sample.chunk "ab"); OnWs (Sample.chunk "cd")]
                     ++ OnWs (Sample.frame brokenB)
                        :: [OnWs (Error (js "socket hang up")); OnTimer]) sampleB0 in
   Nls.promise s = None /\ Nls.uncaught s = Some TypeError).
Proof.
  split.
  - apply (proj1 (task_failed_with_unprintable_message_is_not_reported Sample.toString
                    Sample.JSON_parse Sample.ids (js "hello") None None None
                    (Some (js "sk-1")) None None (js "task-1") (Some (JStr (js "tok-1")))
                    [OnWs Open; OnWs (Sample.chunk "ab"); OnWs (Sample.chunk "cd")]
                    [OnWs (Close 1000 None); OnTimer]
                    (Sample.bytes (Sample.stringify brokenA)) brokenA
                    (Some (JObj [ (js "event", JStr (js "task-failed"));
                                  (js "error_message", Sample.unprintable) ]))
                    TypeError ltac:(vm_compute; reflexivity) ltac:(reflexivity)));
      vm_compute; reflexivity.
  - cbv zeta.
    destruct (proj2 (task_failed_with_unprintable_message_is_not_reported Sample.toString
                       Sample.JSON_parse Sample.ids (js "hello") None None None
                       (Some (js "sk-1")) None None (js "task-1") (Some (JStr (js "tok-1")))
                       [OnWs Open; OnWs (Sample.chunk "ab"); OnWs (Sample.chunk "cd")]
                       [OnWs (Error (js "socket hang up")); OnTimer]
                       (Sample.bytes (Sample.stringify brokenB)) brokenB
                       (Some (JObj [ (js "name", JStr (js "TaskFailed"));
                                     (js "status_message", Sample.unprintable) ]))
                       TypeError ltac:(vm_compute; reflexivity) ltac:(reflexivity))
                ltac:(vm_compute; reflexivity)
                ltac:(split; vm_compute; [reflexivity | discriminate])
                ltac:(vm_compute; reflexivity) ltac:(vm_compute; reflexivity))
      as (Hpending & Huncaught & _).
    split; [exact Hpending | exact Huncaught].
Defined.


(** No key in the request and an empty one in the environment. *)
Lemma missing_key_witness :
  present None = false /\
  present (Some []) = false /\
  DashScope.promise (DashScope.synthesizeSpeech None (Some []))
  = Some (Rejected DashScope.MSG_NO_KEY) /\
  DashScope.connections
    (DashScope.session Sample.toString Sample.JSON_parse (js "hello") None None None
       None (Some []) (js "task-1") [(5%N, Open)]) = [].
Proof.
  split; [reflexivity|]. split; [reflexivity|].
  destruct (missing_key_rejects_before_connecting Sample.toString Sample.JSON_parse
              (js "hello") None None None None (Some []) (js "task-1") [(5%N, Open)]
              eq_refl eq_refl) as (Hpromise & _ & _ & _ & Hconnections).
  split; [exact Hpromise | exact Hconnections].
Defined.

(** The start message of profile B at a sample call: its payload has no
    [input]. *)
Lemma nls_start_message_lacks_input :
  map payload_input (sent_B (sampleB [OnWs Open] sampleB0)) = [None].
Proof. vm_compute. reflexivity. Qed.

Local Abbreviation worldA :=
  (DashScope.mkWorld (Some (js "sk-1")) (js "task-1")
     [(5%N, Open); (40%N, Sample.chunk "ab"); (70%N, Message finishedA false)]
     1700000000000%Z (js "0a1b2c3d") None (fun fileName => js "https://cdn/" ++ fileName)).
Local Abbreviation worldB :=
  (Nls.mkWorld (Some (js "appkey-1")) 1600000000000%Z
     (Nls.HttpEnd (Sample.stringify
        (JObj [ (js "Token", JObj [ (js "Id", JStr (js "tok-1"));
                                    (js "ExpireTime", JNum 1700000000) ]) ])))
     Sample.ids
     [(5%N, Open); (40%N, Sample.chunk "ab"); (70%N, Message finishedB false)]
     1700000000000%Z (js "0a1b2c3d4e5f") None (fun fileName => js "https://cdn/" ++ fileName)).

(** A body with no field at all. *)
Lemma invalid_text_witness :
  text (mkBody None None None None None) = None /\
  (exists message,
      DashScope.api_tts Sample.toString Sample.JSON_parse (mkBody None None None None None)
        worldA
      = mkOutcome (Some (failure 400 message)) []) /\
  (exists message,
      Nls.api_tts Sample.toString Sample.JSON_parse Sample.StringToNumber
        (mkBody None None None None None) Nls.tokenCache0 worldB
      = (mkOutcome (Some (failure 400 message)) [], Nls.tokenCache0)).
Proof.
  split; [reflexivity|].
  destruct (invalid_text_rejected_before_any_call Sample.toString Sample.JSON_parse
              Sample.StringToNumber (mkBody None None None None None) worldA worldB
              Nls.tokenCache0) as (HA & HB).
  split; [apply HA | apply HB]; left; reflexivity.
Defined.

(** The first call of a process, answered with a token that expires at
    1 700 000 000 s. *)
Lemma token_cache_witness :
  truthy (Nls.id Nls.tokenCache0) && Nls.before 1600000000000 (Nls.expireTime Nls.tokenCache0)
  = false /\
  exists cache1,
    Nls.getNlsToken Sample.JSON_parse Sample.StringToNumber 1600000000000 Nls.tokenCache0
      (Nls.http worldB)
    = (Nls.TokenResolved (Some (JStr (js "tok-1"))), cache1, [Post Nls.tokenHost]) /\
    Nls.expireTime cache1 = Some 1699999940000%Z.
Proof.
  split; [reflexivity|].
  destruct (token_cache_window Sample.JSON_parse Sample.StringToNumber Nls.tokenCache0
              1600000000000
              (Sample.stringify
                 (JObj [ (js "Token", JObj [ (js "Id", JStr (js "tok-1"));
                                             (js "ExpireTime", JNum 1700000000) ]) ]))
              (JObj [ (js "Token", JObj [ (js "Id", JStr (js "tok-1"));
                                          (js "ExpireTime", JNum 1700000000) ]) ])
              (JObj [ (js "Id", JStr (js "tok-1")); (js "ExpireTime", JNum 1700000000) ])
              116%N (tl (js "tok-1")) 1700000000%Z
              eq_refl ltac:(vm_compute; reflexivity) ltac:(vm_compute; reflexivity)
              ltac:(vm_compute; reflexivity) ltac:(vm_compute; reflexivity))
    as (cache1 & Hcall & Hexpiry & _).
  exists cache1. split; [exact Hcall | exact Hexpiry].
Defined.

(** ** The routes at sample requests *)

Example dashscope_request_served :
  DashScope.api_tts Sample.toString Sample.JSON_parse
    (mkBody (Some (js "hello")) None None None None) worldA
  = mkOutcome
      (Some (success (js "https://cdn/tts/1700000000000_0a1b2c3d.mp3") 5))
      [ Connect DashScope.wsUrl [(js "Authorization", js "bearer sk-1")];
        Upload (js "tts/1700000000000_0a1b2c3d.mp3") (list_byte_of_string "ab")
          (Mime (js "audio/mpeg")) ].
Proof. vm_compute. reflexivity. Qed.

Example nls_request_served :
  fst (Nls.api_tts Sample.toString Sample.JSON_parse Sample.StringToNumber
         (mkBody (Some (js "hello")) None None None None) Nls.tokenCache0 worldB)
  = mkOutcome
      (Some (success (js "https://cdn/tts/1700000000000_0a1b2c3d.mp3") 5))
      [ Post Nls.tokenHost;
        Connect (js "wss://nls-gateway-cn-beijing.aliyuncs.com/ws/v1?token=tok-1") [];
        Upload (js "tts/1700000000000_0a1b2c3d.mp3") (list_byte_of_string "ab")
          (Mime (js "audio/mpeg")) ].
Proof. vm_compute. reflexivity. Qed.

Example dashscope_text_bound :
  (let at_bound := mkBody (Some (repeat 97%N DashScope.MAX_TEXT)) None None None None in
   network (DashScope.api_tts Sample.toString Sample.JSON_parse at_bound worldA) <> []) /\
  (let over_bound := mkBody (Some (repeat 97%N (S DashScope.MAX_TEXT))) None None None None in
   DashScope.api_tts Sample.toString Sample.JSON_parse over_bound worldA
   = mkOutcome (Some (failure 400 DashScope.MSG_TOO_LONG)) []).
Proof. split; vm_compute; [discriminate | reflexivity]. Qed.

Example nls_text_bound :
  (let at_bound := mkBody (Some (repeat 97%N Nls.MAX_TEXT)) None None None None in
   network (fst (Nls.api_tts Sample.toString Sample.JSON_parse Sample.StringToNumber
                   at_bound Nls.tokenCache0 worldB)) <> []) /\
  (let over_bound := mkBody (Some (repeat 97%N (S Nls.MAX_TEXT))) None None None None in
   fst (Nls.api_tts Sample.toString Sample.JSON_parse Sample.StringToNumber
          over_bound Nls.tokenCache0 worldB)
   = mkOutcome (Some (failure 400 Nls.MSG_TOO_LONG)) []).
Proof. split; vm_compute; [discriminate | reflexivity]. Qed.

(** ** The sessions at sample traces *)

(** Profile B calls [reject] after [resolve] when a failure event follows the
    completion event; the promise keeps the audio. *)
Example nls_second_call_is_ignored :
  let s := sampleB [OnWs Open; OnWs (Sample.chunk "ab"); OnWs (Message finishedB false);
                    OnWs (Sample.frame failedB)] sampleB0 in
  Nls.promise s = Some (Resolved (list_byte_of_string "ab")) /\
  Nls.settleCalls s = [Resolved (list_byte_of_string "ab"); Rejected (js "quota exceeded")].
Proof. vm_compute. split; reflexivity. Qed.

(** The same trace where profile A logs the page and goes on to the audio,
    and profile B stops. *)
Example malformed_frame_in_both_profiles :
  DashScope.promise
    (sampleA [OnWs Open; OnWs Sample.garbage; OnWs (Sample.chunk "ab");
              OnWs (Message finishedA false)] sampleA0)
  = Some (Resolved (list_byte_of_string "ab")) /\
  (let s := sampleB [OnWs Open; OnWs Sample.garbage; OnWs (Sample.chunk "ab");
                     OnWs (Message finishedB false); OnTimer] sampleB0 in
   Nls.promise s = None /\ Nls.uncaught s = Some SyntaxError /\ Nls.audioChunks s = []).
Proof. vm_compute. repeat split; reflexivity. Qed.

(** The close that profile A reports. *)
Example dashscope_close_message :
  DashScope.promise (sampleA [OnWs Open; OnWs (Close 1006 None)] sampleA0)
  = Some (Rejected (js "WebSocket 意外关闭，code: 1006，原因: 未知")).
Proof. vm_compute. reflexivity. Qed.

(* ================================================================== *)
(** * Identifiers *)
(* ================================================================== *)

Lemma digit_inj (a b : N) :
  (a < 16)%N -> (b < 16)%N -> Ids.digit a = Ids.digit b -> a = b.
Proof.
  unfold Ids.digit. intros Ha Hb.
  destruct (N.ltb_spec a 10), (N.ltb_spec b 10); lia.
Qed.

Lemma digit_is_hex (a : N) : (a < 16)%N -> Ids.is_hex_digit (Ids.digit a) = true.
Proof.
  unfold Ids.digit, Ids.is_hex_digit. intros Ha.
  destruct (N.ltb_spec a 10).
  - replace (48 <=? 48 + a)%N with true by (symmetry; apply N.leb_le; lia).
    replace (48 + a <=? 57)%N with true by (symmetry; apply N.leb_le; lia).
    reflexivity.
  - replace (97 <=? 87 + a)%N with true by (symmetry; apply N.leb_le; lia).
    replace (87 + a <=? 102)%N with true by (symmetry; apply N.leb_le; lia).
    apply orb_true_r.
Qed.

Lemma byte_below (b : byte) : (Byte.to_N b < 256)%N.
Proof. destruct b; vm_compute; reflexivity. Qed.

Lemma hex_byte_inj (a b : byte) : Ids.hex_byte a = Ids.hex_byte b -> a = b.
Proof.
  unfold Ids.hex_byte. intros H. injection H as Hhigh Hlow.
  pose proof (byte_below a) as Ha. pose proof (byte_below b) as Hb.
  apply digit_inj in Hhigh;
    [|apply N.Div0.div_lt_upper_bound; lia|apply N.Div0.div_lt_upper_bound; lia].
  apply digit_inj in Hlow; [|apply N.mod_lt; lia|apply N.mod_lt; lia].
  assert (Hn : Byte.to_N a = Byte.to_N b).
  { rewrite (N.div_mod (Byte.to_N a) 16), (N.div_mod (Byte.to_N b) 16) by lia.
    rewrite Hhigh, Hlow. reflexivity. }
  pose proof (Byte.of_to_N a) as Hofa. pose proof (Byte.of_to_N b) as Hofb.
  rewrite Hn in Hofa. congruence.
Qed.

Lemma hex_inj (a : Buffer) : forall b, Ids.hex a = Ids.hex b -> a = b.
Proof.
  induction a as [|x a IH]; intros [|y b] H; try reflexivity; try discriminate H.
  cbn [Ids.hex flat_map] in H. unfold Ids.hex_byte at 1 3 in H. cbn [app] in H.
  injection H as Hhigh Hlow Hrest.
  f_equal.
  - apply hex_byte_inj. unfold Ids.hex_byte. congruence.
  - apply IH, Hrest.
Qed.

Lemma hex_length (b : Buffer) : List.length (Ids.hex b) = (2 * List.length b)%nat.
Proof.
  induction b as [|x b IH]; [reflexivity|].
  cbn [Ids.hex flat_map]. rewrite length_app. fold (Ids.hex b). rewrite IH.
  cbn [Ids.hex_byte List.length]. lia.
Qed.

Lemma hex_digits (b : Buffer) : forallb Ids.is_hex_digit (Ids.hex b) = true.
Proof.
  induction b as [|x b IH]; [reflexivity|].
  cbn [Ids.hex flat_map Ids.hex_byte app forallb]. fold (Ids.hex b). rewrite IH.
  pose proof (byte_below x) as Hx.
  rewrite !digit_is_hex; [reflexivity|apply N.mod_lt; lia|
                           apply N.Div0.div_lt_upper_bound; lia].
Qed.

Lemma hex_firstn (k : nat) : forall b, firstn (2 * k) (Ids.hex b) = Ids.hex (firstn k b).
Proof.
  induction k as [|k IH]; intros b; [reflexivity|].
  destruct b as [|x b]; [reflexivity|].
  replace (2 * S k)%nat with (S (S (2 * k))) by lia.
  cbn [Ids.hex flat_map Ids.hex_byte app firstn]. fold (Ids.hex b).
  fold (Ids.hex (firstn k b)). rewrite IH. reflexivity.
Qed.

(** X13.  Whatever sixteen bytes the source of randomness gives,
    [generateId()] is a string of 32 lowercase hexadecimal digits; its first
    eight characters, which name the stored file, are the digits of the first
    four bytes; and two identifiers are equal only when the bytes they were
    made of are. *)
Theorem generateId_is_32_hex_digits (randomBytes : nat -> Buffer) :
  List.length (randomBytes 16%nat) = 16%nat ->
  List.length (Ids.generateId randomBytes) = 32%nat /\
  forallb Ids.is_hex_digit (Ids.generateId randomBytes) = true /\
  firstn 8 (Ids.generateId randomBytes) = Ids.hex (firstn 4 (randomBytes 16%nat)) /\
  (forall randomBytes' : nat -> Buffer,
      Ids.generateId randomBytes = Ids.generateId randomBytes' ->
      randomBytes 16%nat = randomBytes' 16%nat).
Proof.
  intros Hlen. unfold Ids.generateId. repeat split.
  - rewrite hex_length, Hlen. reflexivity.
  - apply hex_digits.
  - apply (hex_firstn 4).
  - intros randomBytes' H. apply hex_inj, H.
Qed.

Lemma generateId_witness :
  List.length (repeat xa7 16) = 16%nat /\
  List.length (Ids.generateId (fun n => repeat xa7 n)) = 32%nat /\
  forallb Ids.is_hex_digit (Ids.generateId (fun n => repeat xa7 n)) = true.
Proof.
  split; [reflexivity|].
  destruct (generateId_is_32_hex_digits (fun n => repeat xa7 n) eq_refl)
    as (Hlength & Hdigits & _).
  split; [exact Hlength | exact Hdigits].
Defined.

Example generateId_sample :
  Ids.generateId (fun n => repeat xa7 n) = js "a7a7a7a7a7a7a7a7a7a7a7a7a7a7a7a7".
Proof. vm_compute. reflexivity. Qed.

(* ================================================================== *)
(** * More of the sessions *)
(* ================================================================== *)

Section Handshake.

Variable toString : Buffer -> JSString.
Variable JSON_parse : JSString -> option JValue.
Variable randomIds : nat -> JSString.
Variable text : JSString.
Variables voice model format userApiKey DASHSCOPE_API_KEY ALIYUN_APPKEY : option JSString.
Variable taskId : JSString.
Variable token : option JValue.

Local Abbreviation deliverA := (DashScope.deliver toString JSON_parse text voice model format taskId).
Local Abbreviation runA := (DashScope.run toString JSON_parse text voice model format taskId).
Local Abbreviation startA := (DashScope.synthesizeSpeech userApiKey DASHSCOPE_API_KEY).
Local Abbreviation sessionA :=
  (DashScope.session toString JSON_parse text voice model format userApiKey
     DASHSCOPE_API_KEY taskId).
Local Abbreviation deliverB := (Nls.deliver toString JSON_parse randomIds text voice format ALIYUN_APPKEY).
Local Abbreviation runB := (Nls.run toString JSON_parse randomIds text voice format ALIYUN_APPKEY).
Local Abbreviation startB := (Nls.synthesizeSpeech token).
Local Abbreviation sessionB :=
  (Nls.session toString JSON_parse randomIds text voice format token ALIYUN_APPKEY).
Local Abbreviation requestsA := (requests_A toString JSON_parse text voice model format taskId).

(** ** Control events that are not handled *)

(** X1.  A text frame that parses to a value other than [null] and whose
    discriminator ([header.event] in profile A, [header.name] in profile B)
    is none of the three names the listener tests for, an informational
    event or one the client does not know, leaves the session exactly as it
    was, in every state. *)
Theorem unknown_control_events_are_ignored
  (sA : DashScope.Session) (sB : Nls.Session) (data : Buffer) (msg : JValue) :
  JSON_parse (toString data) = Some msg ->
  msg <> JNull ->
  (none_of (discriminator toString JSON_parse (js "event") data)
     ["task-started"; "task-finished"; "task-failed"]%string = true ->
   deliverA sA (OnWs (Message data false)) = sA) /\
  (none_of (discriminator toString JSON_parse (js "name") data)
     ["SynthesisStarted"; "SynthesisCompleted"; "TaskFailed"]%string = true ->
   deliverB sB (OnWs (Message data false)) = sB).
Proof.
  intros Hparse Hnull.
  assert (Hhdr : member msg (js "header") = Normal (get msg (js "header"))).
  { destruct msg; try reflexivity. congruence. }
  unfold none_of, discriminator. rewrite Hparse, Hhdr. cbn [forallb].
  split; intros H;
    apply andb_prop in H; destruct H as [H1 H];
    apply andb_prop in H; destruct H as [H2 H];
    apply andb_prop in H; destruct H as [H3 _];
    apply negb_true_iff in H1, H2, H3.
  - unfold DashScope.deliver, DashScope.onMessage.
    destruct (DashScope.ws sA); [|reflexivity].
    rewrite Hparse, Hhdr, H1, H2, H3. reflexivity.
  - unfold Nls.deliver, Nls.onMessage.
    destruct (Nls.ws sB); [|reflexivity].
    destruct (Nls.uncaught sB); [reflexivity|].
    rewrite Hparse, Hhdr, H1, H2, H3. reflexivity.
Qed.

(** ** What is sent *)

Lemma dashscope_sent_step (s : DashScope.Session) (e : Event) :
  DashScope.ws s <> None ->
  sent_A (deliverA s e) = sent_A s ++ requestsA e.
Proof.
  destruct s as [p calls latch chunks w t out]. unfold sent_A. project_dashscope.
  intros Hw. destruct w as [w|]; [|congruence].
  unfold_dashscope. unfold requests_A, discriminator.
  split_tests; cbn [send close terminate sent]; rewrite ?app_nil_r, <- ?app_assoc;
    try reflexivity; try discriminate.
Qed.

Lemma dashscope_sent_run (evs : list Event) :
  forall s, running_A s -> sent_A (runA evs s) = sent_A s ++ flat_map requestsA evs.
Proof.
  induction evs as [|e evs IH]; intros s Hs; cbn [DashScope.run fold_left flat_map].
  - rewrite app_nil_r. reflexivity.
  - fold (runA evs (deliverA s e)).
    rewrite (IH _ (dashscope_running_step toString JSON_parse text voice model format
                     taskId s e Hs)).
    rewrite dashscope_sent_step by apply Hs. rewrite app_assoc. reflexivity.
Qed.

Lemma dashscope_start_running :
  present (DashScope.apiKey userApiKey DASHSCOPE_API_KEY) = true -> running_A startA.
Proof.
  intros Hkey.
  destruct (dashscope_start userApiKey DASHSCOPE_API_KEY) as [[_ H] | [H _]];
    [exact H | congruence].
Qed.

(** X2.  With a key, what a call of profile A has sent after any events is
    fixed by the openings of the socket and the task-started events among
    them, in their order: the run-task message for an opening, and for a
    task-started event the whole text in one continue-task message followed
    at once by the finish-task message.  Nothing else is ever sent, and every
    message sent carries the task identifier of the call. *)
Theorem dashscope_sends_handshake_only (evs : list Event) :
  present (DashScope.apiKey userApiKey DASHSCOPE_API_KEY) = true ->
  sent_A (runA evs startA) = flat_map requestsA evs /\
  Forall (fun m => header_of "task_id" m = Some (JStr taskId)) (sent_A (runA evs startA)).
Proof.
  intros Hkey. pose proof (dashscope_start_running Hkey) as Hrun.
  assert (Hsent : sent_A (runA evs startA) = flat_map requestsA evs).
  { rewrite (dashscope_sent_run evs _ Hrun).
    unfold sent_A, DashScope.synthesizeSpeech.
    destruct (DashScope.apiKey userApiKey DASHSCOPE_API_KEY) as [[|c r]|]; reflexivity. }
  split; [exact Hsent|].
  rewrite Hsent. apply Forall_forall. intros m Hm.
  apply in_flat_map in Hm. destruct Hm as (e & _ & Hm).
  unfold requests_A in Hm.
  destruct e as [[ | data [|] | message | code reason]|]; cbn in Hm; try contradiction.
  - destruct Hm as [<- | []]. reflexivity.
  - destruct (is_string _ _); cbn in Hm; [|contradiction].
    destruct Hm as [<- | [<- | []]]; reflexivity.
Qed.

Lemma nls_numbered_step (s : Nls.Session) (e : Event) :
  numbered randomIds s -> numbered randomIds (deliverB s e).
Proof.
  destruct s as [p calls chunks w t n u]. unfold numbered, sent_B. project_nls.
  destruct w as [w|]; [|unfold Nls.deliver; project_nls; auto].
  intros (Hn & Hids & Htask). specialize (Hn ltac:(discriminate)).
  assert (Hone : forall m : JSString -> JValue,
             (forall i, header_of "message_id" (m i) = Some (JStr i)) ->
             (forall i, header_of "task_id" (m i) = Some (JStr (randomIds 0))) ->
             S n = S (List.length (sent (send (m (randomIds n)) w))) /\
             map (header_of "message_id") (sent (send (m (randomIds n)) w))
             = map (fun k => Some (JStr (randomIds k)))
                 (seq 1 (List.length (sent (send (m (randomIds n)) w)))) /\
             Forall (fun x => header_of "task_id" x = Some (JStr (randomIds 0)))
               (sent (send (m (randomIds n)) w))).
  { intros m Hid Htid. cbn [send sent]. rewrite length_app. cbn [List.length].
    rewrite Nat.add_1_r. split; [congruence|]. split.
    - rewrite seq_S, !map_app, Hids. cbn [map]. rewrite Hid.
      replace (1 + List.length (sent w))%nat with n by lia. reflexivity.
    - apply Forall_app. split; [exact Htask|]. constructor; [apply Htid|constructor]. }
  assert (Hstart := Hone (Nls.startSynthesis randomIds voice format ALIYUN_APPKEY)
                      (fun i => eq_refl) (fun i => eq_refl)).
  unfold_nls.
  split_tests; cbn [close terminate sent]; try (repeat split; intros; assumption).
  - destruct Hstart as (H1 & H2 & H3). repeat split; intros; assumption.
  - (* the text and the end of input *)
    pose proof (Hone (Nls.runSynthesis randomIds text ALIYUN_APPKEY)
                  (fun i => eq_refl) (fun i => eq_refl)) as (Hn1 & Hids1 & Htask1).
    set (w1 := send (Nls.runSynthesis randomIds text ALIYUN_APPKEY (randomIds n)) w) in *.
    cbn [send sent]. rewrite length_app. cbn [List.length]. rewrite Nat.add_1_r.
    split; [intros _; congruence|]. split.
    + rewrite seq_S, !map_app, Hids1. cbn [map].
      replace (1 + List.length (sent w1))%nat with (S n) by lia. reflexivity.
    + apply Forall_app. split; [exact Htask1|]. constructor; [reflexivity|constructor].
Qed.

(** X3.  In every state a call of profile B reaches, the messages it has
    sent all carry the task identifier, the first identifier the call drew,
    and the k-th of them carries as its message identifier the (k+1)-th
    identifier drawn: each message has a fresh one, none is skipped or used
    twice. *)
Theorem nls_messages_are_numbered (evs : list Event) :
  numbered randomIds (runB evs startB).
Proof.
  assert (H0 : numbered randomIds startB).
  { unfold numbered, sent_B.
    destruct (nls_start_cases token) as [(address & _ & ->) | ->]; project_nls; cbn;
      repeat split; try constructor. intros H. elim H. reflexivity. }
  revert H0. generalize startB as s.
  induction evs as [|e evs IH]; intros s Hs; cbn [Nls.run fold_left]; [exact Hs|].
  apply IH, nls_numbered_step, Hs.
Qed.

(** ** Every call ends *)

(** As long as no task-failed event has come whose message does not convert
    to a string, the latch of profile A is set only on a settled promise. *)
Lemma dashscope_synced_step (s : DashScope.Session) (e : Event) :
  (DashScope.promise s = None -> DashScope.isSettled s = false) ->
  printable_A toString JSON_parse e = true ->
  DashScope.promise (deliverA s e) = None -> DashScope.isSettled (deliverA s e) = false.
Proof.
  destruct s as [p calls latch chunks w t out]. project_dashscope.
  intros Hsync.
  destruct p as [v|].
  - intros _ H.
    pose proof (dashscope_stable toString JSON_parse text voice model format taskId
                  (DashScope.mkSession (Some v) calls latch chunks w t out) e v eq_refl)
      as Hkept.
    congruence.
  - rewrite (Hsync eq_refl). clear Hsync.
    unfold printable_A, discriminator. unfold_dashscope.
    split_tests; intros Hprintable H; try reflexivity; try discriminate H;
      discriminate Hprintable.
Qed.

Lemma dashscope_synced_run (evs : list Event) :
  forall s,
    (DashScope.promise s = None -> DashScope.isSettled s = false) ->
    forallb (printable_A toString JSON_parse) evs = true ->
    DashScope.promise (runA evs s) = None -> DashScope.isSettled (runA evs s) = false.
Proof.
  induction evs as [|e evs IH]; intros s Hs Hevs; cbn [DashScope.run fold_left]; [exact Hs|].
  cbn [forallb] in Hevs. apply andb_true_iff in Hevs. destruct Hevs as [He Hevs].
  apply IH; [apply dashscope_synced_step; assumption | exact Hevs].
Qed.

Lemma dashscope_session_settles (trace : list (N * WsEvent)) :
  forallb (printable_A toString JSON_parse) (until 60000 trace) = true ->
  DashScope.promise (sessionA trace) <> None.
Proof.
  intros Hprintable.
  assert (Hstable : forall s e v, DashScope.promise s = Some v ->
                                  DashScope.promise (deliverA s e) = Some v)
    by (intros s e v; apply dashscope_stable).
  destruct (dashscope_start userApiKey DASHSCOPE_API_KEY) as [[_ Hrun] | [_ Hstart]].
  - rewrite (dashscope_schedule toString JSON_parse text voice model format userApiKey
               DASHSCOPE_API_KEY taskId trace Hrun).
    destruct (DashScope.promise (runA (until 60000 trace) startA)) as [v|] eqn:Hp.
    + assert (H : DashScope.promise
                    (runA (from 60000 trace)
                       (deliverA (runA (until 60000 trace) startA) OnTimer)) = Some v).
      { apply (run_stable _ deliverA DashScope.promise Hstable). apply Hstable, Hp. }
      rewrite H. discriminate.
    + pose proof (dashscope_synced_run (until 60000 trace) startA
                    (fun _ => dashscope_start_unlatched userApiKey DASHSCOPE_API_KEY)
                    Hprintable Hp) as Hlatch.
      destruct (dashscope_timer toString JSON_parse text voice model format taskId _
                  (dashscope_running_run toString JSON_parse text voice model format
                     taskId _ _ Hrun) Hlatch) as (Hq & _).
      assert (H : DashScope.promise
                    (runA (from 60000 trace)
                       (deliverA (runA (until 60000 trace) startA) OnTimer))
                  = Some (Rejected DashScope.MSG_TIMEOUT)).
      { apply (run_stable _ deliverA DashScope.promise Hstable). exact Hq. }
      rewrite H. discriminate.
  - unfold DashScope.session.
    rewrite (dashscope_no_socket toString JSON_parse text voice model format taskId)
      by (rewrite Hstart; reflexivity).
    rewrite Hstart. discriminate.
Qed.

(** The socket of a call of profile B stays the one it was built with. *)
Lemma nls_connections_step (s : Nls.Session) (e : Event) :
  Nls.connections (deliverB s e) = Nls.connections s.
Proof.
  destruct s as [p calls chunks w t n u]. unfold Nls.connections.
  destruct w as [w|]; [|reflexivity].
  unfold_nls. split_tests; reflexivity.
Qed.

Lemma nls_connections_run (evs : list Event) :
  forall s, Nls.connections (runB evs s) = Nls.connections s.
Proof.
  induction evs as [|e evs IH]; intros s; cbn [Nls.run fold_left]; [reflexivity|].
  fold (runB evs (deliverB s e)). rewrite IH. apply nls_connections_step.
Qed.

Lemma nls_socket_run (evs : list Event) (s : Nls.Session) :
  Nls.ws s <> None -> Nls.ws (runB evs s) <> None.
Proof.
  intros Hw Hnone. pose proof (nls_connections_run evs s) as H.
  unfold Nls.connections in H. rewrite Hnone in H.
  destruct (Nls.ws s); [discriminate H | congruence].
Qed.

Lemma nls_session_settles (trace : list (N * WsEvent)) :
  Nls.promise (sessionB trace) <> None \/ Nls.uncaught (sessionB trace) <> None.
Proof.
  assert (Hstable : forall s e v, Nls.promise s = Some v ->
                                  Nls.promise (deliverB s e) = Some v)
    by (intros s e v; apply nls_stable).
  destruct (nls_start_cases token) as [(address & Haddress & Hstart) | Hstart].
  - rewrite (nls_schedule toString JSON_parse randomIds text voice format ALIYUN_APPKEY
               token trace address Haddress).
    destruct (Nls.uncaught (runB (until 30000 trace) startB)) as [x|] eqn:Hu.
    + right.
      assert (Hdead : deliverB (runB (until 30000 trace) startB) OnTimer
                      = runB (until 30000 trace) startB).
      { unfold Nls.deliver at 1. rewrite Hu.
        destruct (Nls.ws (runB (until 30000 trace) startB)); reflexivity. }
      rewrite Hdead.
      rewrite (nls_dead toString JSON_parse randomIds text voice format ALIYUN_APPKEY)
        by congruence.
      congruence.
    + left.
      assert (Halive : alive (runB (until 30000 trace) startB)).
      { split; [exact Hu|]. apply nls_socket_run. rewrite Hstart. discriminate. }
      destruct (Nls.promise (runB (until 30000 trace) startB)) as [v|] eqn:Hp.
      * assert (H : Nls.promise
                      (runB (from 30000 trace)
                         (deliverB (runB (until 30000 trace) startB) OnTimer)) = Some v).
        { apply (run_stable _ deliverB Nls.promise Hstable). apply Hstable, Hp. }
        rewrite H. discriminate.
      * destruct (nls_timer toString JSON_parse randomIds text voice format ALIYUN_APPKEY _
                    (nls_running_run toString JSON_parse randomIds text voice format
                       ALIYUN_APPKEY _ _ (nls_start token)) Halive Hp) as (Hq & _).
        assert (H : Nls.promise
                      (runB (from 30000 trace)
                         (deliverB (runB (until 30000 trace) startB) OnTimer))
                    = Some (Rejected Nls.MSG_TIMEOUT)).
        { apply (run_stable _ deliverB Nls.promise Hstable). exact Hq. }
        rewrite H. discriminate.
  - left. unfold Nls.session.
    rewrite (nls_no_socket toString JSON_parse randomIds text voice format ALIYUN_APPKEY)
      by (rewrite Hstart; reflexivity).
    rewrite Hstart. discriminate.
Qed.

(** X4.  Every call is settled once its timer has been due, with one
    exception in each profile.  In profile A the promise is never left
    pending, because the timer rejects what nothing else has settled, as
    long as no task-failed event stamped before the deadline carries a
    message that does not convert to a string (such an event sets the latch
    and clears the timer without settling).  In profile B the promise is
    left pending only when an exception has left a listener. *)
Theorem every_call_settles (trace : list (N * WsEvent)) :
  (forallb (printable_A toString JSON_parse) (until 60000 trace) = true ->
   DashScope.promise (sessionA trace) <> None) /\
  (Nls.promise (sessionB trace) <> None \/ Nls.uncaught (sessionB trace) <> None).
Proof.
  split; [apply dashscope_session_settles | apply nls_session_settles].
Qed.

(** ** A call that succeeded has closed its socket *)

Lemma dashscope_closed_step (s : DashScope.Session) (e : Event) :
  (forall audio, DashScope.promise s = Some (Resolved audio) -> closed_A s = true) ->
  forall audio,
    DashScope.promise (deliverA s e) = Some (Resolved audio) ->
    closed_A (deliverA s e) = true.
Proof.
  destruct s as [p calls latch chunks w t out]. unfold closed_A. project_dashscope.
  intros Hs audio.
  destruct p as [[a|m]|].
  - specialize (Hs a eq_refl). destruct w as [w|]; [|discriminate Hs].
    intros _. unfold_dashscope.
    split_tests; cbn [send close terminate closeCalled]; auto.
  - unfold_dashscope. split_tests; intros H; discriminate H.
  - clear Hs. unfold_dashscope.
    split_tests; cbn [send close terminate closeCalled];
      intros H; try discriminate H; reflexivity.
Qed.

Lemma nls_closed_step (s : Nls.Session) (e : Event) :
  (forall audio, Nls.promise s = Some (Resolved audio) -> closed_B s = true) ->
  forall audio,
    Nls.promise (deliverB s e) = Some (Resolved audio) ->
    closed_B (deliverB s e) = true.
Proof.
  destruct s as [p calls chunks w t n u]. unfold closed_B. project_nls.
  intros Hs audio.
  destruct p as [[a|m]|].
  - specialize (Hs a eq_refl). destruct w as [w|]; [|discriminate Hs].
    intros _. unfold_nls.
    split_tests; cbn [send close terminate closeCalled]; auto.
  - unfold_nls. split_tests; intros H; discriminate H.
  - clear Hs. unfold_nls.
    split_tests; cbn [send close terminate closeCalled];
      intros H; try discriminate H; reflexivity.
Qed.

(** X5.  Whenever the promise of a call is resolved with audio, [ws.close()]
    has been called on its socket, in both profiles and after any events: a
    call never succeeds and leaves the connection open. *)
Theorem resolved_call_has_closed_socket (evs : list Event) (audio : Buffer) :
  (DashScope.promise (runA evs startA) = Some (Resolved audio) ->
   closed_A (runA evs startA) = true) /\
  (Nls.promise (runB evs startB) = Some (Resolved audio) ->
   closed_B (runB evs startB) = true).
Proof.
  split.
  - revert audio.
    assert (H0 : forall audio, DashScope.promise startA = Some (Resolved audio) ->
                               closed_A startA = true).
    { intros audio. unfold DashScope.synthesizeSpeech.
      destruct (DashScope.apiKey userApiKey DASHSCOPE_API_KEY) as [[|c r]|]; discriminate. }
    revert H0. generalize startA as s.
    induction evs as [|e evs IH]; intros s Hs; cbn [DashScope.run fold_left]; [exact Hs|].
    apply IH. apply dashscope_closed_step, Hs.
  - revert audio.
    assert (H0 : forall audio, Nls.promise startB = Some (Resolved audio) ->
                               closed_B startB = true).
    { intros audio.
      destruct (nls_start_cases token) as [(address & _ & ->) | ->]; discriminate. }
    revert H0. generalize startB as s.
    induction evs as [|e evs IH]; intros s Hs; cbn [Nls.run fold_left]; [exact Hs|].
    apply IH. apply nls_closed_step, Hs.
Qed.

(** ** Frames that do not parse, in profile A *)

Lemma quiet_step (s : DashScope.Session) (e : Event) :
  quiet (deliverA s e) = quiet (deliverA (quiet s) e).
Proof.
  destruct s as [p calls latch chunks w t out]. unfold quiet.
  unfold_dashscope. project_dashscope.
  split_tests; reflexivity.
Qed.

Lemma quiet_run (evs : list Event) :
  forall s, quiet (runA evs s) = quiet (runA evs (quiet s)).
Proof.
  induction evs as [|e evs IH]; intros s; cbn [DashScope.run fold_left].
  - destruct s; reflexivity.
  - fold (runA evs (deliverA s e)). fold (runA evs (deliverA (quiet s) e)).
    rewrite (IH (deliverA s e)), (IH (deliverA (quiet s) e)), quiet_step. reflexivity.
Qed.

(** X14.  In profile A a text frame that is no JSON, or is the JSON value
    [null], has no effect on a call but the warning on the console: after any
    events before it and any events after it, the promise, the latch, the
    audio chunks, the socket with what was sent on it, and the timer are what
    they would be had the frame never arrived. *)
Theorem dashscope_malformed_frame_changes_nothing
  (pre post : list Event) (data : Buffer) :
  JSON_parse (toString data) = None \/ JSON_parse (toString data) = Some JNull ->
  quiet (runA (pre ++ OnWs (Message data false) :: post) startA)
  = quiet (runA (pre ++ post) startA).
Proof.
  intros Hdata.
  rewrite !(dashscope_run_app toString JSON_parse text voice model format taskId).
  cbn [DashScope.run fold_left].
  fold (runA pre startA). fold (runA post (runA pre startA)).
  fold (runA post (deliverA (runA pre startA) (OnWs (Message data false)))).
  rewrite quiet_run, (quiet_run post (runA pre startA)). f_equal. f_equal.
  destruct (DashScope.ws (runA pre startA)) as [w|] eqn:Hw.
  - assert (Hsome : DashScope.ws (runA pre startA) <> None) by congruence.
    destruct (dashscope_malformed toString JSON_parse text voice model format taskId
                (runA pre startA) data Hsome) as [Hsyntax Htype].
    destruct Hdata as [H | H]; [rewrite (Hsyntax H) | rewrite (Htype H)];
      destruct (runA pre startA); reflexivity.
  - unfold DashScope.deliver. rewrite Hw. reflexivity.
Qed.

(** ** Only terminal events settle *)

(** X17.  A step that settles a pending promise is the step of a terminal
    event: in profile A the task-finished or task-failed control event, an
    error or a close of the socket, or the timer; in profile B the
    SynthesisCompleted or TaskFailed control event, an error of the socket,
    or the timer.  Binary frames, the opening of the socket and every other
    text frame never settle a call. *)
Theorem only_terminal_events_settle (pre : list Event) (e : Event) :
  (DashScope.promise (runA pre startA) = None ->
   DashScope.promise (runA (pre ++ [e]) startA) <> None ->
   terminal_A toString JSON_parse e = true) /\
  (Nls.promise (runB pre startB) = None ->
   Nls.promise (runB (pre ++ [e]) startB) <> None ->
   terminal_B toString JSON_parse e = true).
Proof.
  split; intros Hpending Hsettled.
  - rewrite (dashscope_run_app toString JSON_parse text voice model format taskId)
      in Hsettled.
    exact (dashscope_settling_event toString JSON_parse text voice model format taskId
             _ e Hpending Hsettled).
  - rewrite (nls_run_app toString JSON_parse randomIds text voice format ALIYUN_APPKEY)
      in Hsettled.
    exact (nls_settling_event toString JSON_parse randomIds text voice format
             ALIYUN_APPKEY _ e Hpending Hsettled).
Qed.

(** ** The fields of the start message *)

Lemma chosen_or_default (arg : option JSString) (default : string) :
  js default <> [] ->
  chosen arg default (Some (JStr (or_default arg (js default)))).
Proof.
  intros Hdefault. exists (or_default arg (js default)).
  destruct arg as [[|c r]|]; cbn [or_default present];
    repeat split; try congruence; try discriminate; auto.
Qed.

(** X18.  The start message never carries an empty voice, model or format:
    each field holds the argument of the call when that is a non-empty
    string, and otherwise the default of the profile ([longanyang],
    [cosyvoice-v3-flash] and [mp3] in profile A; [longxiaochun] and [mp3] in
    profile B). *)
Theorem start_message_fields_are_never_empty (message_id : JSString) :
  chosen voice "longanyang"
    (parameter_of "voice" (DashScope.runTask voice model format taskId)) /\
  chosen model "cosyvoice-v3-flash"
    (payload_of "model" (DashScope.runTask voice model format taskId)) /\
  chosen format "mp3"
    (parameter_of "format" (DashScope.runTask voice model format taskId)) /\
  chosen voice "longxiaochun"
    (payload_of "voice" (Nls.startSynthesis randomIds voice format ALIYUN_APPKEY message_id)) /\
  chosen format "mp3"
    (payload_of "format" (Nls.startSynthesis randomIds voice format ALIYUN_APPKEY message_id)).
Proof.
  repeat split.
  - change (parameter_of "voice" (DashScope.runTask voice model format taskId))
      with (Some (JStr (or_default voice (js "longanyang")))).
    apply chosen_or_default. vm_compute. discriminate.
  - change (payload_of "model" (DashScope.runTask voice model format taskId))
      with (Some (JStr (or_default model (js "cosyvoice-v3-flash")))).
    apply chosen_or_default. vm_compute. discriminate.
  - change (parameter_of "format" (DashScope.runTask voice model format taskId))
      with (Some (JStr (or_default format (js "mp3")))).
    apply chosen_or_default. vm_compute. discriminate.
  - change (payload_of "voice"
              (Nls.startSynthesis randomIds voice format ALIYUN_APPKEY message_id))
      with (Some (JStr (or_default voice (js "longxiaochun")))).
    apply chosen_or_default. vm_compute. discriminate.
  - change (payload_of "format"
              (Nls.startSynthesis randomIds voice format ALIYUN_APPKEY message_id))
      with (Some (JStr (or_default format (js "mp3")))).
    apply chosen_or_default. vm_compute. discriminate.
Qed.

(** ** What the routes need of a session *)

Lemma dashscope_resolved_run (evs : list Event) (audio : Buffer) :
  DashScope.promise (runA evs startA) = Some (Resolved audio) ->
  running_A startA /\
  exists pre data post,
    evs = pre ++ OnWs (Message data false) :: post /\
    is_string (discriminator toString JSON_parse (js "event") data) (js "task-finished") = true /\
    audio = Buffer_concat (frames pre).
Proof.
  intros Hres.
  destruct (dashscope_start userApiKey DASHSCOPE_API_KEY) as [[_ Hrun] | [_ Hstart]].
  - split; [exact Hrun|].
    destruct (first_settlement _ deliverA DashScope.promise
                (dashscope_stable toString JSON_parse text voice model format taskId)
                evs _ _ (dashscope_start_pending userApiKey DASHSCOPE_API_KEY Hrun) Hres)
      as (pre & e & post & -> & Hpre & Hat).
    destruct (dashscope_resolved_step toString JSON_parse text voice model format taskId
                _ _ _ Hpre Hat) as (Haudio & data & -> & Hevent).
    exists pre, data, post. split; [reflexivity|]. split; [exact Hevent|].
    rewrite Haudio. fold (runA pre startA).
    rewrite (dashscope_chunks_run toString JSON_parse text voice model format taskId
               pre _ Hrun).
    rewrite dashscope_start_chunks. reflexivity.
  - rewrite (dashscope_no_socket toString JSON_parse text voice model format taskId)
      in Hres by (rewrite Hstart; reflexivity).
    rewrite Hstart in Hres. discriminate.
Qed.

Lemma nls_resolved_run (evs : list Event) (audio : Buffer) :
  Nls.promise (runB evs startB) = Some (Resolved audio) ->
  Nls.timeout startB = Some (Armed Nls.TIMEOUT_MS) /\
  exists pre data post,
    evs = pre ++ OnWs (Message data false) :: post /\
    is_string (discriminator toString JSON_parse (js "name") data) (js "SynthesisCompleted")
    = true /\
    audio = Buffer_concat (frames pre).
Proof.
  intros Hres.
  destruct (nls_start_cases token) as [(address & Haddress & Hstart) | Hstart].
  - split; [rewrite Hstart; reflexivity|].
    destruct (first_settlement _ deliverB Nls.promise
                (nls_stable toString JSON_parse randomIds text voice format ALIYUN_APPKEY)
                evs startB _ ltac:(rewrite Hstart; reflexivity) Hres)
      as (pre & e & post & -> & Hpre & Hat).
    destruct (nls_resolved_step toString JSON_parse randomIds text voice format
                ALIYUN_APPKEY _ _ _ Hpre Hat) as (Haudio & Halive & data & -> & Hname).
    exists pre, data, post. split; [reflexivity|]. split; [exact Hname|].
    rewrite Haudio. fold (runB pre startB).
    rewrite (nls_chunks_run toString JSON_parse randomIds text voice format ALIYUN_APPKEY
               pre _ Halive).
    rewrite nls_start_chunks. reflexivity.
  - rewrite (nls_no_socket toString JSON_parse randomIds text voice format ALIYUN_APPKEY)
      in Hres by (rewrite Hstart; reflexivity).
    rewrite Hstart in Hres. discriminate.
Qed.

(** The address and the headers of the socket are those it was built with. *)
Lemma dashscope_connections_step (s : DashScope.Session) (e : Event) :
  DashScope.connections (deliverA s e) = DashScope.connections s.
Proof.
  destruct s as [p calls latch chunks w t out]. unfold DashScope.connections.
  unfold_dashscope. project_dashscope.
  split_tests; try reflexivity; try discriminate;
    repeat match goal with
      | H : Some _ = Some _ |- _ => injection H as <-
      end; reflexivity.
Qed.

Lemma dashscope_connections_run (evs : list Event) :
  forall s, DashScope.connections (runA evs s) = DashScope.connections s.
Proof.
  induction evs as [|e evs IH]; intros s; cbn [DashScope.run fold_left]; [reflexivity|].
  fold (runA evs (deliverA s e)). rewrite IH. apply dashscope_connections_step.
Qed.



End Handshake.

(* ================================================================== *)
(** * More of the routes and of the token cache *)
(* ================================================================== *)

Section Serving.

Variable toString : Buffer -> JSString.
Variable JSON_parse : JSString -> option JValue.
Variable StringToNumber : JSString -> option Z.

Local Abbreviation getToken := (Nls.getNlsToken JSON_parse StringToNumber).
Local Abbreviation routeA := (DashScope.api_tts toString JSON_parse).
Local Abbreviation routeB := (Nls.api_tts toString JSON_parse StringToNumber).

(** X6.  The route of profile A answers every request, whatever the body and
    whatever happens on the socket, as long as no task-failed event stamped
    before the deadline carries a message that does not convert to a string:
    with status 200, 400 or 500, and with [success] true in the body exactly
    when the status is 200. *)
Theorem dashscope_route_always_answers (b : Body) (w : DashScope.World) :
  forallb (printable_A toString JSON_parse) (until 60000 (DashScope.trace w)) = true ->
  exists r,
    response (routeA b w) = Some r /\
    (status r = 200 \/ status r = 400 \/ status r = 500)%N /\
    get (body r) (js "success") = Some (JBool (status r =? 200)%N).
Proof.
  intros Hprintable. unfold DashScope.api_tts.
  destruct (text b) as [[|c t]|].
  - eexists. split; [reflexivity|]. split; [right; left; reflexivity | reflexivity].
  - destruct (DashScope.MAX_TEXT <? List.length (c :: t))%nat.
    + eexists. split; [reflexivity|]. split; [right; left; reflexivity | reflexivity].
    + pose proof (dashscope_session_settles toString JSON_parse (c :: t)
                    (Some (defaulted (voice b) (js "longanyang")))
                    (Some (defaulted (model b) (js "cosyvoice-v3-flash")))
                    (Some (defaulted (format b) (js "mp3")))
                    (apikey b) (DashScope.env_DASHSCOPE_API_KEY w)
                    (DashScope.generatedId w) (DashScope.trace w) Hprintable) as Hsettled.
      destruct (DashScope.promise _) as [[audio|message]|]; [| |congruence].
      * destruct (DashScope.uploadError w);
          eexists; (split; [reflexivity|]); split;
          solve [ left; reflexivity | right; right; reflexivity | reflexivity ].
      * eexists. split; [reflexivity|].
        split; [right; right; reflexivity | reflexivity].
  - eexists. split; [reflexivity|]. split; [right; left; reflexivity | reflexivity].
Qed.

(** A call of [getNlsToken] makes no request or one. *)
Lemma token_requests (now : Z) (cache : Nls.TokenCache) (http : Nls.HttpOutcome) :
  snd (getToken now cache http) = [] \/ snd (getToken now cache http) = [Post Nls.tokenHost].
Proof.
  unfold Nls.getNlsToken.
  destruct (truthy (Nls.id cache) && Nls.before now (Nls.expireTime cache));
    [left; reflexivity | right; destruct http; reflexivity].
Qed.

(** X7.  What a route stores is the audio that came over the socket: the
    bytes of every upload are the concatenation, in order of arrival, of the
    binary frames that came before a completion event of the session, and
    the upload is named [tts/<time>_<random part>.<format>] with the content
    type the route computes from the format. *)
Theorem upload_is_the_received_audio
  (b : Body) (wA : DashScope.World) (wB : Nls.World) (cache : Nls.TokenCache)
  (fileName : JSString) (bytes : Buffer) (type : ContentType) :
  (In (Upload fileName bytes type) (network (routeA b wA)) ->
   (exists pre data post,
       schedule (Some (Armed 60000)) (DashScope.trace wA)
       = pre ++ OnWs (Message data false) :: post /\
       is_string (discriminator toString JSON_parse (js "event") data) (js "task-finished")
       = true /\
       bytes = Buffer_concat (frames pre)) /\
   fileName = js "tts/" ++ decimal (DashScope.now wA) ++ js "_" ++ DashScope.randomHex wA
              ++ js "." ++ defaulted (format b) (js "mp3") /\
   type = DashScope.contentType (defaulted (format b) (js "mp3"))) /\
  (In (Upload fileName bytes type) (network (fst (routeB b cache wB))) ->
   (exists pre data post,
       schedule (Some (Armed 30000)) (Nls.trace wB)
       = pre ++ OnWs (Message data false) :: post /\
       is_string (discriminator toString JSON_parse (js "name") data)
         (js "SynthesisCompleted") = true /\
       bytes = Buffer_concat (frames pre)) /\
   fileName = js "tts/" ++ decimal (Nls.now wB) ++ js "_" ++ firstn 8 (Nls.fileId wB)
              ++ js "." ++ defaulted (format b) (js "mp3") /\
   type = Nls.contentType (defaulted (format b) (js "mp3"))).
Proof.
  assert (Hconn : forall s, ~ In (Upload fileName bytes type) (DashScope.connections s)).
  { intros s. unfold DashScope.connections.
    destruct (DashScope.ws s); cbn; intuition discriminate. }
  assert (HconnB : forall s, ~ In (Upload fileName bytes type) (Nls.connections s)).
  { intros s. unfold Nls.connections.
    destruct (Nls.ws s); cbn; intuition discriminate. }
  split.
  - unfold DashScope.api_tts.
    destruct (text b) as [[|c t]|]; cbn [network]; try contradiction.
    destruct (DashScope.MAX_TEXT <? List.length (c :: t))%nat;
      cbn [network]; try contradiction.
    destruct (DashScope.promise _) as [[audio|message]|] eqn:Hp; cbn [network];
      try (intros H; elim (Hconn _ H)).
    unfold DashScope.session in Hp.
    destruct (dashscope_resolved_run _ _ _ _ _ _ _ _ _ _ _ Hp)
      as (Hrun & pre & data & post & Hevs & Hevent & Haudio).
    destruct Hrun as (_ & _ & Ht & _).
    rewrite (Ht (dashscope_start_unlatched _ _)) in Hevs.
    assert (Hin : forall calls,
               In (Upload fileName bytes type)
                 (DashScope.connections
                    (DashScope.session toString JSON_parse (c :: t)
                       (Some (defaulted (voice b) (js "longanyang")))
                       (Some (defaulted (model b) (js "cosyvoice-v3-flash")))
                       (Some (defaulted (format b) (js "mp3")))
                       (apikey b) (DashScope.env_DASHSCOPE_API_KEY wA)
                       (DashScope.generatedId wA) (DashScope.trace wA))
                  ++ [calls]) ->
               Upload fileName bytes type = calls).
    { intros calls H. apply in_app_or in H. destruct H as [H | [H | []]].
      - elim (Hconn _ H).
      - symmetry. exact H. }
    destruct (DashScope.uploadError wA); cbn [network]; intros H;
      apply Hin in H; injection H as -> -> ->;
      (split; [exists pre, data, post; split; [exact Hevs | split; [exact Hevent | exact Haudio]]
              | split; reflexivity]).
  - unfold Nls.api_tts.
    destruct (text b) as [[|c t]|]; cbn [network fst]; try contradiction.
    destruct (Nls.MAX_TEXT <? List.length (c :: t))%nat;
      cbn [network fst]; try contradiction.
    destruct (Nls.getNlsToken _ _ _ _ _) as [[[tok|message] cache'] requests] eqn:Htoken.
    + assert (Hreq : ~ In (Upload fileName bytes type) requests).
      { replace requests with (snd (getToken (Nls.tokenTime wB) cache (Nls.http wB)))
          by (rewrite Htoken; reflexivity).
        destruct (token_requests (Nls.tokenTime wB) cache (Nls.http wB)) as [-> | ->];
          cbn; intuition discriminate. }
      assert (Hin : forall s calls,
                 In (Upload fileName bytes type) ((requests ++ Nls.connections s) ++ [calls]) ->
                 Upload fileName bytes type = calls).
      { intros s calls H. apply in_app_or in H. destruct H as [H | [H | []]].
        - apply in_app_or in H. destruct H as [H | H];
            [elim (Hreq H) | elim (HconnB _ H)].
        - symmetry. exact H. }
      destruct (Nls.promise _) as [[audio|message]|] eqn:Hp; cbn [network fst].
      * unfold Nls.session in Hp.
        destruct (nls_resolved_run _ _ _ _ _ _ _ _ _ _ Hp)
          as (Htimer & pre & data & post & Hevs & Hname & Haudio).
        rewrite Htimer in Hevs.
        destruct (Nls.uploadError wB); cbn [network fst]; intros H;
          apply Hin in H; injection H as -> -> ->;
          (split; [exists pre, data, post;
                   split; [exact Hevs | split; [exact Hname | exact Haudio]]
                  | split; reflexivity]).
      * intros H. apply in_app_or in H. destruct H as [H | H];
          [elim (Hreq H) | elim (HconnB _ H)].
      * intros H. apply in_app_or in H. destruct H as [H | H];
          [elim (Hreq H) | elim (HconnB _ H)].
    + cbn [network fst]. intros H.
      replace requests with (snd (getToken (Nls.tokenTime wB) cache (Nls.http wB)))
        in H by (rewrite Htoken; reflexivity).
      destruct (token_requests (Nls.tokenTime wB) cache (Nls.http wB)) as [Hr | Hr];
        rewrite Hr in H; cbn in H; intuition discriminate.
Qed.

(** The content type of an upload is a media type of audio, unless the
    format of a request to profile A names a member every object inherits. *)
Lemma contentType_cases (format : JSString) :
  (exists type, Nls.contentType format = Mime type /\
                (type = js "audio/wav" \/ type = js "audio/mpeg")) /\
  (existsb (fun name => JSString_eqb format (js name)) DashScope.inherited = false ->
   exists type, DashScope.contentType format = Mime type /\
                (type = js "audio/wav" \/ type = js "audio/ogg" \/ type = js "audio/mpeg")).
Proof.
  split.
  - unfold Nls.contentType. destruct (JSString_eqb format (js "wav"));
      eexists; split; try reflexivity; auto.
  - intros Hown. unfold DashScope.contentType. rewrite Hown.
    destruct (JSString_eqb format (js "wav")); [eexists; split; [reflexivity | auto]|].
    destruct (JSString_eqb format (js "opus")); [eexists; split; [reflexivity | auto]|].
    destruct (JSString_eqb format (js "mp3")); eexists; split; try reflexivity; auto.
Qed.

Lemma Connect_inj (u u' : JSString) (h h' : list (JSString * JSString)) :
  Connect u h = Connect u' h' -> u = u' /\ h = h'.
Proof. intros H. injection H as -> ->. split; reflexivity. Qed.

(** The connection a call of profile A starts with. *)
Lemma dashscope_start_connections (userApiKey env : option JSString) (address : JSString)
  (sentHeaders : list (JSString * JSString)) :
  In (Connect address sentHeaders)
    (DashScope.connections (DashScope.synthesizeSpeech userApiKey env)) ->
  address = DashScope.wsUrl /\
  exists key,
    key <> [] /\
    sentHeaders = [(js "Authorization", js "bearer " ++ key)] /\
    (present userApiKey = true -> userApiKey = Some key) /\
    (present userApiKey = false -> env = Some key).
Proof.
  unfold DashScope.connections, DashScope.synthesizeSpeech, DashScope.apiKey.
  destruct userApiKey as [[|c1 r1]|]; cbn [present];
    destruct env as [[|c2 r2]|]; cbn [DashScope.ws url headers];
    try contradiction;
    intros [H | []]; apply Connect_inj in H; destruct H as [<- <-];
    (split; [reflexivity|]).
  - exists (c2 :: r2). split; [discriminate|]. split; [reflexivity|].
    split; [discriminate | reflexivity].
  - exists (c1 :: r1). split; [discriminate|]. split; [reflexivity|].
    split; [reflexivity | discriminate].
  - exists (c1 :: r1). split; [discriminate|]. split; [reflexivity|].
    split; [reflexivity | discriminate].
  - exists (c1 :: r1). split; [discriminate|]. split; [reflexivity|].
    split; [reflexivity | discriminate].
  - exists (c2 :: r2). split; [discriminate|]. split; [reflexivity|].
    split; [discriminate | reflexivity].
Qed.

(** X8.  Every connection the route of profile A makes goes to the DashScope
    endpoint with an [Authorization] header of [bearer] and a non-empty key:
    the [apikey] of the request when it is a non-empty string, whatever the
    environment holds, and [DASHSCOPE_API_KEY] otherwise. *)
Theorem dashscope_route_prefers_request_key
  (b : Body) (w : DashScope.World) (address : JSString)
  (sentHeaders : list (JSString * JSString)) :
  In (Connect address sentHeaders) (network (routeA b w)) ->
  address = DashScope.wsUrl /\
  exists key,
    key <> [] /\
    sentHeaders = [(js "Authorization", js "bearer " ++ key)] /\
    (present (apikey b) = true -> apikey b = Some key) /\
    (present (apikey b) = false -> DashScope.env_DASHSCOPE_API_KEY w = Some key).
Proof.
  unfold DashScope.api_tts.
  destruct (text b) as [[|c t]|]; cbn [network]; try contradiction.
  destruct (DashScope.MAX_TEXT <? List.length (c :: t))%nat;
    cbn [network]; try contradiction.
  set (s := DashScope.session _ _ _ _ _ _ _ _ _ _).
  assert (Hconn : In (Connect address sentHeaders) (DashScope.connections s) ->
                  address = DashScope.wsUrl /\
                  exists key,
                    key <> [] /\
                    sentHeaders = [(js "Authorization", js "bearer " ++ key)] /\
                    (present (apikey b) = true -> apikey b = Some key) /\
                    (present (apikey b) = false ->
                     DashScope.env_DASHSCOPE_API_KEY w = Some key)).
  { subst s. unfold DashScope.session. rewrite dashscope_connections_run.
    apply dashscope_start_connections. }
  destruct (DashScope.promise s) as [[audio|message]|]; cbn [network]; try exact Hconn.
  destruct (DashScope.uploadError w); cbn [network]; intros H;
    apply in_app_or in H; destruct H as [H | [H | []]];
    solve [ apply Hconn, H | discriminate H ].
Qed.

(** ** The token cache *)

(** X9.  A call of [getNlsToken] that is rejected has made its request and
    has left the expiry of the cache as it found it.  It has left the whole
    cache as it found it, with one exception: when the response holds a
    token whose [ExpireTime] does not convert to a number, [tokenCache.id]
    has been overwritten with the [Id] of that token before the conversion
    threw, and the call is rejected with the message of a response that did
    not parse.  A call answered from the cache is never rejected. *)
Theorem rejected_refresh_keeps_expiry
  (now : Z) (cache cache' : Nls.TokenCache) (http : Nls.HttpOutcome)
  (message : JSString) (requests : list NetCall) :
  getToken now cache http = (Nls.TokenRejected message, cache', requests) ->
  requests = [Post Nls.tokenHost] /\
  Nls.expireTime cache' = Nls.expireTime cache /\
  (cache' = cache \/
   exists data result Token e,
     http = Nls.HttpEnd data /\
     JSON_parse data = Some result /\
     member result (js "Token") = Normal Token /\
     truthy Token = true /\
     Nls.ToNumber StringToNumber (optional Token (js "ExpireTime")) = Throw e /\
     cache' = Nls.mkTokenCache (optional Token (js "Id")) (Nls.expireTime cache) /\
     message = Nls.MSG_TOKEN_PARSE ++ data).
Proof.
  unfold Nls.getNlsToken, Nls.onEnd.
  destruct (truthy (Nls.id cache) && Nls.before now (Nls.expireTime cache));
    [discriminate|].
  destruct http as [data | m].
  - destruct (JSON_parse data) as [result|] eqn:Hparse.
    + destruct (member result (js "Token")) as [Token|e] eqn:HToken.
      * destruct (truthy Token) eqn:Htruthy.
        -- destruct (Nls.ToNumber StringToNumber (optional Token (js "ExpireTime")))
             as [ExpireTime|e] eqn:Hexpiry; intros H; [discriminate H|].
           injection H as <- <- <-. split; [reflexivity|]. split; [reflexivity|].
           right. exists data, result, Token, e. repeat split; assumption.
        -- destruct (ToString _); intros H; injection H as _ <- <-; auto.
      * intros H. injection H as _ <- <-. auto.
    + intros H. injection H as _ <- <-. auto.
  - intros H. injection H as _ <- <-. auto.
Qed.

(** X10.  A token whose [ExpireTime] is absent or converts to no number, or
    whose [Id] is absent or empty (its [ExpireTime] converting without an
    exception), is handed to the caller but is never served from the cache:
    after such a response every later call, at whatever time, makes a
    request again. *)
Theorem token_without_expiry_or_id_is_not_cached
  (cache0 : Nls.TokenCache) (now0 : Z) (data : JSString) (result Token : JValue)
  (expiry : option Z) :
  truthy (Nls.id cache0) && Nls.before now0 (Nls.expireTime cache0) = false ->
  JSON_parse data = Some result ->
  get result (js "Token") = Some Token ->
  truthy (Some Token) = true ->
  Nls.ToNumber StringToNumber (get Token (js "ExpireTime")) = Normal expiry ->
  expiry = None \/ truthy (get Token (js "Id")) = false ->
  exists cache1,
    getToken now0 cache0 (Nls.HttpEnd data)
    = (Nls.TokenResolved (get Token (js "Id")), cache1, [Post Nls.tokenHost]) /\
    (forall now http, snd (getToken now cache1 http) = [Post Nls.tokenHost]).
Proof.
  intros Hmiss Hparse HToken Htruthy Hexpiry Hbad.
  assert (Hres : exists rfields, result = JObj rfields).
  { destruct result; try discriminate HToken. eexists. reflexivity. }
  destruct Hres as (rfields & ->).
  assert (Hopt : forall k, optional (Some Token) k = get Token k).
  { intros k. destruct Token; reflexivity. }
  eexists. split.
  - unfold Nls.getNlsToken, Nls.onEnd. rewrite Hmiss, Hparse.
    cbn [member]. rewrite HToken, Htruthy, !Hopt, Hexpiry. reflexivity.
  - intros now http. unfold Nls.getNlsToken. cbn [Nls.id Nls.expireTime].
    assert (Hnever : truthy (get Token (js "Id"))
                     && Nls.before now (option_map (fun e => (e * 1000 - 60000)%Z) expiry)
                     = false).
    { destruct Hbad as [-> | ->]; [apply andb_false_r | reflexivity]. }
    rewrite Hnever. destruct http; reflexivity.
Qed.

(** ** The token in the route of profile B *)

(** X11.  When the text is good and the cache holds no valid token, a token
    request that ends in an error, or in a body that is no JSON, makes the
    route of profile B answer 500 with the message of that failure, after
    the one token request and nothing else (no connection, no upload), and
    leaves the cache as it was. *)
Theorem nls_route_token_failure
  (b : Body) (cache : Nls.TokenCache) (w : Nls.World) (c : codeunit) (t : JSString) :
  text b = Some (c :: t) ->
  (List.length (c :: t) <= 2000)%nat ->
  truthy (Nls.id cache) && Nls.before (Nls.tokenTime w) (Nls.expireTime cache) = false ->
  (forall message,
      Nls.http w = Nls.HttpError message ->
      routeB b cache w = (mkOutcome (Some (failure 500 message)) [Post Nls.tokenHost], cache)) /\
  (forall data,
      Nls.http w = Nls.HttpEnd data ->
      JSON_parse data = None ->
      routeB b cache w
      = (mkOutcome (Some (failure 500 (Nls.MSG_TOKEN_PARSE ++ data))) [Post Nls.tokenHost],
         cache)).
Proof.
  intros Ht Hlen Hmiss.
  assert (Hle : (Nls.MAX_TEXT <? List.length (c :: t))%nat = false)
    by (apply Nat.ltb_ge; exact Hlen).
  split.
  - intros message Hhttp. unfold Nls.api_tts, Nls.getNlsToken.
    rewrite Ht, Hle, Hmiss, Hhttp. reflexivity.
  - intros data Hhttp Hparse. unfold Nls.api_tts, Nls.getNlsToken, Nls.onEnd.
    rewrite Ht, Hle, Hmiss, Hhttp, Hparse. reflexivity.
Qed.


End Serving.

(* ================================================================== *)
(** * More theorems at sample sessions *)
(* ================================================================== *)

Local Abbreviation generated :=
  (Sample.bytes (Sample.stringify (Sample.control "event" "result-generated" []))).
Local Abbreviation startedA :=
  (Sample.bytes (Sample.stringify (Sample.control "event" "task-started" []))).

(** A result-generated event between two chunks. *)
Lemma unknown_control_event_witness :
  Sample.JSON_parse (Sample.toString generated)
  = Some (Sample.control "event" "result-generated" []) /\
  Sample.control "event" "result-generated" [] <> JNull /\
  DashScope.deliver Sample.toString Sample.JSON_parse (js "hello") None None None
    (js "task-1") (sampleA [OnWs Open; OnWs (Sample.chunk "ab")] sampleA0)
    (OnWs (Message generated false))
  = sampleA [OnWs Open; OnWs (Sample.chunk "ab")] sampleA0.
Proof.
  assert (H1 : Sample.JSON_parse (Sample.toString generated)
               = Some (Sample.control "event" "result-generated" []))
    by (vm_compute; reflexivity).
  assert (H2 : Sample.control "event" "result-generated" [] <> JNull) by discriminate.
  split; [exact H1|]. split; [exact H2|].
  apply (proj1 (unknown_control_events_are_ignored Sample.toString Sample.JSON_parse
                  Sample.ids (js "hello") None None None None (js "task-1")
                  (sampleA [OnWs Open; OnWs (Sample.chunk "ab")] sampleA0) sampleB0
                  generated _ H1 H2)).
  vm_compute. reflexivity.
Defined.

(** The whole exchange of a call that succeeds. *)
Lemma handshake_witness :
  present (DashScope.apiKey (Some (js "sk-1")) None) = true /\
  sent_A (sampleA [OnWs Open; OnWs (Message startedA false); OnWs (Sample.chunk "ab");
                   OnWs (Message finishedA false)] sampleA0)
  = [ DashScope.runTask None None None (js "task-1");
      DashScope.continueTask (js "hello") (js "task-1");
      DashScope.finishTask (js "task-1") ].
Proof.
  split; [reflexivity|].
  rewrite (proj1 (dashscope_sends_handshake_only Sample.toString Sample.JSON_parse
                    (js "hello") None None None (Some (js "sk-1")) None (js "task-1")
                    [OnWs Open; OnWs (Message startedA false); OnWs (Sample.chunk "ab");
                     OnWs (Message finishedA false)] eq_refl)).
  vm_compute. reflexivity.
Defined.

(** A gateway error page between the opening and the audio. *)
Lemma malformed_frame_changes_nothing_witness :
  (Sample.JSON_parse (Sample.toString (Sample.bytes (js "<html>502</html>"))) = None \/
   Sample.JSON_parse (Sample.toString (Sample.bytes (js "<html>502</html>"))) = Some JNull) /\
  quiet (sampleA ([OnWs Open] ++ OnWs Sample.garbage
                  :: [OnWs (Sample.chunk "ab"); OnWs (Message finishedA false)]) sampleA0)
  = quiet (sampleA ([OnWs Open] ++ [OnWs (Sample.chunk "ab"); OnWs (Message finishedA false)])
             sampleA0).
Proof.
  assert (H1 : Sample.JSON_parse (Sample.toString (Sample.bytes (js "<html>502</html>")))
               = None \/
               Sample.JSON_parse (Sample.toString (Sample.bytes (js "<html>502</html>")))
               = Some JNull) by (left; vm_compute; reflexivity).
  split; [exact H1|].
  exact (dashscope_malformed_frame_changes_nothing Sample.toString Sample.JSON_parse
           (js "hello") None None None (Some (js "sk-1")) None (js "task-1")
           [OnWs Open] [OnWs (Sample.chunk "ab"); OnWs (Message finishedA false)]
           (Sample.bytes (js "<html>502</html>")) H1).
Defined.

(** An abnormal closure right after the opening. *)
Lemma dashscope_unexpected_close_witness :
  DashScope.promise (sampleA [OnWs Open] sampleA0) = None /\
  DashScope.isSettled (sampleA [OnWs Open] sampleA0) = false /\
  exists message,
    DashScope.promise (sampleA ([OnWs Open] ++ OnWs (Close 1006 None) :: []) sampleA0)
    = Some (Rejected message) /\
    includes message (decimal (Z.of_N 1006)) /\
    includes message (DashScope.reasonText Sample.toString None).
Proof.
  assert (H1 : DashScope.promise (sampleA [OnWs Open] sampleA0) = None) by reflexivity.
  assert (H2 : DashScope.isSettled (sampleA [OnWs Open] sampleA0) = false) by reflexivity.
  split; [exact H1|]. split; [exact H2|].
  exact (dashscope_unexpected_close_reported Sample.toString Sample.JSON_parse
           (js "hello") None None None (Some (js "sk-1")) None (js "task-1")
           [OnWs Open] [] 1006%N None H1 H2).
Defined.

(** A reset of the connection right after the opening. *)
Lemma transport_error_witness :
  DashScope.promise (sampleA [OnWs Open] sampleA0) = None /\
  DashScope.isSettled (sampleA [OnWs Open] sampleA0) = false /\
  DashScope.promise
    (sampleA ([OnWs Open] ++ OnWs (Error (js "read ECONNRESET")) :: [OnWs (Close 1006 None)])
       sampleA0)
  = Some (Rejected (DashScope.MSG_WS_ERROR ++ js "read ECONNRESET")) /\
  Nls.promise
    (sampleB ([OnWs Open] ++ OnWs (Error (js "read ECONNRESET")) :: [OnWs (Close 1006 None)])
       sampleB0)
  = Some (Rejected (js "read ECONNRESET")).
Proof.
  assert (H1 : DashScope.promise (sampleA [OnWs Open] sampleA0) = None) by reflexivity.
  assert (H2 : DashScope.isSettled (sampleA [OnWs Open] sampleA0) = false) by reflexivity.
  split; [exact H1|]. split; [exact H2|].
  destruct (transport_error_reported Sample.toString Sample.JSON_parse Sample.ids
              (js "hello") None None None (Some (js "sk-1")) None None (js "task-1")
              (Some (JStr (js "tok-1"))) [OnWs Open] [OnWs (Close 1006 None)]
              (js "read ECONNRESET")) as (HA & HB).
  split; [exact (HA H1 H2)|].
  apply HB; [reflexivity | split; vm_compute; [reflexivity | discriminate]].
Defined.

(** In profile A the failure event with its message and then a close, all
    before the deadline; in profile B a socket that opens and stays silent. *)
Lemma every_call_settles_witness :
  DashScope.promise
    (DashScope.session Sample.toString Sample.JSON_parse (js "hello") None None None
       (Some (js "sk-1")) None (js "task-1")
       [(5%N, Open); (40%N, Sample.frame failedA); (50%N, Close 1000 None)]) <> None /\
  (Nls.promise
     (Nls.session Sample.toString Sample.JSON_parse Sample.ids (js "hello") None None
        (Some (JStr (js "tok-1"))) None [(5%N, Open)]) <> None \/
   Nls.uncaught
     (Nls.session Sample.toString Sample.JSON_parse Sample.ids (js "hello") None None
        (Some (JStr (js "tok-1"))) None [(5%N, Open)]) <> None).
Proof.
  split.
  - apply (proj1 (every_call_settles Sample.toString Sample.JSON_parse Sample.ids
                    (js "hello") None None None (Some (js "sk-1")) None None (js "task-1")
                    (Some (JStr (js "tok-1")))
                    [(5%N, Open); (40%N, Sample.frame failedA); (50%N, Close 1000 None)])).
    vm_compute. reflexivity.
  - apply (proj2 (every_call_settles Sample.toString Sample.JSON_parse Sample.ids
                    (js "hello") None None None (Some (js "sk-1")) None None (js "task-1")
                    (Some (JStr (js "tok-1"))) [(5%N, Open)])).
Defined.

(** A good request served from the socket of the sample world. *)
Lemma dashscope_route_answers_witness :
  exists r,
    response (DashScope.api_tts Sample.toString Sample.JSON_parse
                (mkBody (Some (js "hello")) None None None None) worldA) = Some r /\
    (status r = 200 \/ status r = 400 \/ status r = 500)%N.
Proof.
  destruct (dashscope_route_always_answers Sample.toString Sample.JSON_parse
              (mkBody (Some (js "hello")) None None None None) worldA
              ltac:(vm_compute; reflexivity)) as (r & Hr & Hstatus & _).
  exists r. split; [exact Hr | exact Hstatus].
Defined.

(** A request that brings its own key to a server that has one. *)
Lemma request_key_witness :
  In (Connect DashScope.wsUrl [(js "Authorization", js "bearer user-key")])
    (network (DashScope.api_tts Sample.toString Sample.JSON_parse
                (mkBody (Some (js "hello")) None None None (Some (js "user-key"))) worldA)) /\
  exists key,
    key <> [] /\
    [(js "Authorization", js "bearer user-key")] = [(js "Authorization", js "bearer " ++ key)] /\
    (present (Some (js "user-key")) = true -> Some (js "user-key") = Some key).
Proof.
  assert (H1 : In (Connect DashScope.wsUrl [(js "Authorization", js "bearer user-key")])
                 (network (DashScope.api_tts Sample.toString Sample.JSON_parse
                             (mkBody (Some (js "hello")) None None None
                                (Some (js "user-key"))) worldA)))
    by (vm_compute; left; reflexivity).
  split; [exact H1|].
  destruct (dashscope_route_prefers_request_key Sample.toString Sample.JSON_parse
              (mkBody (Some (js "hello")) None None None (Some (js "user-key"))) worldA
              _ _ H1) as (_ & key & Hkey & Hheaders & Huser & _).
  exists key. split; [exact Hkey|]. split; [exact Hheaders | exact Huser].
Defined.

Local Abbreviation brokenExpiry :=
  (JObj [ (js "Token", JObj [ (js "Id", JStr (js "tok-2"));
                              (js "ExpireTime", Sample.unprintable) ]) ]).

(** A response whose token has an [ExpireTime] that does not convert to a
    number, on a cache that holds an expired token: the call is rejected and
    the cache holds the new [Id] with the old expiry. *)
Lemma rejected_refresh_witness :
  Nls.getNlsToken Sample.JSON_parse Sample.StringToNumber 1600000000000
    (Nls.mkTokenCache (Some (JStr (js "tok-0"))) (Some 1500000000000%Z))
    (Nls.HttpEnd (Sample.stringify brokenExpiry))
  = (Nls.TokenRejected (Nls.MSG_TOKEN_PARSE ++ Sample.stringify brokenExpiry),
     Nls.mkTokenCache (Some (JStr (js "tok-2"))) (Some 1500000000000%Z),
     [Post Nls.tokenHost]) /\
  Nls.expireTime (Nls.mkTokenCache (Some (JStr (js "tok-2"))) (Some 1500000000000%Z))
  = Nls.expireTime (Nls.mkTokenCache (Some (JStr (js "tok-0"))) (Some 1500000000000%Z)).
Proof.
  assert (H1 : Nls.getNlsToken Sample.JSON_parse Sample.StringToNumber 1600000000000
                 (Nls.mkTokenCache (Some (JStr (js "tok-0"))) (Some 1500000000000%Z))
                 (Nls.HttpEnd (Sample.stringify brokenExpiry))
               = (Nls.TokenRejected (Nls.MSG_TOKEN_PARSE ++ Sample.stringify brokenExpiry),
                  Nls.mkTokenCache (Some (JStr (js "tok-2"))) (Some 1500000000000%Z),
                  [Post Nls.tokenHost])) by (vm_compute; reflexivity).
  split; [exact H1|].
  exact (proj1 (proj2 (rejected_refresh_keeps_expiry Sample.JSON_parse Sample.StringToNumber
                         _ _ _ _ _ _ H1))).
Defined.

Local Abbreviation bareToken := (JObj [ (js "Id", JStr (js "tok-1")) ]).
Local Abbreviation bareResponse := (JObj [ (js "Token", bareToken) ]).

(** A response whose token has an [Id] and no [ExpireTime]. *)
Lemma token_without_expiry_witness :
  Sample.parse [bareResponse] (Sample.stringify bareResponse) = Some bareResponse /\
  Nls.ToNumber Sample.StringToNumber (get bareToken (js "ExpireTime")) = Normal None /\
  exists cache1,
    Nls.getNlsToken (Sample.parse [bareResponse]) Sample.StringToNumber 1600000000000
      Nls.tokenCache0 (Nls.HttpEnd (Sample.stringify bareResponse))
    = (Nls.TokenResolved (Some (JStr (js "tok-1"))), cache1, [Post Nls.tokenHost]) /\
    snd (Nls.getNlsToken (Sample.parse [bareResponse]) Sample.StringToNumber 1900000000000
           cache1 (Nls.HttpError (js "read ECONNRESET")))
    = [Post Nls.tokenHost].
Proof.
  assert (H1 : Sample.parse [bareResponse] (Sample.stringify bareResponse)
               = Some bareResponse) by (vm_compute; reflexivity).
  assert (H2 : Nls.ToNumber Sample.StringToNumber (get bareToken (js "ExpireTime"))
               = Normal None) by (vm_compute; reflexivity).
  split; [exact H1|]. split; [exact H2|].
  destruct (token_without_expiry_or_id_is_not_cached (Sample.parse [bareResponse])
              Sample.StringToNumber Nls.tokenCache0 1600000000000
              (Sample.stringify bareResponse) bareResponse bareToken None
              eq_refl H1 ltac:(vm_compute; reflexivity) eq_refl H2 (or_introl eq_refl))
    as (cache1 & Hcall & Hnever).
  exists cache1. split; [exact Hcall | apply Hnever].
Defined.

Local Abbreviation worldDown :=
  (Nls.mkWorld (Some (js "appkey-1")) 1600000000000%Z
     (Nls.HttpError (js "read ECONNRESET")) Sample.ids
     [(5%N, Open); (40%N, Sample.chunk "ab"); (70%N, Message finishedB false)]
     1700000000000%Z (js "0a1b2c3d4e5f") None (fun fileName => js "https://cdn/" ++ fileName)).

(** A good request while the token service is down. *)
Lemma nls_route_token_failure_witness :
  text (mkBody (Some (js "hello")) None None None None) = Some (js "hello") /\
  (List.length (js "hello") <= 2000)%nat /\
  Nls.api_tts Sample.toString Sample.JSON_parse Sample.StringToNumber
    (mkBody (Some (js "hello")) None None None None) Nls.tokenCache0 worldDown
  = (mkOutcome (Some (failure 500 (js "read ECONNRESET"))) [Post Nls.tokenHost],
     Nls.tokenCache0).
Proof.
  assert (H1 : text (mkBody (Some (js "hello")) None None None None) = Some (js "hello"))
    by reflexivity.
  assert (H2 : (List.length (js "hello") <= 2000)%nat) by (vm_compute; lia).
  split; [exact H1|]. split; [exact H2|].
  exact (proj1 (nls_route_token_failure Sample.toString Sample.JSON_parse
                  Sample.StringToNumber (mkBody (Some (js "hello")) None None None None)
                  Nls.tokenCache0 worldDown 104%N (tl (js "hello")) H1 H2 eq_refl)
           (js "read ECONNRESET") eq_refl).
Defined.


(** ** The failure event that is not reported, at sample requests *)

Local Abbreviation worldBroken :=
  (DashScope.mkWorld (Some (js "sk-1")) (js "task-1")
     [(5%N, Open); (40%N, Sample.chunk "ab"); (70%N, Sample.frame brokenA);
      (80%N, Close 1000 None)]
     1700000000000%Z (js "0a1b2c3d") None (fun fileName => js "https://cdn/" ++ fileName)).

(** The request of profile A whose session receives the failure event with
    a message that does not convert is never answered; with the message as a
    string it is answered 500 with that message. *)
Example dashscope_unprintable_failure_is_not_answered :
  response (DashScope.api_tts Sample.toString Sample.JSON_parse
              (mkBody (Some (js "hello")) None None None None) worldBroken) = None /\
  response (DashScope.api_tts Sample.toString Sample.JSON_parse
              (mkBody (Some (js "hello")) None None None None)
              (DashScope.mkWorld (Some (js "sk-1")) (js "task-1")
                 [(5%N, Open); (40%N, Sample.chunk "ab"); (70%N, Sample.frame failedA);
                  (80%N, Close 1000 None)]
                 1700000000000%Z (js "0a1b2c3d") None (fun fileName => fileName)))
  = Some (failure 500 (js "quota exceeded")).
Proof. split; vm_compute; reflexivity. Qed.

(** The states the two sessions are left in: in profile A the latch is set,
    the timer cleared and the socket closed on a pending promise; in profile
    B the exception has left the listener. *)
Example unprintable_failure_in_both_profiles :
  (let s := DashScope.session Sample.toString Sample.JSON_parse (js "hello") None None None
              (Some (js "sk-1")) None (js "task-1")
              [(5%N, Open); (70%N, Sample.frame brokenA); (80%N, Close 1000 None)] in
   DashScope.promise s = None /\ DashScope.isSettled s = true /\
   DashScope.timeout s = Some Cleared /\ closed_A s = true /\
   DashScope.console s
   = [ Log [JStr (js "[TTS] WebSocket 已连接 DashScope")];
       Err [JStr (js "[TTS] 任务失败:"); Sample.unprintable];
       Warn (js "[TTS] 解析消息失败:") TypeError ]) /\
  (let s := Nls.session Sample.toString Sample.JSON_parse Sample.ids (js "hello") None None
              (Some (JStr (js "tok-1"))) None
              [(5%N, Open); (70%N, Sample.frame brokenB); (80%N, Error (js "socket hang up"))] in
   Nls.promise s = None /\ Nls.uncaught s = Some TypeError /\
   Nls.timeout s = Some Cleared /\ closed_B s = true).
Proof. vm_compute. repeat split; reflexivity. Qed.

(** A token that does not convert to a string: the call of profile B is
    rejected as it starts and builds no socket. *)
Example nls_unprintable_token :
  let s := Nls.session Sample.toString Sample.JSON_parse Sample.ids (js "hello") None None
             (Some Sample.unprintable) None [(5%N, Open)] in
  Nls.promise s = Some (Rejected MSG_NOT_PRIMITIVE) /\ Nls.ws s = None /\
  Nls.timeout s = None /\ Nls.connections s = [].
Proof. vm_compute. repeat split; reflexivity. Qed.

(** The content type profile A hands to the upload for formats that are no
    key of its table of its own. *)
Example dashscope_inherited_format :
  DashScope.contentType (js "constructor") = Inherited (js "constructor") /\
  DashScope.contentType (js "__proto__") = Inherited (js "__proto__") /\
  DashScope.contentType (js "flac") = Mime (js "audio/mpeg") /\
  DashScope.contentType (js "opus") = Mime (js "audio/ogg").
Proof. vm_compute. repeat split; reflexivity. Qed.
